(** * paperless-cli: the API access layer and the document commands

    A shallow embedding of [internal/api] (the HTTP client) and of
    [cmd/documents.go] (the document commands), together with the parts of
    Go's standard library they call.

    Conventions.
    - A Go [string] is a sequence of bytes: [String.string], one [ascii]
      per byte; [len] is the byte length.
    - A Go [int] is a 64-bit two's complement integer: a [Z] in
      [int_range], with the wrap-around written out where the code does
      arithmetic.
    - A Go [error] is its message.
    - The network, the file system and the terminal are oracles (Section
      variables); every function that touches them threads a [World]
      holding the log of what was done. *)

From Stdlib Require Import ZArith Strings.String Strings.Ascii
  Numbers.DecimalString Lia List.
From Stdlib Require DecimalPos.
From stdpp Require Import base gmap strings list sorting.

Local Open Scope string_scope.
Local Open Scope Z_scope.

(** ** Go's builtin types *)

Module Go.

Definition int_min : Z := - 2 ^ 63.
Definition int_max : Z := 2 ^ 63 - 1.

Definition int_range (z : Z) : Prop := int_min <= z <= int_max.

(** Two's complement wrap-around of an [int] result. *)
Definition wrap_int (z : Z) : Z := (z + 2 ^ 63) mod 2 ^ 64 - 2 ^ 63.

(** [len(s)] *)
Definition len (s : string) : Z := Z.of_nat (String.length s).

(** The value of a byte. *)
Definition byte_val (c : ascii) : Z := Z.of_N (N_of_ascii c).

(** [s[:k]]; [None] is the run-time panic "slice bounds out of range". *)
Definition slice_to (s : string) (k : Z) : option string :=
  if (0 <=? k) && (k <=? len s) then Some (substring 0 (Z.to_nat k) s)
  else None.

(** [s[k:]]; [None] is the run-time panic. *)
Definition slice_from (s : string) (k : Z) : option string :=
  if (0 <=? k) && (k <=? len s)
  then Some (substring (Z.to_nat k) (String.length s - Z.to_nat k) s)
  else None.

(** A Go [error] value: its message. *)
Definition error := string.

(** A call that returns [(value, error)]. *)
Inductive result (A : Type) : Type :=
| Ok (a : A)
| Err (e : error).
Arguments Ok {A} a.
Arguments Err {A} e.

Definition is_ok {A} (r : result A) : bool :=
  match r with Ok _ => true | Err _ => false end.

End Go.
Export Go.

(** ** package strconv *)

Module strconv.

Definition is_digit (c : ascii) : bool :=
  (48 <=? byte_val c) && (byte_val c <=? 57).

(** The digit loop of [ParseUint] in base 10: [None] on a byte that is not
    a digit. The accumulator is unbounded; [Atoi] checks the range. *)
Fixpoint digits (s : string) (acc : Z) : option Z :=
  match s with
  | EmptyString => Some acc
  | String c s' =>
      if is_digit c then digits s' (acc * 10 + (byte_val c - 48)) else None
  end.

(** [strconv.Atoi]. [None] stands for [err != nil] (a syntax error or a
    value out of the range of [int]); no caller in this program looks at
    the error or at the value returned with it. *)
Definition Atoi (s : string) : option Z :=
  match s with
  | EmptyString => None
  | String c s' =>
      let neg := Ascii.eqb c "-" in
      let body := if neg || Ascii.eqb c "+" then s' else s in
      match body with
      | EmptyString => None
      | _ =>
          match digits body 0 with
          | None => None
          | Some n =>
              let v := if neg then - n else n in
              if (int_min <=? v) && (v <=? int_max) then Some v else None
          end
      end
  end.

(** [strconv.Itoa], and the [%d] verb of [fmt]. *)
Definition Itoa (z : Z) : string := NilZero.string_of_int (Z.to_int z).

End strconv.

(** ** package strings *)

Module strings.

(** [strings.HasSuffix] *)
Fixpoint HasSuffix (s suffix : string) : bool :=
  String.eqb s suffix ||
  match s with
  | EmptyString => false
  | String _ s' => HasSuffix s' suffix
  end.

(** [strings.TrimSuffix]: [s] without the suffix, once, when it ends with
    it. *)
Definition TrimSuffix (s suffix : string) : string :=
  if HasSuffix s suffix
  then substring 0 (String.length s - String.length suffix) s
  else s.

(** Membership of a byte in a cutset. *)
Fixpoint in_cutset (c : ascii) (cutset : string) : bool :=
  match cutset with
  | EmptyString => false
  | String d cutset' => Ascii.eqb c d || in_cutset c cutset'
  end.

(** [strings.TrimLeft] for a cutset of ASCII bytes (the only cutsets this
    program uses): Go then works byte by byte. *)
Fixpoint TrimLeft (s cutset : string) : string :=
  match s with
  | EmptyString => EmptyString
  | String c s' => if in_cutset c cutset then TrimLeft s' cutset else s
  end.

(** [strings.TrimRight], same cutsets. *)
Fixpoint TrimRight (s cutset : string) : string :=
  match s with
  | EmptyString => EmptyString
  | String c s' =>
      match TrimRight s' cutset with
      | EmptyString => if in_cutset c cutset then EmptyString else String c EmptyString
      | r => String c r
      end
  end.

(** [strings.Trim] *)
Definition Trim (s cutset : string) : string :=
  TrimRight (TrimLeft s cutset) cutset.

(** [strings.HasPrefix] *)
Definition HasPrefix (s pre : string) : bool := String.prefix pre s.

(** [strings.Index]: the index of the first occurrence of [substr] in
    [s], or [-1]. *)
Fixpoint Index (s substr : string) : Z :=
  if HasPrefix s substr then 0
  else match s with
       | EmptyString => -1
       | String _ s' =>
           match Index s' substr with
           | -1 => -1
           | i => i + 1
           end
       end.

Definition is_upper (c : ascii) : bool :=
  (65 <=? byte_val c) && (byte_val c <=? 90).

(** One step of the ASCII loop of [strings.EqualFold]: equal bytes, or an
    upper-case letter and its lower-case form. *)
Definition fold_eq_ascii (sr tr : ascii) : bool :=
  if Ascii.eqb tr sr then true
  else
    let lo := if byte_val tr <? byte_val sr then tr else sr in
    let hi := if byte_val tr <? byte_val sr then sr else tr in
    is_upper lo && (byte_val hi =? byte_val lo + 32).

Section EqualFold.

(** At the first position where either string has a byte outside ASCII,
    [strings.EqualFold] continues rune by rune under Unicode simple case
    folding. The folding tables belong to package [unicode]; the function
    is taken on the two remaining suffixes. *)
Variable hasUnicode : string -> string -> bool.

(** [strings.EqualFold] *)
Fixpoint EqualFold (s t : string) : bool :=
  match s, t with
  | String sr s', String tr t' =>
      if (128 <=? byte_val sr) || (128 <=? byte_val tr) then hasUnicode s t
      else if fold_eq_ascii sr tr then EqualFold s' t'
      else false
  | EmptyString, EmptyString => true
  | _, _ => false
  end.

End EqualFold.

End strings.

(** ** package path/filepath (Unix) *)

Module filepath.

Definition is_sep (c : ascii) : bool := Ascii.eqb c "/".

Fixpoint contains_sep (s : string) : bool :=
  match s with
  | EmptyString => false
  | String c s' => is_sep c || contains_sep s'
  end.

(** What follows the last separator of [path]; [path] itself when it has
    none. *)
Fixpoint after_last_sep (path : string) : string :=
  match path with
  | EmptyString => EmptyString
  | String c path' =>
      if contains_sep path' then after_last_sep path'
      else if is_sep c then path'
      else path
  end.

(** [filepath.Base]: the last element of [path], trailing separators
    removed first; ["."] for the empty path and ["/"] for a path of
    separators only. *)
Definition Base (path : string) : string :=
  match path with
  | EmptyString => "."
  | _ =>
      match after_last_sep (strings.TrimRight path "/") with
      | EmptyString => "/"
      | e => e
      end
  end.

(** The suffix of [s] starting at its last dot, or the empty string. *)
Fixpoint from_last_dot (s : string) : string :=
  match s with
  | EmptyString => EmptyString
  | String c s' =>
      match from_last_dot s' with
      | EmptyString => if Ascii.eqb c "." then s else EmptyString
      | r => r
      end
  end.

(** [filepath.Ext]: the suffix beginning at the final dot in the final
    element of [path]. *)
Definition Ext (path : string) : string :=
  from_last_dot (after_last_sep path).

End filepath.

(** ** package net/url *)

Module url.

(** [shouldEscape(c, encodeQueryComponent)]: everything but the unreserved
    bytes is escaped. *)
Definition shouldEscape (c : ascii) : bool :=
  let v := byte_val c in
  negb (((97 <=? v) && (v <=? 122)) || ((65 <=? v) && (v <=? 90))
        || ((48 <=? v) && (v <=? 57))
        || (v =? 45) || (v =? 95) || (v =? 46) || (v =? 126)).

Definition upperhex (n : Z) : ascii :=
  if n <? 10 then ascii_of_N (Z.to_N (48 + n))
  else ascii_of_N (Z.to_N (55 + n)).

(** [url.QueryEscape] *)
Fixpoint QueryEscape (s : string) : string :=
  match s with
  | EmptyString => EmptyString
  | String c s' =>
      if Ascii.eqb c " " then String "+" (QueryEscape s')
      else if shouldEscape c then
        String "%" (String (upperhex (Z.shiftr (byte_val c) 4))
                   (String (upperhex (Z.land (byte_val c) 15)) (QueryEscape s')))
      else String c (QueryEscape s')
  end.

(** [url.Values] is [map[string][]string]. *)
Abbreviation Values := (gmap string (list string)).

(** [v.Set(key, value)] *)
Definition Set_ (v : Values) (key value : string) : Values :=
  <[key := [value]]> v.

(** [v.Add(key, value)] *)
Definition Add (v : Values) (key value : string) : Values :=
  <[key := (default [] (v !! key) ++ [value])%list]> v.

Fixpoint join (sep : string) (l : list string) : string :=
  match l with
  | [] => ""
  | [x] => x
  | x :: l' => x +:+ sep +:+ join sep l'
  end.

(** [v.Encode()]: ["k=v"] pairs, keys in sorted order, joined by ["&"]. *)
Definition Encode (v : Values) : string :=
  join "&"
    (flat_map
       (fun k => List.map (fun x => QueryEscape k +:+ "=" +:+ QueryEscape x)
                          (default [] (v !! k)))
       (merge_sort String.le (map_to_list v).*1)).

End url.

(** ** package net/http *)

Module http.

(** [http.Header] is [map[string][]string]; the keys this program uses are
    already in canonical form. *)
Abbreviation Header := (gmap string (list string)).

Definition Header_Set (h : Header) (key value : string) : Header :=
  <[key := [value]]> h.

Definition Header_Get (h : Header) (key : string) : string :=
  match h !! key with
  | Some (v :: _) => v
  | _ => ""
  end.

Definition StatusOK : Z := 200.
Definition StatusCreated : Z := 201.
Definition StatusAccepted : Z := 202.
Definition StatusNoContent : Z := 204.
Definition StatusNotFound : Z := 404.

(** One part of a [multipart.Writer] body. *)
Inductive Part : Type :=
| FormFile (fieldname filename content : string)
| Field (fieldname value : string).

(** A request body. *)
Inductive ReqBody : Type :=
| NoBody
| Bytes (data : string)
| Multipart (boundary : string) (parts : list Part).

Record Request : Type := {
  Method : string;
  URL : string;
  ReqHeader : Header;
  Body : ReqBody
}.

(** A response body is a stream: [io.ReadAll] returns the bytes read and
    the error that ended the read, if any. *)
Record Stream : Type := {
  data : string;
  read_error : option error
}.

Record Response : Type := {
  StatusCode : Z;
  RespHeader : Header;
  RespBody : Stream
}.

(** [time.Duration], in nanoseconds. *)
Definition Second : Z := 1000000000.

(** [http.Client] *)
Record Client : Type := { Timeout : Z }.

(** One call of [httpClient.Do(req)]. *)
Record Exchange : Type := {
  via : Client;
  sent : Request
}.

End http.

(** ** The world outside the program *)

(** What the program wrote to the terminal. *)
Inductive Output : Type :=
| Stdout (s : string)
| Stderr (s : string)
| StdoutJSON (v : gmap string string).

Record World : Type := {
  exchanges : list http.Exchange;
  terminal : list Output
}.

Definition M (A : Type) : Type := World -> A * World.

Definition ret {A} (a : A) : M A := fun w => (a, w).

Definition bind {A B} (m : M A) (k : A -> M B) : M B :=
  fun w => let (a, w') := m w in k a w'.

(** [if err != nil { return err }] *)
Definition try {A B} (m : M (result A)) (k : A -> M (result B)) : M (result B) :=
  bind m (fun r => match r with
                   | Ok a => k a
                   | Err e => ret (Err e)
                   end).

Declare Scope go_scope.
Delimit Scope go_scope with go.
Notation "x <- m ;; k" := (bind m (fun x => k))
  (at level 100, m at next level, right associativity) : go_scope.
Notation "x <-? m ;; k" := (try m (fun x => k))
  (at level 100, m at next level, right associativity) : go_scope.
Local Open Scope go_scope.

Definition print (o : Output) : M unit :=
  fun w => (tt, {| exchanges := exchanges w; terminal := (terminal w ++ [o])%list |}).

Definition io_ReadAll (b : http.Stream) : string * option error :=
  (http.data b, http.read_error b).

(** ** package internal/api *)

Module api.

Import http.

(** [time.Time]: only carried around. *)
Definition Time : Type := Z.

Module Document.
Record t : Type := {
  ID : Z;
  Correspondent : option Z;
  DocumentType : option Z;
  StoragePath : option Z;
  Title : string;
  Content : string;
  Tags : list Z;
  Created : Time;
  CreatedDate : string;
  Modified : Time;
  Added : Time;
  ArchiveSerialNumber : option Z;
  OriginalFileName : string;
  ArchivedFileName : string
}.
End Document.

Module Tag.
Record t : Type := {
  ID : Z;
  Slug : string;
  Name : string;
  Color : string;
  TextColor : string;
  Match : string;
  MatchingAlgo : Z;
  IsInsensitive : bool;
  IsInboxTag : bool;
  DocumentCount : Z
}.
End Tag.

Module Correspondent.
Record t : Type := {
  ID : Z;
  Slug : string;
  Name : string;
  Match : string;
  MatchingAlgo : Z;
  IsInsensitive : bool;
  DocumentCount : Z;
  LastCorrespond : string
}.
End Correspondent.

Module DocumentType.
Record t : Type := {
  ID : Z;
  Slug : string;
  Name : string;
  Match : string;
  MatchingAlgo : Z;
  IsInsensitive : bool;
  DocumentCount : Z
}.
End DocumentType.

Module StoragePath.
Record t : Type := {
  ID : Z;
  Slug : string;
  Name : string;
  Path : string;
  Match : string;
  MatchingAlgo : Z;
  IsInsensitive : bool;
  DocumentCount : Z
}.
End StoragePath.

Module SavedView.
Record t : Type := {
  ID : Z;
  Name : string;
  ShowOnDashboard : bool;
  ShowInSidebar : bool;
  SortField : string;
  SortReverse : bool;
  FilterRules : list string
}.
End SavedView.

Module Task.
Record t : Type := {
  ID : Z;
  TaskID : string;
  TaskFileName : string;
  DateCreated : string;
  DateDone : string;
  Type_ : string;
  Status : string;
  Result : string;
  Acknowledged : bool;
  RelatedDoc : string
}.
End Task.

(** [PaginatedResponse[T]] *)
Record PaginatedResponse (T : Type) : Type := {
  Count : Z;
  Next : string;
  Previous : string;
  Results : list T;
  All : list Z
}.
Arguments Count {T} _.
Arguments Next {T} _.
Arguments Previous {T} _.
Arguments Results {T} _.
Arguments All {T} _.

(** [DocumentListParams] *)
Record DocumentListParams : Type := {
  Query : string;
  Tags : list string;
  Correspondent : string;
  DocumentType : string;
  CreatedAfter : string;
  CreatedBefore : string;
  Limit : Z;
  Page : Z;
  Ordering : string
}.

(** A value stored in a [map[string]interface{}] of updates. *)
Inductive Value : Type :=
| VNil
| VInt (n : Z)
| VString (s : string)
| VInts (l : list Z).

(** [Client] *)
Record Client : Type := {
  baseURL : string;
  token : string;
  httpClient : http.Client
}.

(** [NewClient] *)
Definition NewClient (baseURL token : string) : Client :=
  (* Ensure baseURL doesn't have trailing slash *)
  let baseURL := strings.TrimSuffix baseURL "/" in
  {| baseURL := baseURL;
     token := token;
     httpClient := {| Timeout := 30 * Second |} |}.

(** What [encoding/json] does with the bodies of this API. *)
Record Codec : Type := {
  decodeDocument : Stream -> result Document.t;
  decodeDocuments : Stream -> result (PaginatedResponse Document.t);
  decodeTags : Stream -> result (PaginatedResponse Tag.t);
  decodeCorrespondents : Stream -> result (PaginatedResponse Correspondent.t);
  decodeDocumentTypes : Stream -> result (PaginatedResponse DocumentType.t);
  decodeStoragePaths : Stream -> result (PaginatedResponse StoragePath.t);
  decodeSavedViews : Stream -> result (PaginatedResponse SavedView.t);
  decodeTasks : Stream -> result (list Task.t);
  marshalUpdates : gmap string Value -> result string;
  marshalDocument : Document.t -> result string
}.

(** A file as [os.Open] and the reads that follow find it. *)
Inductive File : Type :=
| Missing
| OpenError (e : error)
| ReadError (e : error)
| Content (bytes : string).

(** [GlobalSearchResult] *)
Record GlobalSearchResult : Type := {
  Documents : list Document.t;
  SavedViews : list SavedView.t;
  Correspondents : list Correspondent.t;
  DocumentTypes : list DocumentType.t;
  StoragePaths : list StoragePath.t;
  SearchTags : list Tag.t
}.

(** What [encoding/json] does with the bodies that hold one record. *)
Record EntityCodec : Type := {
  decodeTag : Stream -> result Tag.t;
  decodeCorrespondent : Stream -> result Correspondent.t;
  decodeDocumentType : Stream -> result DocumentType.t;
  decodeStoragePath : Stream -> result StoragePath.t;
  decodeSavedView : Stream -> result SavedView.t;
  decodeSearch : Stream -> result GlobalSearchResult
}.

Section Client.

(** The HTTP layer: what [http.NewRequest] followed by [httpClient.Do]
    returns for a request, given the exchanges made before it. *)
Variable transport : list Exchange -> Exchange -> result Response.

Variable json : Codec.

Variable fs : string -> File.

(** The boundary [multipart.NewWriter] draws at random, by the number of
    exchanges made so far. *)
Variable boundary : nat -> string.

Variable hasUnicode : string -> string -> bool.

(** [request] makes an authenticated request to the API. *)
Definition request (c : Client) (method path : string) (body : ReqBody)
    (contentType : string) : M (result Response) :=
  fun w =>
    let url := baseURL c +:+ path in
    let h := Header_Set ∅ "Authorization" ("Token " +:+ token c) in
    let h := if negb (String.eqb contentType "")
             then Header_Set h "Content-Type" contentType else h in
    let h := Header_Set h "Accept" "application/json; version=5" in
    let ex := {| via := httpClient c;
                 sent := {| Method := method; URL := url;
                            ReqHeader := h; Body := body |} |} in
    (transport (exchanges w) ex,
     {| exchanges := (exchanges w ++ [ex])%list; terminal := terminal w |}).

Definition get (c : Client) (path : string) : M (result Response) :=
  request c "GET" path NoBody "".

Definition patch (c : Client) (path : string) (data : gmap string Value)
    : M (result Response) :=
  match marshalUpdates json data with
  | Err e => ret (Err e)
  | Ok body => request c "PATCH" path (Bytes body) "application/json"
  end.

Definition delete (c : Client) (path : string) : M (result Response) :=
  request c "DELETE" path NoBody "".

(** [fmt.Errorf(prefix + " %d: %s", resp.StatusCode, string(body))] after
    [body, _ := io.ReadAll(resp.Body)]. *)
Definition status_error (prefix : string) (resp : Response) : error :=
  let (body, _) := io_ReadAll (RespBody resp) in
  prefix +:+ " " +:+ strconv.Itoa (StatusCode resp) +:+ ": " +:+ body.

(** The query of [ListDocuments]. *)
Definition documents_query (params : DocumentListParams) : url.Values :=
  let query : url.Values := ∅ in
  let query := if negb (String.eqb (Query params) "")
               then url.Set_ query "query" (Query params) else query in
  let query := fold_left (fun q tag => url.Add q "tags__name__iexact" tag)
                         (Tags params) query in
  let query := if negb (String.eqb (Correspondent params) "")
               then url.Set_ query "correspondent__name__iexact" (Correspondent params)
               else query in
  let query := if negb (String.eqb (DocumentType params) "")
               then url.Set_ query "document_type__name__iexact" (DocumentType params)
               else query in
  let query := if negb (String.eqb (CreatedAfter params) "")
               then url.Set_ query "created__date__gt" (CreatedAfter params)
               else query in
  let query := if negb (String.eqb (CreatedBefore params) "")
               then url.Set_ query "created__date__lt" (CreatedBefore params)
               else query in
  let query := if 0 <? Limit params
               then url.Set_ query "page_size" (strconv.Itoa (Limit params))
               else query in
  let query := if 0 <? Page params
               then url.Set_ query "page" (strconv.Itoa (Page params))
               else query in
  let query := if negb (String.eqb (Ordering params) "")
               then url.Set_ query "ordering" (Ordering params) else query in
  query.

Definition documents_path (params : DocumentListParams) : string :=
  let query := documents_query params in
  let path := "/api/documents/" in
  if (0 <? size query)%nat then path +:+ "?" +:+ url.Encode query else path.

(** [GET path], status 200 required, body decoded: the body shared by the
    [List...] functions. *)
Definition get_decoded {T} (c : Client) (path : string)
    (decode : Stream -> result T) : M (result T) :=
  resp <-? get c path ;;
  if negb (StatusCode resp =? StatusOK)
  then ret (Err (status_error "API error" resp))
  else ret (decode (RespBody resp)).

(** [ListDocuments] lists documents with optional filters. *)
Definition ListDocuments (c : Client) (params : DocumentListParams)
    : M (result (PaginatedResponse Document.t)) :=
  get_decoded c (documents_path params) (decodeDocuments json).

(** [GetDocument] gets a single document by ID. *)
Definition GetDocument (c : Client) (id : Z) : M (result Document.t) :=
  resp <-? get c ("/api/documents/" +:+ strconv.Itoa id +:+ "/") ;;
  if StatusCode resp =? StatusNotFound
  then ret (Err ("document " +:+ strconv.Itoa id +:+ " not found"))
  else if negb (StatusCode resp =? StatusOK)
  then ret (Err (status_error "API error" resp))
  else ret (decodeDocument json (RespBody resp)).

(** The double-quote byte, as a string. *)
Definition dquote : string := String "034" "".

(** The parts [UploadDocument] writes. *)
Definition upload_parts (filePath bytes title : string)
    (correspondent docType : option Z) (tags : list Z) : list Part :=
  ([FormFile "document" (filepath.Base filePath) bytes]
   ++ (if negb (String.eqb title "") then [Field "title" title] else [])
   ++ match correspondent with
      | Some n => [Field "correspondent" (strconv.Itoa n)]
      | None => []
      end
   ++ match docType with
      | Some n => [Field "document_type" (strconv.Itoa n)]
      | None => []
      end
   ++ List.map (fun tag => Field "tags" (strconv.Itoa tag)) tags)%list.

(** What [UploadDocument] does with the response. *)
Definition upload_result (resp : Response) : result string :=
  if negb (StatusCode resp =? StatusOK)
     && negb (StatusCode resp =? StatusCreated)
     && negb (StatusCode resp =? StatusAccepted)
  then Err (status_error "upload failed" resp)
  else
    (* The response contains a task ID *)
    let (respBody, _) := io_ReadAll (RespBody resp) in
    (* Response is just a task UUID string *)
    Ok (strings.Trim respBody (dquote +:+ " " +:+ String "010" "")).

(** [UploadDocument] uploads a document file. *)
Definition UploadDocument (c : Client) (filePath title : string)
    (correspondent docType : option Z) (tags : list Z) : M (result string) :=
  match fs filePath with
  | Missing => ret (Err ("open " +:+ filePath +:+ ": no such file or directory"))
  | OpenError e => ret (Err e)
  | ReadError e => ret (Err e)
  | Content bytes =>
      fun w =>
        let b := boundary (length (exchanges w)) in
        (resp <-? request c "POST" "/api/documents/post_document/"
                    (Multipart b (upload_parts filePath bytes title correspondent docType tags))
                    ("multipart/form-data; boundary=" +:+ b) ;;
         ret (upload_result resp)) w
  end.

(** The file name [DownloadDocument] reads from the response header. *)
Definition download_filename (h : Header) : string :=
  let cd := Header_Get h "Content-Disposition" in
  if negb (String.eqb cd "") then
    let idx := strings.Index cd "filename=" in
    if negb (idx =? -1) then
      match slice_from cd (idx + 9) with
      | Some rest => strings.Trim rest dquote
      | None => ""
      end
    else ""
  else "".

(** What [DownloadDocument] does with the response. *)
Definition download_result (resp : Response) : result (string * string) :=
  if negb (StatusCode resp =? StatusOK)
  then Err (status_error "download failed" resp)
  else
    match io_ReadAll (RespBody resp) with
    | (_, Some err) => Err err
    | (data, None) => Ok (data, download_filename (RespHeader resp))
    end.

(** [DownloadDocument] downloads a document file. *)
Definition DownloadDocument (c : Client) (id : Z) (original : bool)
    : M (result (string * string)) :=
  let path := "/api/documents/" +:+ strconv.Itoa id +:+ "/download/" in
  let path := if original then path +:+ "?original=true" else path in
  resp <-? get c path ;;
  ret (download_result resp).

(** [UpdateDocument] updates a document's metadata. *)
Definition UpdateDocument (c : Client) (id : Z) (updates : gmap string Value)
    : M (result Document.t) :=
  resp <-? patch c ("/api/documents/" +:+ strconv.Itoa id +:+ "/") updates ;;
  if negb (StatusCode resp =? StatusOK)
  then ret (Err (status_error "update failed" resp))
  else ret (decodeDocument json (RespBody resp)).

(** What [DeleteDocument] does with the response. *)
Definition delete_result (resp : Response) : result unit :=
  if negb (StatusCode resp =? StatusNoContent)
     && negb (StatusCode resp =? StatusOK)
  then Err (status_error "delete failed" resp)
  else Ok tt.

(** [DeleteDocument] deletes a document. *)
Definition DeleteDocument (c : Client) (id : Z) : M (result unit) :=
  resp <-? delete c ("/api/documents/" +:+ strconv.Itoa id +:+ "/") ;;
  ret (delete_result resp).

(** [ListTags] lists all tags. *)
Definition ListTags (c : Client) : M (result (PaginatedResponse Tag.t)) :=
  get_decoded c "/api/tags/?page_size=1000" (decodeTags json).

(** [ListCorrespondents] lists all correspondents. *)
Definition ListCorrespondents (c : Client)
    : M (result (PaginatedResponse Correspondent.t)) :=
  get_decoded c "/api/correspondents/?page_size=1000" (decodeCorrespondents json).

(** [ListDocumentTypes] lists all document types. *)
Definition ListDocumentTypes (c : Client)
    : M (result (PaginatedResponse DocumentType.t)) :=
  get_decoded c "/api/document_types/?page_size=1000" (decodeDocumentTypes json).

(** [ListStoragePaths] lists all storage paths. *)
Definition ListStoragePaths (c : Client)
    : M (result (PaginatedResponse StoragePath.t)) :=
  get_decoded c "/api/storage_paths/?page_size=1000" (decodeStoragePaths json).

(** [ListSavedViews] lists all saved views. *)
Definition ListSavedViews (c : Client)
    : M (result (PaginatedResponse SavedView.t)) :=
  get_decoded c "/api/saved_views/?page_size=1000" (decodeSavedViews json).

(** What [GetTask] does with the decoded list. *)
Definition first_task (taskID : string) (tasks : list Task.t) : result Task.t :=
  match tasks with
  | [] => Err ("task " +:+ taskID +:+ " not found")
  | t :: _ => Ok t
  end.

(** [GetTask] gets a task by ID. *)
Definition GetTask (c : Client) (taskID : string) : M (result Task.t) :=
  tasks <-? get_decoded c ("/api/tasks/?task_id=" +:+ taskID) (decodeTasks json) ;;
  ret (first_task taskID tasks).

(** The loop of the [Find...ByName] functions: the first record whose
    name equals [name] under [strings.EqualFold]. *)
Fixpoint first_named {T} (Name : T -> string) (name : string) (rs : list T)
    : option T :=
  match rs with
  | [] => None
  | r :: rs' =>
      if strings.EqualFold hasUnicode (Name r) name then Some r
      else first_named Name name rs'
  end.

(** The body shared by the [Find...ByName] functions. *)
Definition find_by_name {T} (list_all : M (result (PaginatedResponse T)))
    (Name : T -> string) (kind name : string) : M (result T) :=
  page <-? list_all ;;
  match first_named Name name (Results page) with
  | Some r => ret (Ok r)
  | None => ret (Err (kind +:+ " not found: " +:+ name))
  end.

(** [FindTagByName] finds a tag by name. *)
Definition FindTagByName (c : Client) (name : string) : M (result Tag.t) :=
  find_by_name (ListTags c) Tag.Name "tag" name.

(** [FindCorrespondentByName] finds a correspondent by name. *)
Definition FindCorrespondentByName (c : Client) (name : string)
    : M (result Correspondent.t) :=
  find_by_name (ListCorrespondents c) Correspondent.Name "correspondent" name.

(** [FindDocumentTypeByName] finds a document type by name. *)
Definition FindDocumentTypeByName (c : Client) (name : string)
    : M (result DocumentType.t) :=
  find_by_name (ListDocumentTypes c) DocumentType.Name "document type" name.

(** [FindStoragePathByName] finds a storage path by name. *)
Definition FindStoragePathByName (c : Client) (name : string)
    : M (result StoragePath.t) :=
  find_by_name (ListStoragePaths c) StoragePath.Name "storage path" name.

Variable entities : EntityCodec.

(** [post] makes a POST request with JSON body. *)
Definition post (c : Client) (path : string) (data : gmap string Value)
    : M (result Response) :=
  match marshalUpdates json data with
  | Err e => ret (Err e)
  | Ok body => request c "POST" path (Bytes body) "application/json"
  end.

(** The body shared by the [Get...] functions of one record: 404 is
    "<kind> <id> not found", any other status but 200 an API error. *)
Definition get_one {T} (c : Client) (resource kind : string) (id : Z)
    (decode : Stream -> result T) : M (result T) :=
  resp <-? get c ("/api/" +:+ resource +:+ "/" +:+ strconv.Itoa id +:+ "/") ;;
  if StatusCode resp =? StatusNotFound
  then ret (Err (kind +:+ " " +:+ strconv.Itoa id +:+ " not found"))
  else if negb (StatusCode resp =? StatusOK)
  then ret (Err (status_error "API error" resp))
  else ret (decode (RespBody resp)).

(** [GetTag] gets a single tag by ID. *)
Definition GetTag (c : Client) (id : Z) : M (result Tag.t) :=
  get_one c "tags" "tag" id (decodeTag entities).

(** [GetCorrespondent] gets a single correspondent by ID. *)
Definition GetCorrespondent (c : Client) (id : Z) : M (result Correspondent.t) :=
  get_one c "correspondents" "correspondent" id (decodeCorrespondent entities).

(** [GetDocumentType] gets a single document type by ID. *)
Definition GetDocumentType (c : Client) (id : Z) : M (result DocumentType.t) :=
  get_one c "document_types" "document type" id (decodeDocumentType entities).

(** [GetStoragePath] gets a single storage path by ID. *)
Definition GetStoragePath (c : Client) (id : Z) : M (result StoragePath.t) :=
  get_one c "storage_paths" "storage path" id (decodeStoragePath entities).

(** [GetSavedView] gets a single saved view by ID. *)
Definition GetSavedView (c : Client) (id : Z) : M (result SavedView.t) :=
  get_one c "saved_views" "saved view" id (decodeSavedView entities).

(** The body shared by the [Create...] functions: 201 and 200 are
    success. *)
Definition create {T} (c : Client) (path : string) (data : gmap string Value)
    (decode : Stream -> result T) : M (result T) :=
  resp <-? post c path data ;;
  if negb (StatusCode resp =? StatusCreated) && negb (StatusCode resp =? StatusOK)
  then ret (Err (status_error "create failed" resp))
  else ret (decode (RespBody resp)).

(** The payload of [CreateTag]. *)
Definition tag_data (name color : string) : gmap string Value :=
  let data : gmap string Value := <["name" := VString name]> ∅ in
  if negb (String.eqb color "") then <["color" := VString color]> data
  else data.

(** [CreateTag] creates a new tag. *)
Definition CreateTag (c : Client) (name color : string) : M (result Tag.t) :=
  create c "/api/tags/" (tag_data name color) (decodeTag entities).

(** [CreateCorrespondent] creates a new correspondent. *)
Definition CreateCorrespondent (c : Client) (name : string)
    : M (result Correspondent.t) :=
  create c "/api/correspondents/" (<["name" := VString name]> ∅)
    (decodeCorrespondent entities).

(** [CreateDocumentType] creates a new document type. *)
Definition CreateDocumentType (c : Client) (name : string)
    : M (result DocumentType.t) :=
  create c "/api/document_types/" (<["name" := VString name]> ∅)
    (decodeDocumentType entities).

(** [CreateStoragePath] creates a new storage path. *)
Definition CreateStoragePath (c : Client) (name path : string)
    : M (result StoragePath.t) :=
  create c "/api/storage_paths/"
    (<["path" := VString path]> (<["name" := VString name]> ∅))
    (decodeStoragePath entities).

(** The body shared by the [Update...] functions: only 200 is success. *)
Definition update {T} (c : Client) (path : string) (updates : gmap string Value)
    (decode : Stream -> result T) : M (result T) :=
  resp <-? patch c path updates ;;
  if negb (StatusCode resp =? StatusOK)
  then ret (Err (status_error "update failed" resp))
  else ret (decode (RespBody resp)).

(** [UpdateTag] updates a tag. *)
Definition UpdateTag (c : Client) (id : Z) (updates : gmap string Value)
    : M (result Tag.t) :=
  update c ("/api/tags/" +:+ strconv.Itoa id +:+ "/") updates (decodeTag entities).

(** [UpdateCorrespondent] updates a correspondent. *)
Definition UpdateCorrespondent (c : Client) (id : Z) (updates : gmap string Value)
    : M (result Correspondent.t) :=
  update c ("/api/correspondents/" +:+ strconv.Itoa id +:+ "/") updates
    (decodeCorrespondent entities).

(** [UpdateDocumentType] updates a document type. *)
Definition UpdateDocumentType (c : Client) (id : Z) (updates : gmap string Value)
    : M (result DocumentType.t) :=
  update c ("/api/document_types/" +:+ strconv.Itoa id +:+ "/") updates
    (decodeDocumentType entities).

(** The body shared by the [Delete...] functions. *)
Definition delete_one (c : Client) (resource : string) (id : Z)
    : M (result unit) :=
  resp <-? delete c ("/api/" +:+ resource +:+ "/" +:+ strconv.Itoa id +:+ "/") ;;
  ret (delete_result resp).

(** [DeleteTag] deletes a tag. *)
Definition DeleteTag (c : Client) (id : Z) : M (result unit) :=
  delete_one c "tags" id.

(** [DeleteCorrespondent] deletes a correspondent. *)
Definition DeleteCorrespondent (c : Client) (id : Z) : M (result unit) :=
  delete_one c "correspondents" id.

(** [DeleteDocumentType] deletes a document type. *)
Definition DeleteDocumentType (c : Client) (id : Z) : M (result unit) :=
  delete_one c "document_types" id.

(** [DeleteStoragePath] deletes a storage path. *)
Definition DeleteStoragePath (c : Client) (id : Z) : M (result unit) :=
  delete_one c "storage_paths" id.

(** [GlobalSearch] performs a global search across all objects. *)
Definition GlobalSearch (c : Client) (query : string)
    : M (result GlobalSearchResult) :=
  get_decoded c ("/api/search/?query=" +:+ url.QueryEscape query)
    (decodeSearch entities).

(** The path of [GetSimilarDocuments]. *)
Definition similar_path (docID limit : Z) : string :=
  let path := "/api/documents/?more_like_id=" +:+ strconv.Itoa docID in
  if 0 <? limit then path +:+ "&page_size=" +:+ strconv.Itoa limit else path.

(** [GetSimilarDocuments] finds documents similar to the given one. *)
Definition GetSimilarDocuments (c : Client) (docID limit : Z)
    : M (result (PaginatedResponse Document.t)) :=
  get_decoded c (similar_path docID limit) (decodeDocuments json).

(** The body shared by [GetDocumentPreview] and [GetDocumentThumb]: the
    bytes of a 200 response. *)
Definition get_bytes (c : Client) (path failure : string) : M (result string) :=
  resp <-? get c path ;;
  if negb (StatusCode resp =? StatusOK)
  then ret (Err (status_error failure resp))
  else
    match io_ReadAll (RespBody resp) with
    | (_, Some err) => ret (Err err)
    | (bytes, None) => ret (Ok bytes)
    end.

(** [GetDocumentPreview] gets the preview of a document. *)
Definition GetDocumentPreview (c : Client) (id : Z) : M (result string) :=
  get_bytes c ("/api/documents/" +:+ strconv.Itoa id +:+ "/preview/")
    "preview failed".

(** [GetDocumentThumb] gets the thumbnail of a document. *)
Definition GetDocumentThumb (c : Client) (id : Z) : M (result string) :=
  get_bytes c ("/api/documents/" +:+ strconv.Itoa id +:+ "/thumb/")
    "thumbnail failed".

End Client.

End api.

(** ** package os: files that are read and written *)

Module os.

(** A regular file: its bytes and its permission bits. *)
Record file : Type := {
  bytes : string;
  mode : Z
}.

(** The regular files of the file system, by path. *)
Abbreviation Disk := (gmap string file).

(** How a call of [os.WriteFile] ends: the file is written, or the call
    fails and leaves at the path what [remains] says (nothing, the old file, a
    truncated one). *)
Inductive WriteOutcome : Type :=
| Written
| WriteFailed (e : error) (remains : option file).

Inductive ReadOutcome : Type :=
| NotExist
| ReadFailed (e : error)
| Data (bytes : string).

Section OS.

(** A failure of [os.ReadFile] other than the file not existing. *)
Variable read_error : string -> option error.

Variable write_outcome : Disk -> string -> string -> WriteOutcome.

(** The file mode creation mask of the process. *)
Variable umask : Z.

(** [os.ReadFile] *)
Definition ReadFile (name : string) (d : Disk) : ReadOutcome :=
  match read_error name with
  | Some e => ReadFailed e
  | None =>
      match d !! name with
      | None => NotExist
      | Some f => Data (bytes f)
      end
  end.

(** [os.WriteFile]: a file that exists already keeps its permission
    bits, a new one gets [perm] without the bits of the mask. *)
Definition WriteFile (name data : string) (perm : Z) (d : Disk)
    : result unit * Disk :=
  match write_outcome d name data with
  | Written =>
      let m := match d !! name with
               | Some f => mode f
               | None => Z.ldiff perm umask
               end in
      (Ok tt, <[name := {| bytes := data; mode := m |}]> d)
  | WriteFailed e remains =>
      (Err e, match remains with
              | Some f => <[name := f]> d
              | None => base.delete name d
              end)
  end.

End OS.

End os.

(** ** package internal/config *)

Module config.

Record Config : Type := {
  URL : string;
  Token : string
}.

Section Config.

(** [os.Getenv] *)
Variable getenv : string -> string.

(** The outcome of [Load()]: the configuration file read and parsed. *)
Variable Load : result Config.

(** [GetURL] returns the Paperless URL from env or config. *)
Definition GetURL : string :=
  let url := getenv "PAPERLESS_URL" in
  if negb (String.eqb url "") then url
  else match Load with
       | Err _ => ""
       | Ok cfg => URL cfg
       end.

(** [GetToken] returns the API token from env or config. *)
Definition GetToken : string :=
  let token := getenv "PAPERLESS_TOKEN" in
  if negb (String.eqb token "") then token
  else match Load with
       | Err _ => ""
       | Ok cfg => Token cfg
       end.

End Config.

Section Files.

(** [os.UserHomeDir()] *)
Variable UserHomeDir : result string.

(** [filepath.Join] *)
Variable Join : list string -> string.

Variable read_error : string -> option error.
Variable write_outcome : os.Disk -> string -> string -> os.WriteOutcome.
Variable umask : Z.

(** The error of [os.MkdirAll], if any. *)
Variable mkdir_error : string -> option error.

(** [yaml.Unmarshal] and [yaml.Marshal] on a [Config]. *)
Variable yaml_Unmarshal : string -> result Config.
Variable yaml_Marshal : Config -> result string.

(** [configDir] returns the config directory path. *)
Definition configDir : result string :=
  match UserHomeDir with
  | Err e => Err e
  | Ok home => Ok (Join [home; ".config"; "paperless-cli"])
  end.

(** [configPath] returns the config file path. *)
Definition configPath : result string :=
  match configDir with
  | Err e => Err e
  | Ok dir => Ok (Join [dir; "config.yaml"])
  end.

(** [Load] loads the configuration from file. *)
Definition Load (d : os.Disk) : result Config :=
  match configPath with
  | Err e => Err e
  | Ok path =>
      match os.ReadFile read_error path d with
      | os.NotExist => Ok {| URL := ""; Token := "" |}
      | os.ReadFailed e => Err e
      | os.Data data =>
          match yaml_Unmarshal data with
          | Err e => Err ("parsing config: " +:+ e)
          | Ok cfg => Ok cfg
          end
      end
  end.

(** [Save] saves the configuration to file. *)
Definition Save (cfg : Config) (d : os.Disk) : result unit * os.Disk :=
  match configDir with
  | Err e => (Err e, d)
  | Ok dir =>
      match mkdir_error dir with
      | Some e => (Err e, d)
      | None =>
          match configPath with
          | Err e => (Err e, d)
          | Ok path =>
              match yaml_Marshal cfg with
              | Err e => (Err e, d)
              | Ok data => os.WriteFile write_outcome umask path data 384 d
              end
          end
      end
  end.

(** [SetURL] saves the URL to config. *)
Definition SetURL (url : string) (d : os.Disk) : result unit * os.Disk :=
  let cfg := match Load d with
             | Err _ => {| URL := ""; Token := "" |}
             | Ok cfg => cfg
             end in
  Save {| URL := url; Token := Token cfg |} d.

(** [SetToken] saves the token to config. *)
Definition SetToken (token : string) (d : os.Disk) : result unit * os.Disk :=
  let cfg := match Load d with
             | Err _ => {| URL := ""; Token := "" |}
             | Ok cfg => cfg
             end in
  Save {| URL := URL cfg; Token := token |} d.

End Files.

End config.

(** ** package cmd *)

Module cmd.

Import api.

(** The command-line flags the document commands read. *)
Record Flags : Type := {
  jsonOutput : bool;
  quietMode : bool;
  urlFlag : string;
  uploadTitle : string;
  uploadCorrespondent : string;
  uploadDocType : string;
  uploadTags : list string;
  editTitle : string;
  editCorrespondent : string;
  editDocType : string;
  editAddTags : list string;
  editRemoveTags : list string;
  editASN : Z;
  deleteForce : bool
}.

(** [truncate]; [None] is the run-time panic of an out-of-range slice. *)
Definition truncate (s : string) (max : Z) : option string :=
  if len s <=? max then Some s
  else match slice_to s (wrap_int (max - 3)) with
       | Some head => Some (head +:+ "...")
       | None => None
       end.

(** [for _, x := range l { if err := body(x); err != nil { return err } }
    return nil] *)
Fixpoint for_each {A} (body : A -> M (result unit)) (l : list A)
    : M (result unit) :=
  match l with
  | [] => ret (Ok tt)
  | x :: l' => _ <-? body x ;; for_each body l'
  end.

(** The name-or-ID pattern written out at each use in [documents.go]:
    [if id, err := strconv.Atoi(arg); err == nil] the ID is [id],
    otherwise it is the [ID] of what [Find...ByName(arg)] returns. *)
Definition resolve {T} (find : string -> M (result T)) (ID : T -> Z)
    (arg : string) : M (result Z) :=
  match strconv.Atoi arg with
  | Some id => ret (Ok id)
  | None =>
      r <- find arg ;;
      ret (match r with
           | Ok x => Ok (ID x)
           | Err e => Err e
           end)
  end.

(** The flags of the tag, correspondent, document type, storage path and
    download commands. *)
Record ResourceFlags : Type := {
  tagColor : string;
  tagName : string;
  tagForce : bool;
  corrName : string;
  corrForce : bool;
  typeName : string;
  typeForce : bool;
  storageForce : bool;
  downloadOutput : string;
  downloadOriginal : bool
}.

(** What [printJSON] is given for the records of the API. *)
Record Printer : Type := {
  marshalTag : Tag.t -> result string;
  marshalCorrespondent : Correspondent.t -> result string;
  marshalDocumentType : DocumentType.t -> result string;
  marshalStoragePath : StoragePath.t -> result string
}.

(** [maskToken]; [None] is the run-time panic of an out-of-range slice. *)
Definition maskToken (token : string) : option string :=
  if String.eqb token "" then Some "(not set)"
  else if len token <=? 8 then Some "****"
  else
    match slice_to token 4, slice_from token (wrap_int (len token - 4)) with
    | Some head, Some tail => Some (head +:+ "..." +:+ tail)
    | _, _ => None
    end.

(** The output path of [runDocsDownload]: the [--output] flag, else the
    file name the server gave, else [document_<id>.pdf]. *)
Definition download_target (downloadOutput filename : string) (id : Z) : string :=
  let outputPath := downloadOutput in
  if String.eqb outputPath "" then
    let outputPath := filename in
    if String.eqb outputPath "" then
      "document_" +:+ strconv.Itoa id +:+ ".pdf"
    else outputPath
  else outputPath.

Section Commands.

Variable transport : list http.Exchange -> http.Exchange -> result http.Response.
Variable json : Codec.
Variable fs : string -> File.
Variable boundary : nat -> string.
Variable hasUnicode : string -> string -> bool.
Variable getenv : string -> string.
Variable Load : result config.Config.

(** The word [fmt.Scanln] reads from the terminal. *)
Variable stdin_word : string.

(** The order in which [for t := range tags] visits the keys of a map:
    not specified by Go, some enumeration of the keys. *)
Variable range_keys : gmap Z bool -> list Z.
Hypothesis range_keys_perm : forall m, range_keys m ≡ₚ (map_to_list m).*1.

Variable fl : Flags.

Definition isJSON : bool := jsonOutput fl.
Definition isQuiet : bool := quietMode fl.

(** [getClient] *)
Definition getClient : result Client :=
  let url := urlFlag fl in
  let url := if String.eqb url "" then config.GetURL getenv Load else url in
  if String.eqb url "" then
    Err "no server URL configured. Set PAPERLESS_URL or run 'paperless config set-url <url>'"
  else
    let token := config.GetToken getenv Load in
    if String.eqb token "" then
      Err "no API token configured. Set PAPERLESS_TOKEN or run 'paperless config set-token <token>'"
    else Ok (NewClient url token).

(** [confirmAction] asks for user confirmation. *)
Definition confirmAction (message : string) : M bool :=
  if quietMode fl then ret false
  else
    _ <- print (Stderr (message +:+ " [y/N]: ")) ;;
    let response := stdin_word in
    ret (String.eqb response "y" || String.eqb response "Y"
         || String.eqb response "yes" || String.eqb response "Yes").

Definition resolveTag (client : Client) : string -> M (result Z) :=
  resolve (FindTagByName transport json hasUnicode client) Tag.ID.

Definition resolveCorrespondent (client : Client) : string -> M (result Z) :=
  resolve (FindCorrespondentByName transport json hasUnicode client) Correspondent.ID.

Definition resolveDocumentType (client : Client) : string -> M (result Z) :=
  resolve (FindDocumentTypeByName transport json hasUnicode client) DocumentType.ID.

(** *** upload *)

(** [// Resolve tag IDs] of [runDocsUpload]. *)
Fixpoint uploadTagIDs (client : Client) (tagArgs : list string) (tagIDs : list Z)
    : M (result (list Z)) :=
  match tagArgs with
  | [] => ret (Ok tagIDs)
  | tagArg :: rest =>
      r <- resolveTag client tagArg ;;
      match r with
      | Err _ => ret (Err ("tag not found: " +:+ tagArg))
      | Ok id => uploadTagIDs client rest (tagIDs ++ [id])%list
      end
  end.

(** What [runDocsUpload] prints after a successful upload. *)
Definition upload_report (filePath taskID : string) : M unit :=
  if isJSON then
    print (StdoutJSON (<["file" := filePath]> (<["task_id" := taskID]> ∅)))
  else if negb isQuiet then
    print (Stdout ("Uploaded " +:+ filepath.Base filePath
                   +:+ " (task: " +:+ taskID +:+ ")" +:+ String "010" ""))
  else ret tt.

(** The body of the loop over the files of [runDocsUpload]. *)
Definition uploadFile (client : Client) (correspondentID docTypeID : option Z)
    (tagIDs : list Z) (filePath : string) : M (result unit) :=
  (* Check if file exists *)
  match fs filePath with
  | Missing => ret (Err ("file not found: " +:+ filePath))
  | _ =>
      let title := uploadTitle fl in
      let title :=
        if String.eqb title "" then
          (* Use filename without extension as title *)
          strings.TrimSuffix (filepath.Base filePath) (filepath.Ext filePath)
        else title in
      _ <- (if negb isQuiet
            then print (Stderr ("Uploading " +:+ filepath.Base filePath
                                +:+ "..." +:+ String "010" ""))
            else ret tt) ;;
      r <- UploadDocument transport fs boundary client filePath title
             correspondentID docTypeID tagIDs ;;
      match r with
      | Err err => ret (Err ("upload failed for " +:+ filePath +:+ ": " +:+ err))
      | Ok taskID =>
          _ <- upload_report filePath taskID ;;
          ret (Ok tt)
      end
  end.

(** An optional name-or-ID flag of [runDocsUpload]. *)
Definition uploadOptionalID (resolve_ : string -> M (result Z))
    (kind flag : string) : M (result (option Z)) :=
  if negb (String.eqb flag "") then
    r <- resolve_ flag ;;
    match r with
    | Err _ => ret (Err (kind +:+ " not found: " +:+ flag))
    | Ok id => ret (Ok (Some id))
    end
  else ret (Ok None).

(** [runDocsUpload] *)
Definition runDocsUpload (args : list string) : M (result unit) :=
  client <-? ret getClient ;;
  (* Resolve correspondent ID *)
  correspondentID <-? uploadOptionalID (resolveCorrespondent client)
                        "correspondent" (uploadCorrespondent fl) ;;
  (* Resolve document type ID *)
  docTypeID <-? uploadOptionalID (resolveDocumentType client)
                  "document type" (uploadDocType fl) ;;
  (* Resolve tag IDs *)
  tagIDs <-? uploadTagIDs client (uploadTags fl) [] ;;
  for_each (uploadFile client correspondentID docTypeID tagIDs) args.

(** *** delete *)

(** The first loop of [runDocsDelete]: every argument is parsed before
    anything is deleted. *)
Fixpoint parseIDs (args : list string) (ids : list Z) : result (list Z) :=
  match args with
  | [] => Ok ids
  | arg :: rest =>
      match strconv.Atoi arg with
      | None => Err ("invalid document ID: " +:+ arg)
      | Some id => parseIDs rest (ids ++ [id])%list
      end
  end.

(** The body of the second loop of [runDocsDelete]. *)
Definition deleteOne (client : Client) (id : Z) : M (result unit) :=
  r <- DeleteDocument transport client id ;;
  match r with
  | Err err =>
      ret (Err ("failed to delete document " +:+ strconv.Itoa id +:+ ": " +:+ err))
  | Ok _ =>
      _ <- (if negb isQuiet
            then print (Stdout ("Deleted document " +:+ strconv.Itoa id
                                +:+ String "010" ""))
            else ret tt) ;;
      ret (Ok tt)
  end.

(** [runDocsDelete] *)
Definition runDocsDelete (args : list string) : M (result unit) :=
  client <-? ret getClient ;;
  ids <-? ret (parseIDs args []) ;;
  proceed <- (if negb (deleteForce fl) then
                confirmAction ("Delete " +:+ strconv.Itoa (Z.of_nat (length ids))
                               +:+ " document(s)?")
              else ret true) ;;
  if negb proceed then
    _ <- print (Stdout ("Cancelled" +:+ String "010" "")) ;;
    ret (Ok tt)
  else for_each (deleteOne client) ids.

(** *** edit *)

(** [--correspondent] and [--type] of [runDocsEdit]: ["-"] and ["none"]
    clear the field, anything else is a name or an ID. *)
Definition editReference (resolve_ : string -> M (result Z))
    (kind key flag : string) (updates : gmap string Value)
    : M (result (gmap string Value)) :=
  if negb (String.eqb flag "") then
    if String.eqb flag "-" || String.eqb flag "none" then
      ret (Ok (<[key := VNil]> updates))
    else
      r <- resolve_ flag ;;
      match r with
      | Err _ => ret (Err (kind +:+ " not found: " +:+ flag))
      | Ok id => ret (Ok (<[key := VInt id]> updates))
      end
  else ret (Ok updates).

(** [// Add tags] *)
Fixpoint addTags (client : Client) (tagArgs : list string) (tags : gmap Z bool)
    : M (result (gmap Z bool)) :=
  match tagArgs with
  | [] => ret (Ok tags)
  | tagArg :: rest =>
      r <- resolveTag client tagArg ;;
      match r with
      | Err _ => ret (Err ("tag not found: " +:+ tagArg))
      | Ok tagID => addTags client rest (<[tagID := true]> tags)
      end
  end.

(** [// Remove tags] *)
Fixpoint removeTags (client : Client) (tagArgs : list string) (tags : gmap Z bool)
    : M (gmap Z bool) :=
  match tagArgs with
  | [] => ret tags
  | tagArg :: rest =>
      r <- resolveTag client tagArg ;;
      match r with
      | Err _ =>
          (* Tag doesn't exist, nothing to remove *)
          removeTags client rest tags
      | Ok tagID => removeTags client rest (base.delete tagID tags)
      end
  end.

(** The set [runDocsEdit] computes from the tags of the document and the
    [--add-tag] and [--remove-tag] arguments. *)
Definition reconcileTags (client : Client) (docTags : list Z)
    (addArgs removeArgs : list string) : M (result (gmap Z bool)) :=
  let tags := fold_left (fun m t => <[t := true]> m) docTags (∅ : gmap Z bool) in
  tags <-? addTags client addArgs tags ;;
  tags <- removeTags client removeArgs tags ;;
  ret (Ok tags).

(** [// Handle tag modifications] *)
Definition editTags (client : Client) (doc : Document.t)
    (updates : gmap string Value) : M (result (gmap string Value)) :=
  if (0 <? length (editAddTags fl))%nat || (0 <? length (editRemoveTags fl))%nat
  then
    tags <-? reconcileTags client (Document.Tags doc)
               (editAddTags fl) (editRemoveTags fl) ;;
    let newTags := range_keys tags in
    ret (Ok (<["tags" := VInts newTags]> updates))
  else ret (Ok updates).

(** [runDocsEdit]; the command takes exactly one argument. *)
Definition runDocsEdit (arg : string) : M (result unit) :=
  client <-? ret getClient ;;
  match strconv.Atoi arg with
  | None => ret (Err ("invalid document ID: " +:+ arg))
  | Some id =>
      (* Get current document to modify tags *)
      doc <-? GetDocument transport json client id ;;
      let updates : gmap string Value := ∅ in
      let updates := if negb (String.eqb (editTitle fl) "")
                     then <["title" := VString (editTitle fl)]> updates
                     else updates in
      updates <-? editReference (resolveCorrespondent client)
                    "correspondent" "correspondent" (editCorrespondent fl) updates ;;
      updates <-? editReference (resolveDocumentType client)
                    "document type" "document_type" (editDocType fl) updates ;;
      let updates := if 0 <? editASN fl
                     then <["archive_serial_number" := VInt (editASN fl)]> updates
                     else updates in
      updates <-? editTags client doc updates ;;
      if (size updates =? 0)%nat then ret (Err "no changes specified")
      else
        updatedDoc <-? UpdateDocument transport json client id updates ;;
        if isJSON then
          match marshalDocument json updatedDoc with
          | Err e => ret (Err e)
          | Ok text => _ <- print (Stdout text) ;; ret (Ok tt)
          end
        else
          _ <- (if negb isQuiet
                then print (Stdout ("Updated document " +:+ strconv.Itoa id
                                    +:+ String "010" ""))
                else ret tt) ;;
          ret (Ok tt)
  end.

(** *** tags, correspondents, document types, storage paths *)

Variable entities : EntityCodec.
Variable printer : Printer.
Variable rf : ResourceFlags.

(** [printJSON(v)] once [v] is marshalled: the text goes to the standard
    output; a value that cannot be marshalled is the error returned. *)
Definition printJSON_text (text : result string) : M (result unit) :=
  match text with
  | Err e => ret (Err e)
  | Ok t => _ <- print (Stdout t) ;; ret (Ok tt)
  end.

(** The body shared by [runTagsCreate], [runCorrCreate], [runTypesCreate]
    and [runStorageCreate]. *)
Definition runCreate {T} (create_ : Client -> M (result T))
    (marshal : T -> result string) (created : T -> string) : M (result unit) :=
  client <-? ret getClient ;;
  x <-? create_ client ;;
  if isJSON then printJSON_text (marshal x)
  else
    _ <- (if negb isQuiet then print (Stdout (created x)) else ret tt) ;;
    ret (Ok tt).

Definition created_line (kind : string) (id : Z) (name : string) : string :=
  "Created " +:+ kind +:+ " " +:+ strconv.Itoa id +:+ ": " +:+ name
  +:+ String "010" "".

(** [runTagsCreate] *)
Definition runTagsCreate (arg : string) : M (result unit) :=
  runCreate (fun client => CreateTag transport json entities client arg (tagColor rf))
    (marshalTag printer)
    (fun tag => created_line "tag" (Tag.ID tag) (Tag.Name tag)).

(** [runCorrCreate] *)
Definition runCorrCreate (arg : string) : M (result unit) :=
  runCreate (fun client => CreateCorrespondent transport json entities client arg)
    (marshalCorrespondent printer)
    (fun corr => created_line "correspondent" (Correspondent.ID corr)
                   (Correspondent.Name corr)).

(** [runTypesCreate] *)
Definition runTypesCreate (arg : string) : M (result unit) :=
  runCreate (fun client => CreateDocumentType transport json entities client arg)
    (marshalDocumentType printer)
    (fun dt => created_line "document type" (DocumentType.ID dt)
                 (DocumentType.Name dt)).

(** [runStorageCreate]; the command takes exactly two arguments. *)
Definition runStorageCreate (arg0 arg1 : string) : M (result unit) :=
  runCreate (fun client => CreateStoragePath transport json entities client arg0 arg1)
    (marshalStoragePath printer)
    (fun sp => created_line "storage path" (StoragePath.ID sp)
                 (StoragePath.Name sp)).

(** The body shared by [runTagsEdit], [runCorrEdit] and [runTypesEdit]. *)
Definition runEdit {T} (kind arg : string) (updates : gmap string Value)
    (update_ : Client -> Z -> gmap string Value -> M (result T))
    (marshal : T -> result string) : M (result unit) :=
  client <-? ret getClient ;;
  match strconv.Atoi arg with
  | None => ret (Err ("invalid " +:+ kind +:+ " ID: " +:+ arg))
  | Some id =>
      if (size updates =? 0)%nat then ret (Err "no changes specified")
      else
        x <-? update_ client id updates ;;
        if isJSON then printJSON_text (marshal x)
        else
          _ <- (if negb isQuiet
                then print (Stdout ("Updated " +:+ kind +:+ " " +:+ strconv.Itoa id
                                    +:+ String "010" ""))
                else ret tt) ;;
          ret (Ok tt)
  end.

(** [updates["name"] = name] when the flag is given. *)
Definition name_update (name : string) (updates : gmap string Value)
    : gmap string Value :=
  if negb (String.eqb name "") then <["name" := VString name]> updates
  else updates.

(** The updates of [runTagsEdit]. *)
Definition tag_updates : gmap string Value :=
  let updates := name_update (tagName rf) ∅ in
  if negb (String.eqb (tagColor rf) "")
  then <["color" := VString (tagColor rf)]> updates
  else updates.

(** [runTagsEdit] *)
Definition runTagsEdit (arg : string) : M (result unit) :=
  runEdit "tag" arg tag_updates (UpdateTag transport json entities)
    (marshalTag printer).

(** [runCorrEdit] *)
Definition runCorrEdit (arg : string) : M (result unit) :=
  runEdit "correspondent" arg (name_update (corrName rf) ∅)
    (UpdateCorrespondent transport json entities) (marshalCorrespondent printer).

(** [runTypesEdit] *)
Definition runTypesEdit (arg : string) : M (result unit) :=
  runEdit "document type" arg (name_update (typeName rf) ∅)
    (UpdateDocumentType transport json entities) (marshalDocumentType printer).

(** The body shared by [runTagsDelete], [runCorrDelete], [runTypesDelete]
    and [runStorageDelete]. *)
Definition runDelete (kind arg : string) (force : bool)
    (delete_ : Client -> Z -> M (result unit)) : M (result unit) :=
  client <-? ret getClient ;;
  match strconv.Atoi arg with
  | None => ret (Err ("invalid " +:+ kind +:+ " ID: " +:+ arg))
  | Some id =>
      proceed <- (if negb force then
                    confirmAction ("Delete " +:+ kind +:+ " " +:+ strconv.Itoa id
                                   +:+ "?")
                  else ret true) ;;
      if negb proceed then
        _ <- print (Stdout ("Cancelled" +:+ String "010" "")) ;;
        ret (Ok tt)
      else
        _ <-? delete_ client id ;;
        _ <- (if negb isQuiet
              then print (Stdout ("Deleted " +:+ kind +:+ " " +:+ strconv.Itoa id
                                  +:+ String "010" ""))
              else ret tt) ;;
        ret (Ok tt)
  end.

(** [runTagsDelete] *)
Definition runTagsDelete (arg : string) : M (result unit) :=
  runDelete "tag" arg (tagForce rf) (DeleteTag transport).

(** [runCorrDelete] *)
Definition runCorrDelete (arg : string) : M (result unit) :=
  runDelete "correspondent" arg (corrForce rf) (DeleteCorrespondent transport).

(** [runTypesDelete] *)
Definition runTypesDelete (arg : string) : M (result unit) :=
  runDelete "document type" arg (typeForce rf) (DeleteDocumentType transport).

(** [runStorageDelete] *)
Definition runStorageDelete (arg : string) : M (result unit) :=
  runDelete "storage path" arg (storageForce rf) (DeleteStoragePath transport).

(** *** content and download *)

(** [runDocsContent]; the command takes exactly one argument. *)
Definition runDocsContent (arg : string) : M (result unit) :=
  client <-? ret getClient ;;
  match strconv.Atoi arg with
  | None => ret (Err ("invalid document ID: " +:+ arg))
  | Some id =>
      doc <-? GetDocument transport json client id ;;
      if isJSON then
        _ <- print (StdoutJSON (<["id" := arg]>
                                  (<["content" := Document.Content doc]> ∅))) ;;
        ret (Ok tt)
      else
        _ <- print (Stdout (Document.Content doc +:+ String "010" "")) ;;
        ret (Ok tt)
  end.

Variable write_outcome : os.Disk -> string -> string -> os.WriteOutcome.
Variable umask : Z.

(** [runDocsDownload]; the files of the disk are threaded beside the
    world. *)
Definition runDocsDownload (arg : string) (d : os.Disk)
    : M (result unit * os.Disk) :=
  match getClient with
  | Err e => ret (Err e, d)
  | Ok client =>
      match strconv.Atoi arg with
      | None => ret (Err ("invalid document ID: " +:+ arg), d)
      | Some id =>
          r <- DownloadDocument transport client id (downloadOriginal rf) ;;
          match r with
          | Err e => ret (Err e, d)
          | Ok (data, filename) =>
              let outputPath := download_target (downloadOutput rf) filename id in
              match os.WriteFile write_outcome umask outputPath data 420 d with
              | (Err e, d') => ret (Err ("failed to write file: " +:+ e), d')
              | (Ok _, d') =>
                  _ <- (if negb isQuiet
                        then print (Stdout ("Downloaded to " +:+ outputPath +:+ " ("
                                            +:+ strconv.Itoa (len data) +:+ " bytes)"
                                            +:+ String "010" ""))
                        else ret tt) ;;
                  ret (Ok tt, d')
              end
          end
      end
  end.

(** *** config *)

Variable UserHomeDir : result string.
Variable Join : list string -> string.
Variable read_error : string -> option error.
Variable mkdir_error : string -> option error.
Variable yaml_Unmarshal : string -> result config.Config.
Variable yaml_Marshal : config.Config -> result string.

(** [runConfigSetURL] *)
Definition runConfigSetURL (arg : string) (d : os.Disk)
    : M (result unit * os.Disk) :=
  match config.SetURL UserHomeDir Join read_error write_outcome umask
          mkdir_error yaml_Unmarshal yaml_Marshal arg d with
  | (Err e, d') => ret (Err ("failed to save URL: " +:+ e), d')
  | (Ok _, d') =>
      _ <- (if negb isQuiet
            then print (Stdout ("URL set to: " +:+ arg +:+ String "010" ""))
            else ret tt) ;;
      ret (Ok tt, d')
  end.

(** [runConfigSetToken] *)
Definition runConfigSetToken (arg : string) (d : os.Disk)
    : M (result unit * os.Disk) :=
  match config.SetToken UserHomeDir Join read_error write_outcome umask
          mkdir_error yaml_Unmarshal yaml_Marshal arg d with
  | (Err e, d') => ret (Err ("failed to save token: " +:+ e), d')
  | (Ok _, d') =>
      _ <- (if negb isQuiet
            then print (Stdout ("Token saved" +:+ String "010" ""))
            else ret tt) ;;
      ret (Ok tt, d')
  end.

(** [runConfigShow]; [None] is a run-time panic. *)
Definition runConfigShow : World -> option (result unit * World) :=
  fun w =>
    match Load with
    | Err e => Some (Err ("failed to load config: " +:+ e), w)
    | Ok cfg =>
        match maskToken (config.Token cfg) with
        | None => None
        | Some masked =>
            if isJSON then
              Some ((_ <- print (StdoutJSON (<["url" := config.URL cfg]>
                                               (<["token" := masked]> ∅))) ;;
                     ret (Ok tt)) w)
            else
              Some ((_ <- print (Stdout ("URL:   " +:+ config.URL cfg
                                         +:+ String "010" "")) ;;
                     _ <- print (Stdout ("Token: " +:+ masked +:+ String "010" "")) ;;
                     (* Show env overrides *)
                     let envURL := config.GetURL getenv Load in
                     _ <- (if negb (String.eqb envURL (config.URL cfg))
                              && negb (String.eqb envURL "")
                           then print (Stdout (String "010" ""
                                               +:+ "(URL overridden by PAPERLESS_URL: "
                                               +:+ envURL +:+ ")" +:+ String "010" ""))
                           else ret tt) ;;
                     let envToken := config.GetToken getenv Load in
                     _ <- (if negb (String.eqb envToken (config.Token cfg))
                              && negb (String.eqb envToken "")
                           then print (Stdout ("(Token overridden by PAPERLESS_TOKEN)"
                                               +:+ String "010" ""))
                           else ret tt) ;;
                     ret (Ok tt)) w)
        end
    end.

End Commands.

End cmd.

(** * Vocabulary of the statements *)

Module Spec.

(** Every byte of [s] is in the cutset. *)
Fixpoint all_in (cutset s : string) : bool :=
  match s with
  | EmptyString => true
  | String c s' => strings.in_cutset c cutset && all_in cutset s'
  end.

(** [s] begins with a byte of the cutset. *)
Definition starts_in (cutset s : string) : bool :=
  match s with
  | EmptyString => false
  | String c _ => strings.in_cutset c cutset
  end.

(** [s] ends with a byte of the cutset. *)
Fixpoint ends_in (cutset s : string) : bool :=
  match s with
  | EmptyString => false
  | String c EmptyString => strings.in_cutset c cutset
  | String _ s' => ends_in cutset s'
  end.

(** [sub] occurs in [s] at byte offset [i]. *)
Definition occurs_at (sub s : string) (i : nat) : Prop :=
  exists pre rest, s = pre +:+ sub +:+ rest /\ String.length pre = i.

(** The cutset of [UploadDocument]: double quote, space, newline. *)
Definition upload_cutset : string :=
  api.dquote +:+ " " +:+ String "010" "".

(** The task handle as the specification words it: the response body
    with all whitespace removed and the surrounding quotes stripped. *)
Fixpoint remove_whitespace (s : string) : string :=
  match s with
  | EmptyString => EmptyString
  | String c s' =>
      if Ascii.is_space c then remove_whitespace s'
      else String c (remove_whitespace s')
  end.

Definition handle_as_specified (body : string) : string :=
  strings.Trim (remove_whitespace body) api.dquote.

(** Statuses for which [UploadDocument] succeeds. *)
Definition upload_success (status : Z) : Prop :=
  status = 200 \/ status = 201 \/ status = 202.

(** What [ListDocuments] sends for a string filter and for a paging
    number: nothing when the filter is absent. *)
Definition filter_value (v : string) : option (list string) :=
  if String.eqb v "" then None else Some [v].

Definition paging_value (n : Z) : option (list string) :=
  if 0 <? n then Some [strconv.Itoa n] else None.

Definition tags_value (tags : list string) : option (list string) :=
  match tags with
  | [] => None
  | _ => Some tags
  end.

(** What the query of [ListDocuments] holds under each key. *)
Definition query_table (params : api.DocumentListParams) (k : string)
    : option (list string) :=
  if String.eqb k "ordering" then filter_value (api.Ordering params)
  else if String.eqb k "page" then paging_value (api.Page params)
  else if String.eqb k "page_size" then paging_value (api.Limit params)
  else if String.eqb k "created__date__lt" then filter_value (api.CreatedBefore params)
  else if String.eqb k "created__date__gt" then filter_value (api.CreatedAfter params)
  else if String.eqb k "document_type__name__iexact" then filter_value (api.DocumentType params)
  else if String.eqb k "correspondent__name__iexact" then filter_value (api.Correspondent params)
  else if String.eqb k "tags__name__iexact" then tags_value (api.Tags params)
  else if String.eqb k "query" then filter_value (api.Query params)
  else None.




(** What a token resolves to when the tag listing is [page]: the
    integer it parses as, or the ID of the first tag of that name. *)
Definition resolved (hasUnicode : string -> string -> bool)
    (page : api.PaginatedResponse api.Tag.t) (tok : string) : option Z :=
  match strconv.Atoi tok with
  | Some n => Some n
  | None =>
      api.Tag.ID <$> api.first_named hasUnicode api.Tag.Name tok (api.Results page)
  end.

(** The IDs of the tokens that resolve. *)
Definition resolved_ids (hasUnicode : string -> string -> bool)
    (page : api.PaginatedResponse api.Tag.t) (toks : list string) : list Z :=
  omap (resolved hasUnicode page) toks.

Definition insert_all (ids : list Z) (tags : gmap Z bool) : gmap Z bool :=
  fold_left (fun m t => <[t := true]> m) ids tags.

Definition delete_all (ids : list Z) (tags : gmap Z bool) : gmap Z bool :=
  fold_left (fun m t => base.delete t m) ids tags.

(** From [w] to [w'] only [GET] requests were made and nothing was
    printed. *)
Definition only_gets (w w' : World) : Prop :=
  exists l, w' = {| exchanges := (exchanges w ++ l)%list;
                    terminal := terminal w |}
            /\ Forall (fun ex => http.Method (http.sent ex) = "GET") l.

(** What a successful upload of [filePath] with task [taskID] leaves on
    the terminal. *)
Definition report (fl : cmd.Flags) (filePath taskID : string) : list Output :=
  if cmd.jsonOutput fl then
    [StdoutJSON (<["file" := filePath]> (<["task_id" := taskID]> ∅))]
  else if negb (cmd.quietMode fl) then
    [Stdout ("Uploaded " +:+ filepath.Base filePath +:+ " (task: " +:+ taskID
             +:+ ")" +:+ String "010" "")]
  else [].

(** The line printed before a file is uploaded. *)
Definition announcement (fl : cmd.Flags) (filePath : string) : list Output :=
  if negb (cmd.quietMode fl) then
    [Stderr ("Uploading " +:+ filepath.Base filePath +:+ "..." +:+ String "010" "")]
  else [].

Definition printed (w : World) (out : list Output) : World :=
  {| exchanges := exchanges w; terminal := (terminal w ++ out)%list |}.

(** The title [runDocsUpload] gives to a file. *)
Definition title_of (fl : cmd.Flags) (filePath : string) : string :=
  if String.eqb (cmd.uploadTitle fl) "" then
    strings.TrimSuffix (filepath.Base filePath) (filepath.Ext filePath)
  else cmd.uploadTitle fl.

(** The first string of the list that is not empty, or the empty
    string. *)
Fixpoint first_nonempty (l : list string) : string :=
  match l with
  | [] => ""
  | x :: l' => if String.eqb x "" then first_nonempty l' else x
  end.

(** The URL and the token of the configuration file, empty when it
    cannot be loaded. *)
Definition file_URL (Load : result config.Config) : string :=
  match Load with
  | Ok cfg => config.URL cfg
  | Err _ => ""
  end.

Definition file_Token (Load : result config.Config) : string :=
  match Load with
  | Ok cfg => config.Token cfg
  | Err _ => ""
  end.

Section Exchanges.

Import http api.

(** The exchange [request] hands to the HTTP layer. *)
Definition exchange_of (c : api.Client) (method path : string) (body : ReqBody)
    (contentType : string) : Exchange :=
  {| via := httpClient c;
     sent := {| Method := method; URL := baseURL c +:+ path;
                ReqHeader :=
                  Header_Set
                    (if negb (String.eqb contentType "")
                     then Header_Set (Header_Set ∅ "Authorization" ("Token " +:+ token c))
                                     "Content-Type" contentType
                     else Header_Set ∅ "Authorization" ("Token " +:+ token c))
                    "Accept" "application/json; version=5";
                Body := body |} |}.

Definition logged (w : World) (ex : Exchange) : World :=
  {| exchanges := (exchanges w ++ [ex])%list; terminal := terminal w |}.

End Exchanges.

(** What the calls on one record of the API promise, for a response
    [resp] of the server: [r] is the result of the call and the world it
    leaves. *)
Section Contracts.

Import http api.

Context {T : Type}.

(** One [GET] of the record [id] of [resource]: 404 is "<kind> <id> not
    found", 200 the decoded body, any other status an API error. *)
Definition got_by_id (c : Client) (resource kind : string) (id : Z)
    (decode : Stream -> result T) (resp : Response) (w : World)
    (r : result T * World) : Prop :=
  snd r = logged w (exchange_of c "GET"
                      ("/api/" +:+ resource +:+ "/" +:+ strconv.Itoa id +:+ "/")
                      NoBody "")
  /\ (StatusCode resp = StatusNotFound ->
      fst r = Err (kind +:+ " " +:+ strconv.Itoa id +:+ " not found"))
  /\ (StatusCode resp = StatusOK -> fst r = decode (RespBody resp))
  /\ (StatusCode resp <> StatusNotFound -> StatusCode resp <> StatusOK ->
      fst r = Err (status_error "API error" resp)).

(** One [POST] of [payload] as JSON: 201 and 200 give the decoded body,
    any other status is "create failed". *)
Definition created (c : Client) (path payload : string)
    (decode : Stream -> result T) (resp : Response) (w : World)
    (r : result T * World) : Prop :=
  snd r = logged w (exchange_of c "POST" path (Bytes payload) "application/json")
  /\ (StatusCode resp = StatusCreated \/ StatusCode resp = StatusOK ->
      fst r = decode (RespBody resp))
  /\ (StatusCode resp <> StatusCreated -> StatusCode resp <> StatusOK ->
      fst r = Err (status_error "create failed" resp)).

(** One [PATCH] of [payload] as JSON: 200 gives the decoded body, any
    other status is "update failed". *)
Definition updated (c : Client) (path payload : string)
    (decode : Stream -> result T) (resp : Response) (w : World)
    (r : result T * World) : Prop :=
  snd r = logged w (exchange_of c "PATCH" path (Bytes payload) "application/json")
  /\ (StatusCode resp = StatusOK -> fst r = decode (RespBody resp))
  /\ (StatusCode resp <> StatusOK ->
      fst r = Err (status_error "update failed" resp)).

End Contracts.

(** One [DELETE]: 204 and 200 are success, any other status is "delete
    failed". *)
Definition deleted (c : api.Client) (path : string) (resp : http.Response)
    (w : World) (r : result unit * World) : Prop :=
  snd r = logged w (exchange_of c "DELETE" path http.NoBody "")
  /\ (http.StatusCode resp = http.StatusNoContent
      \/ http.StatusCode resp = http.StatusOK -> fst r = Ok tt)
  /\ (http.StatusCode resp <> http.StatusNoContent ->
      http.StatusCode resp <> http.StatusOK ->
      fst r = Err (api.status_error "delete failed" resp)).

(** From [w] to [w'] only [GET] requests were made; the terminal may have
    been written to. *)
Definition reads_only (w w' : World) : Prop :=
  exists l, exchanges w' = (exchanges w ++ l)%list
            /\ Forall (fun ex => http.Method (http.sent ex) = "GET") l.

(** From [w] to [w'] one [GET] request without a body was made by the
    client [c], and nothing was printed. *)
Definition one_get (c : api.Client) (w w' : World) : Prop :=
  exists path, w' = logged w (exchange_of c "GET" path http.NoBody "").

(** The value of a hexadecimal digit. *)
Definition unhex (c : ascii) : option Z :=
  let v := byte_val c in
  if (48 <=? v) && (v <=? 57) then Some (v - 48)
  else if (65 <=? v) && (v <=? 70) then Some (v - 55)
  else if (97 <=? v) && (v <=? 102) then Some (v - 87)
  else None.

(** What a server reads from an escaped query value: [+] is a space and
    [%XY] the byte with the hexadecimal digits [X] and [Y]. *)
Fixpoint QueryUnescape (s : string) : option string :=
  match s with
  | EmptyString => Some EmptyString
  | String c s' =>
      if Ascii.eqb c "%" then
        match s' with
        | String a (String b s'') =>
            match unhex a, unhex b, QueryUnescape s'' with
            | Some h, Some l, Some r =>
                Some (String (ascii_of_N (Z.to_N (16 * h + l))) r)
            | _, _, _ => None
            end
        | _ => None
        end
      else
        match QueryUnescape s' with
        | Some r => Some (String (if Ascii.eqb c "+" then " "%char else c) r)
        | None => None
        end
  end.

(** The bytes that stand for themselves in a query value, and the two
    that introduce an escape. *)
Definition query_byte (c : ascii) : bool :=
  negb (url.shouldEscape c) || Ascii.eqb c "+" || Ascii.eqb c "%".

Fixpoint query_safe (s : string) : bool :=
  match s with
  | EmptyString => true
  | String c s' => query_byte c && query_safe s'
  end.

(** [path] has no separator and no dot. *)
Fixpoint plain_name (s : string) : bool :=
  match s with
  | EmptyString => true
  | String c s' => negb (Ascii.eqb c "/") && negb (Ascii.eqb c ".") && plain_name s'
  end.

(** The answers [confirmAction] takes for a yes. *)
Definition yes_words : list string := ["y"; "Y"; "yes"; "Yes"].

(** What [confirmAction] writes to the terminal: nothing in quiet mode,
    where it does not ask. *)
Definition prompt (fl : cmd.Flags) (message : string) : list Output :=
  if cmd.quietMode fl then [] else [Stderr (message +:+ " [y/N]: ")].

(** The user does not confirm: quiet mode, or an answer that is not a
    yes. *)
Definition refused (fl : cmd.Flags) (stdin_word : string) : Prop :=
  cmd.quietMode fl = true \/ stdin_word ∉ yes_words.

(** The command goes on without a refusal: [--force], or an answer that
    is a yes outside quiet mode. *)
Definition goes_on (fl : cmd.Flags) (stdin_word : string) (force : bool) : Prop :=
  force = true \/ (cmd.quietMode fl = false /\ stdin_word ∈ yes_words).

Definition cancelled : Output := Stdout ("Cancelled" +:+ String "010" "").

(** The [DELETE] request for the record [id] of [resource]. *)
Definition delete_request (c : api.Client) (resource : string) (id : Z)
    : http.Exchange :=
  exchange_of c "DELETE" ("/api/" +:+ resource +:+ "/" +:+ strconv.Itoa id +:+ "/")
    http.NoBody "".

(** A line of the standard output unless in quiet mode. *)
Definition unless_quiet (fl : cmd.Flags) (line : string) : list Output :=
  if cmd.quietMode fl then [] else [Stdout (line +:+ String "010" "")].

(** The arguments [args] are the decimal forms [strconv.Atoi] reads as
    [ids]. *)
Definition parsed (args : list string) (ids : list Z) : Prop :=
  Forall2 (fun arg id => strconv.Atoi arg = Some id) args ids.

(** What a command that deletes the record [arg] of one kind does in the
    world [w]: [run] is the command, [force] its [--force] flag. *)
Definition deletes_one (transport : list http.Exchange -> http.Exchange
                                    -> result http.Response)
    (fl : cmd.Flags) (stdin_word : string) (c : api.Client)
    (kind resource : string) (force : bool) (arg : string)
    (run : M (result unit)) (w : World) : Prop :=
  (strconv.Atoi arg = None ->
   run w = (Err ("invalid " +:+ kind +:+ " ID: " +:+ arg), w))
  /\ (forall id, strconv.Atoi arg = Some id ->
        let question := "Delete " +:+ kind +:+ " " +:+ strconv.Itoa id +:+ "?" in
        (force = false -> refused fl stdin_word ->
         run w = (Ok tt, printed w (prompt fl question ++ [cancelled])))
        /\ (goes_on fl stdin_word force ->
            forall resp, (forall ex h, transport h ex = Ok resp) ->
            let asked := printed w (if force then [] else prompt fl question) in
            let sent := logged asked (delete_request c resource id) in
            (http.StatusCode resp = http.StatusNoContent
             \/ http.StatusCode resp = http.StatusOK ->
             run w = (Ok tt,
                      printed sent
                        (unless_quiet fl ("Deleted " +:+ kind +:+ " "
                                          +:+ strconv.Itoa id))))
            /\ (http.StatusCode resp <> http.StatusNoContent ->
                http.StatusCode resp <> http.StatusOK ->
                run w = (Err (api.status_error "delete failed" resp), sent)))).

(** The updates a command builds from its string flags: one key for each
    flag that is given. *)
Definition given (flags : list (string * string)) : gmap string api.Value :=
  list_to_map
    (omap (fun kv : string * string =>
             if String.eqb kv.2 "" then None else Some (kv.1, api.VString kv.2))
          flags).

(** What a command prints for a record it got back: the record as JSON
    with [--json] (also in quiet mode), else [line] unless in quiet
    mode. [w] is the world when the record arrives. *)
Definition shows {T} (fl : cmd.Flags) (marshal : T -> result string) (x : T)
    (line : string) (w : World) : result unit * World :=
  if cmd.jsonOutput fl then
    match marshal x with
    | Ok text => (Ok tt, printed w [Stdout text])
    | Err e => (Err e, w)
    end
  else (Ok tt, printed w (unless_quiet fl line)).

(** What a command that edits the record [arg] of one kind does in the
    world [w]: [run] is the command, [updates] what its flags ask for. *)
Definition edits_one {T}
    (transport : list http.Exchange -> http.Exchange -> result http.Response)
    (json : api.Codec) (fl : cmd.Flags) (c : api.Client)
    (kind resource : string) (updates : gmap string api.Value)
    (decode : http.Stream -> result T) (marshal : T -> result string)
    (arg : string) (run : M (result unit)) (w : World) : Prop :=
  (strconv.Atoi arg = None ->
   run w = (Err ("invalid " +:+ kind +:+ " ID: " +:+ arg), w))
  /\ (forall id, strconv.Atoi arg = Some id ->
        (updates = ∅ -> run w = (Err "no changes specified", w))
        /\ (updates <> ∅ ->
            forall payload resp,
              api.marshalUpdates json updates = Ok payload ->
              (forall ex h, transport h ex = Ok resp) ->
              let sent :=
                logged w (exchange_of c "PATCH"
                            ("/api/" +:+ resource +:+ "/" +:+ strconv.Itoa id
                             +:+ "/")
                            (http.Bytes payload) "application/json") in
              (http.StatusCode resp <> http.StatusOK ->
               run w = (Err (api.status_error "update failed" resp), sent))
              /\ (http.StatusCode resp = http.StatusOK ->
                  forall x, decode (http.RespBody resp) = Ok x ->
                  run w = shows fl marshal x
                            ("Updated " +:+ kind +:+ " " +:+ strconv.Itoa id)
                            sent))).

(** What a command that creates a record of one kind from [data] does in
    the world [w]. *)
Definition creates_one {T}
    (transport : list http.Exchange -> http.Exchange -> result http.Response)
    (json : api.Codec) (fl : cmd.Flags) (c : api.Client)
    (kind path : string) (data : gmap string api.Value)
    (decode : http.Stream -> result T) (marshal : T -> result string)
    (ID : T -> Z) (Name : T -> string)
    (run : M (result unit)) (w : World) : Prop :=
  forall payload resp,
    api.marshalUpdates json data = Ok payload ->
    (forall ex h, transport h ex = Ok resp) ->
    let sent := logged w (exchange_of c "POST" path (http.Bytes payload)
                            "application/json") in
    (http.StatusCode resp <> http.StatusCreated ->
     http.StatusCode resp <> http.StatusOK ->
     run w = (Err (api.status_error "create failed" resp), sent))
    /\ (http.StatusCode resp = http.StatusCreated
        \/ http.StatusCode resp = http.StatusOK ->
        forall x, decode (http.RespBody resp) = Ok x ->
        run w = shows fl marshal x
                  ("Created " +:+ kind +:+ " " +:+ strconv.Itoa (ID x) +:+ ": "
                   +:+ Name x)
                  sent).

(** What [--correspondent] and [--type] of the edit command ask for
    without a look-up by name: nothing when the flag is not given, the
    null value for [-] and [none], the number for a number. *)
Definition reference_value (flag : string) : option api.Value :=
  if String.eqb flag "" then None
  else if String.eqb flag "-" || String.eqb flag "none" then Some api.VNil
  else match strconv.Atoi flag with
       | Some n => Some (api.VInt n)
       | None => None
       end.

(** The flag is not a name. *)
Definition direct (flag : string) : Prop :=
  flag = "" \/ flag = "-" \/ flag = "none" \/ is_Some (strconv.Atoi flag).

(** The [GET] request for the document [id]. *)
Definition document_request (c : api.Client) (id : Z) : http.Exchange :=
  exchange_of c "GET" ("/api/documents/" +:+ strconv.Itoa id +:+ "/")
    http.NoBody "".

(** No record is found for the name [tok], whatever was exchanged
    before. *)
Definition unresolvable (resolve_ : string -> M (result Z)) (tok : string) : Prop :=
  forall w, exists e, fst (resolve_ tok w) = Err e.


(** A record is found for [tok], whatever was exchanged before. *)
Definition resolvable (resolve_ : string -> M (result Z)) (tok : string) : Prop :=
  forall w, exists id, fst (resolve_ tok w) = Ok id.

(** The references [runDocsUpload] resolves before it takes the first
    file: the correspondent, the document type and the tags, in that
    order. *)
Definition upload_references
    (transport : list http.Exchange -> http.Exchange -> result http.Response)
    (json : api.Codec) (hasUnicode : string -> string -> bool)
    (fl : cmd.Flags) (client : api.Client)
    : M (result (option Z * option Z * list Z)) :=
  correspondentID <-? cmd.uploadOptionalID
                        (cmd.resolveCorrespondent transport json hasUnicode client)
                        "correspondent" (cmd.uploadCorrespondent fl) ;;
  docTypeID <-? cmd.uploadOptionalID
                  (cmd.resolveDocumentType transport json hasUnicode client)
                  "document type" (cmd.uploadDocType fl) ;;
  tagIDs <-? cmd.uploadTagIDs transport json hasUnicode client
               (cmd.uploadTags fl) [] ;;
  ret (Ok (correspondentID, docTypeID, tagIDs)).

End Spec.

(** * Concrete servers and inputs *)

Module Fixture.

Import http api.

Definition CR : string := String "013" "".
Definition LF : string := String "010" "".

Definition stream (body : string) : Stream :=
  {| data := body; read_error := None |}.

Definition response (status : Z) (body : string) : Response :=
  {| StatusCode := status; RespHeader := ∅; RespBody := stream body |}.

(** A server that gives the same answer to every request. *)
Definition always (resp : Response)
    : list Exchange -> Exchange -> result Response :=
  fun _ _ => Ok resp.

Definition client : Client := NewClient "http://paperless.local" "s3cret".

(** A file system in which every path is a readable file. *)
Definition any_file (bytes : string) : string -> File :=
  fun _ => Content bytes.

Definition fixed_boundary : nat -> string := fun _ => "b0undary".

(** A quoted task handle followed by a carriage return and a newline. *)
Definition crlf_body : string := dquote +:+ "abc" +:+ dquote +:+ CR +:+ LF.

Definition empty_world : World := {| exchanges := []; terminal := [] |}.

Definition tag (id : Z) (name : string) : Tag.t :=
  {| Tag.ID := id; Tag.Slug := name; Tag.Name := name; Tag.Color := "#a6cee3";
     Tag.TextColor := "#000000"; Tag.Match := ""; Tag.MatchingAlgo := 0;
     Tag.IsInsensitive := true; Tag.IsInboxTag := false;
     Tag.DocumentCount := 0 |}.

Definition page {T} (rs : list T) : PaginatedResponse T :=
  {| Count := Z.of_nat (length rs); Next := ""; Previous := "";
     Results := rs; All := [] |}.

Definition tags_page : PaginatedResponse Tag.t :=
  page [tag 7 "Bills"; tag 9 "Taxes"; tag 11 "bills"].

Definition task : Task.t :=
  {| Task.ID := 1; Task.TaskID := "abc"; Task.TaskFileName := "scan.pdf";
     Task.DateCreated := ""; Task.DateDone := ""; Task.Type_ := "file";
     Task.Status := "SUCCESS"; Task.Result := ""; Task.Acknowledged := false;
     Task.RelatedDoc := "12" |}.

Definition document (id : Z) (tags : list Z) : Document.t :=
  {| Document.ID := id; Document.Correspondent := None;
     Document.DocumentType := None; Document.StoragePath := None;
     Document.Title := "scan"; Document.Content := ""; Document.Tags := tags;
     Document.Created := 0; Document.CreatedDate := "2024-01-01";
     Document.Modified := 0; Document.Added := 0;
     Document.ArchiveSerialNumber := None;
     Document.OriginalFileName := "scan.pdf";
     Document.ArchivedFileName := "scan.pdf" |}.

(** A codec that ignores the bytes: every tag listing decodes to
    [tags_page], every document to document 12 with tags 1, 2, 3, and a
    task listing to one task unless the body is the empty array. *)
Definition codec : Codec :=
  {| decodeDocument := fun _ => Ok (document 12 [1; 2; 3]);
     decodeDocuments := fun _ => Ok (page []);
     decodeTags := fun _ => Ok tags_page;
     decodeCorrespondents := fun _ => Ok (page []);
     decodeDocumentTypes := fun _ => Ok (page []);
     decodeStoragePaths := fun _ => Ok (page []);
     decodeSavedViews := fun _ => Ok (page []);
     decodeTasks := fun s => if String.eqb (data s) "[]" then Ok [] else Ok [task];
     marshalUpdates := fun _ => Ok "{}";
     marshalDocument := fun _ => Ok "{}" |}.

(** [strings.EqualFold] restricted to ASCII: strings with other bytes are
    never equal. *)
Definition ascii_only : string -> string -> bool := fun _ _ => false.

(** A client built from a base URL that ends with two slashes. *)
Definition client_two_slashes : Client :=
  NewClient "http://paperless.local//" "s3cret".

(** The environment: URL and token come from the environment variables,
    there is no configuration file. *)
Definition getenv (name : string) : string :=
  if String.eqb name "PAPERLESS_URL" then "http://paperless.local"
  else if String.eqb name "PAPERLESS_TOKEN" then "s3cret"
  else "".

Definition no_config : result config.Config :=
  Ok {| config.URL := ""; config.Token := "" |}.

(** No flag given. *)
Definition no_flags : cmd.Flags :=
  {| cmd.jsonOutput := false; cmd.quietMode := false; cmd.urlFlag := "";
     cmd.uploadTitle := ""; cmd.uploadCorrespondent := "";
     cmd.uploadDocType := ""; cmd.uploadTags := [];
     cmd.editTitle := ""; cmd.editCorrespondent := ""; cmd.editDocType := "";
     cmd.editAddTags := []; cmd.editRemoveTags := []; cmd.editASN := 0;
     cmd.deleteForce := false |}.

(** [--add-tag nonexistent] *)
Definition add_unknown_tag : cmd.Flags :=
  {| cmd.jsonOutput := false; cmd.quietMode := false; cmd.urlFlag := "";
     cmd.uploadTitle := ""; cmd.uploadCorrespondent := "";
     cmd.uploadDocType := ""; cmd.uploadTags := [];
     cmd.editTitle := ""; cmd.editCorrespondent := ""; cmd.editDocType := "";
     cmd.editAddTags := ["nonexistent"]; cmd.editRemoveTags := [];
     cmd.editASN := 0; cmd.deleteForce := false |}.

(** [--url http://flag.example] *)
Definition url_flag : cmd.Flags :=
  {| cmd.jsonOutput := false; cmd.quietMode := false;
     cmd.urlFlag := "http://flag.example";
     cmd.uploadTitle := ""; cmd.uploadCorrespondent := "";
     cmd.uploadDocType := ""; cmd.uploadTags := [];
     cmd.editTitle := ""; cmd.editCorrespondent := ""; cmd.editDocType := "";
     cmd.editAddTags := []; cmd.editRemoveTags := []; cmd.editASN := 0;
     cmd.deleteForce := false |}.

(** [--quiet] *)
Definition quiet : cmd.Flags :=
  {| cmd.jsonOutput := false; cmd.quietMode := true; cmd.urlFlag := "";
     cmd.uploadTitle := ""; cmd.uploadCorrespondent := "";
     cmd.uploadDocType := ""; cmd.uploadTags := [];
     cmd.editTitle := ""; cmd.editCorrespondent := ""; cmd.editDocType := "";
     cmd.editAddTags := []; cmd.editRemoveTags := []; cmd.editASN := 0;
     cmd.deleteForce := false |}.

(** A server that takes the upload of [a.pdf], answering with the task
    handle [t1], and refuses every other upload. *)
Definition upload_server : list Exchange -> Exchange -> result Response :=
  fun _ ex =>
    match Body (sent ex) with
    | Multipart _ (FormFile _ name _ :: _) =>
        if String.eqb name "a.pdf" then Ok (response 200 "t1")
        else Ok (response 500 "boom")
    | _ => Ok (response 404 "")
    end.

(** [--limit 5] and nothing else. *)
Definition only_limit : DocumentListParams :=
  {| Query := ""; Tags := []; Correspondent := ""; DocumentType := "";
     CreatedAfter := ""; CreatedBefore := ""; Limit := 5; Page := 0;
     Ordering := "" |}.

(** One order in which a map can be ranged over. *)
Definition keys_in_order : gmap Z bool -> list Z :=
  fun m => (map_to_list m).*1.

Definition invoice_header : Header :=
  Header_Set ∅ "Content-Disposition"
    ("attachment; filename=" +:+ dquote +:+ "invoice.pdf" +:+ dquote).

Definition invoice_response : Response :=
  {| StatusCode := 200; RespHeader := invoice_header;
     RespBody := stream "%PDF" |}.

(** A codec of single records that ignores the bytes: every tag decodes
    to the tag 7 named Bills, nothing else decodes. *)
Definition entities : EntityCodec :=
  {| decodeTag := fun _ => Ok (tag 7 "Bills");
     decodeCorrespondent := fun _ => Err "unexpected end of JSON input";
     decodeDocumentType := fun _ => Err "unexpected end of JSON input";
     decodeStoragePath := fun _ => Err "unexpected end of JSON input";
     decodeSavedView := fun _ => Err "unexpected end of JSON input";
     decodeSearch := fun _ => Err "unexpected end of JSON input" |}.

(** [--force] *)
Definition force : cmd.Flags :=
  {| cmd.jsonOutput := false; cmd.quietMode := false; cmd.urlFlag := "";
     cmd.uploadTitle := ""; cmd.uploadCorrespondent := "";
     cmd.uploadDocType := ""; cmd.uploadTags := [];
     cmd.editTitle := ""; cmd.editCorrespondent := ""; cmd.editDocType := "";
     cmd.editAddTags := []; cmd.editRemoveTags := []; cmd.editASN := 0;
     cmd.deleteForce := true |}.

(** No flag of the tag, correspondent, document type, storage path and
    download commands given. *)
Definition no_resource_flags : cmd.ResourceFlags :=
  {| cmd.tagColor := ""; cmd.tagName := ""; cmd.tagForce := false;
     cmd.corrName := ""; cmd.corrForce := false;
     cmd.typeName := ""; cmd.typeForce := false;
     cmd.storageForce := false;
     cmd.downloadOutput := ""; cmd.downloadOriginal := false |}.

(** A printer that gives every record the same JSON text. *)
Definition printer : cmd.Printer :=
  {| cmd.marshalTag := fun _ => Ok "{}";
     cmd.marshalCorrespondent := fun _ => Ok "{}";
     cmd.marshalDocumentType := fun _ => Ok "{}";
     cmd.marshalStoragePath := fun _ => Ok "{}" |}.

(** [--name Bills] for the tag commands. *)
Definition rename_tag : cmd.ResourceFlags :=
  {| cmd.tagColor := ""; cmd.tagName := "Bills"; cmd.tagForce := false;
     cmd.corrName := ""; cmd.corrForce := false;
     cmd.typeName := ""; cmd.typeForce := false;
     cmd.storageForce := false;
     cmd.downloadOutput := ""; cmd.downloadOriginal := false |}.

(** [--correspondent none --asn 42] *)
Definition clear_correspondent : cmd.Flags :=
  {| cmd.jsonOutput := false; cmd.quietMode := false; cmd.urlFlag := "";
     cmd.uploadTitle := ""; cmd.uploadCorrespondent := "";
     cmd.uploadDocType := ""; cmd.uploadTags := [];
     cmd.editTitle := ""; cmd.editCorrespondent := "none"; cmd.editDocType := "";
     cmd.editAddTags := []; cmd.editRemoveTags := []; cmd.editASN := 42;
     cmd.deleteForce := false |}.

(** [--tag Bills --tag nonexistent] for an upload. *)
Definition upload_unknown_tag : cmd.Flags :=
  {| cmd.jsonOutput := false; cmd.quietMode := false; cmd.urlFlag := "";
     cmd.uploadTitle := ""; cmd.uploadCorrespondent := "";
     cmd.uploadDocType := ""; cmd.uploadTags := ["Bills"; "nonexistent"];
     cmd.editTitle := ""; cmd.editCorrespondent := ""; cmd.editDocType := "";
     cmd.editAddTags := []; cmd.editRemoveTags := []; cmd.editASN := 0;
     cmd.deleteForce := false |}.

(** A file system on which every write succeeds. *)
Definition writable : os.Disk -> string -> string -> os.WriteOutcome :=
  fun _ _ _ => os.Written.

(** A disk with a file [invoice.pdf] of mode 0600. *)
Definition old_invoice : os.Disk :=
  {[ "invoice.pdf" := {| os.bytes := "old"; os.mode := 384 |} ]}.

(** The home directory and the joined paths of a Unix system. *)
Definition home : result string := Ok "/home/me".

Definition join_paths (elem : list string) : string := url.join "/" elem.

(** A YAML codec for two configurations: the empty one with the URL
    [http://paperless.local] set, and that one with the token [s3cret]
    set as well. *)
Definition yaml_Marshal (cfg : config.Config) : result string :=
  Ok ("url: " +:+ config.URL cfg +:+ LF +:+ "token: " +:+ config.Token cfg +:+ LF).

Definition yaml_Unmarshal (text : string) : result config.Config :=
  if String.eqb text ("url: http://paperless.local" +:+ LF +:+ "token: " +:+ LF)
  then Ok {| config.URL := "http://paperless.local"; config.Token := "" |}
  else if String.eqb text ("url: http://paperless.local" +:+ LF
                           +:+ "token: s3cret" +:+ LF)
  then Ok {| config.URL := "http://paperless.local"; config.Token := "s3cret" |}
  else Err "yaml: unmarshal errors".

Definition no_error : string -> option error := fun _ => None.

(** A disk whose configuration file is not YAML. *)
Definition corrupt_config : os.Disk :=
  {[ "/home/me/.config/paperless-cli/config.yaml"
     := {| os.bytes := "token: [s3cret"; os.mode := 384 |} ]}.

(** A configuration file with a URL and a token of sixteen bytes. *)
Definition saved_config : result config.Config :=
  Ok {| config.URL := "http://files.example";
        config.Token := "0123456789abcdef" |}.

(** A file system in which no path can be opened. *)
Definition locked_files : string -> File :=
  fun _ => OpenError "permission denied".

(** Neither environment variable is set. *)
Definition no_env : string -> string := fun _ => "".



(** [--correspondent nobody --tag nonexistent] for an upload. *)
Definition upload_unknown_correspondent : cmd.Flags :=
  {| cmd.jsonOutput := false; cmd.quietMode := false; cmd.urlFlag := "";
     cmd.uploadTitle := ""; cmd.uploadCorrespondent := "nobody";
     cmd.uploadDocType := ""; cmd.uploadTags := ["nonexistent"];
     cmd.editTitle := ""; cmd.editCorrespondent := ""; cmd.editDocType := "";
     cmd.editAddTags := []; cmd.editRemoveTags := []; cmd.editASN := 0;
     cmd.deleteForce := false |}.

End Fixture.

(** * Properties *)

(** ** Strings *)

Section StringFacts.

Local Open Scope nat_scope.

Lemma string_app_nil_l (t : string) : "" +:+ t = t.
Proof. reflexivity. Qed.

Lemma string_app_cons (c : ascii) (s t : string) :
  String c s +:+ t = String c (s +:+ t).
Proof. reflexivity. Qed.

Lemma string_length_app (s t : string) :
  String.length (s +:+ t) = String.length s + String.length t.
Proof.
  induction s as [|c s IH]; [reflexivity|].
  rewrite string_app_cons. simpl. now rewrite IH.
Qed.

Lemma string_app_empty_r (s : string) : s +:+ "" = s.
Proof.
  induction s as [|c s IH]; [reflexivity|]. now rewrite string_app_cons, IH.
Qed.

Lemma string_app_assoc (s t u : string) : (s +:+ t) +:+ u = s +:+ (t +:+ u).
Proof.
  induction s as [|c s IH]; [reflexivity|]. now rewrite !string_app_cons, IH.
Qed.

Lemma substring_0_length (n : nat) (s : string) :
  n <= String.length s -> String.length (substring 0 n s) = n.
Proof.
  revert s; induction n as [|n IH]; intros [|c s] H; simpl in *;
    try reflexivity; try lia.
  rewrite IH; lia.
Qed.

Lemma substring_all (s : string) : substring 0 (String.length s) s = s.
Proof. induction s as [|d s IH]; simpl; [reflexivity | now rewrite IH]. Qed.

Lemma substring_split (n : nat) (s : string) :
  n <= String.length s ->
  substring 0 n s +:+ substring n (String.length s - n) s = s.
Proof.
  revert s; induction n as [|n IH]; intros s H.
  - rewrite Nat.sub_0_r, substring_all. now destruct s.
  - destruct s as [|c s]; simpl in *; [lia|].
    rewrite string_app_cons. f_equal. apply IH. lia.
Qed.

Lemma prefix_app (s t : string) : String.prefix s (s +:+ t) = true.
Proof.
  induction s as [|c s IH]; [now destruct t|].
  rewrite string_app_cons. simpl.
  destruct (ascii_dec c c); [assumption | contradiction].
Qed.

End StringFacts.

(** ** [truncate] *)

Lemma wrap_int_id (z : Z) : int_range z -> wrap_int z = z.
Proof.
  unfold int_range, int_min, int_max, wrap_int. intros H.
  rewrite Z.mod_small; lia.
Qed.

Lemma slice_to_ok (s : string) (k : Z) :
  0 <= k <= len s ->
  exists head, slice_to s k = Some head /\ len head = k
               /\ String.prefix head s = true.
Proof.
  intros H. unfold slice_to.
  replace ((0 <=? k) && (k <=? len s)) with true
    by (symmetry; apply andb_true_intro; split; apply Z.leb_le; lia).
  exists (substring 0 (Z.to_nat k) s). split; [reflexivity|].
  assert (Hn : (Z.to_nat k <= String.length s)%nat) by (unfold len in H; lia).
  split.
  - unfold len. rewrite substring_0_length by exact Hn. lia.
  - rewrite <- (substring_split (Z.to_nat k) s Hn) at 2. apply prefix_app.
Qed.

(** C10. [truncate(s, max)] returns [s] unchanged whenever
    [len(s) <= max]; for [len(s) > max] and [max >= 3] it returns a string
    of exactly [max] bytes that is a prefix of [s] followed by ["..."];
    for [len(s) > max] with [max < 3] the slice [s[:max-3]] is out of
    range and the function panics. Lengths are Go's [len], in bytes;
    [max] is an [int], and in the last case [max - 3] may wrap around to
    a bound near [2^63], which no string reaches. *)
Theorem truncate_spec (s : string) (max : Z) :
  int_range max ->
  (len s <= max -> cmd.truncate s max = Some s)
  /\ (max < len s -> 3 <= max ->
      exists head, cmd.truncate s max = Some (head +:+ "...")
                   /\ String.prefix head s = true
                   /\ len (head +:+ "...") = max)
  /\ (max < len s -> max < 3 -> len s < int_max - 2 ->
      cmd.truncate s max = None).
Proof.
  intros Hmax. unfold cmd.truncate. split; [|split].
  - intros H. apply Z.leb_le in H. now rewrite H.
  - intros Hlt H3.
    replace (len s <=? max) with false by (symmetry; apply Z.leb_gt; lia).
    rewrite wrap_int_id by (unfold int_range, int_min, int_max in *; lia).
    destruct (slice_to_ok s (max - 3)) as (head & -> & Hlen & Hpre); [lia|].
    exists head. split; [reflexivity|]. split; [exact Hpre|].
    unfold len in *. rewrite string_length_app. simpl String.length. lia.
  - intros Hlt H3 Hlen.
    replace (len s <=? max) with false by (symmetry; apply Z.leb_gt; lia).
    unfold slice_to.
    destruct (Z_lt_le_dec (max - 3) int_min) as [Hw | Hw].
    + assert (E : wrap_int (max - 3) = max - 3 + 2 ^ 64).
      { unfold wrap_int, int_range, int_min, int_max in *.
        rewrite <- (Z.mod_add _ 1) by lia. rewrite Z.mod_small; lia. }
      rewrite E.
      replace (max - 3 + 2 ^ 64 <=? len s) with false
        by (symmetry; apply Z.leb_gt;
            unfold int_range, int_min, int_max in *; lia).
      now rewrite andb_false_r.
    + rewrite wrap_int_id by (unfold int_range, int_min, int_max in *; lia).
      replace (0 <=? max - 3) with false by (symmetry; apply Z.leb_gt; lia).
      reflexivity.
Qed.

Lemma truncate_spec_witness :
  int_range 5
  /\ cmd.truncate "abc" 5 = Some "abc"
  /\ (exists head, cmd.truncate "abcdefgh" 5 = Some (head +:+ "...")
                   /\ String.prefix head "abcdefgh" = true
                   /\ len (head +:+ "...") = 5)
  /\ int_range 2 /\ cmd.truncate "abcdefgh" 2 = None.
Proof.
  assert (R5 : int_range 5) by (unfold int_range, int_min, int_max; lia).
  assert (R2 : int_range 2) by (unfold int_range, int_min, int_max; lia).
  split; [exact R5|].
  split; [apply (proj1 (truncate_spec "abc" 5 R5)); vm_compute; discriminate|].
  split; [apply (proj1 (proj2 (truncate_spec "abcdefgh" 5 R5))); vm_compute;
          [reflexivity | discriminate]|].
  split; [exact R2|].
  apply (proj2 (proj2 (truncate_spec "abcdefgh" 2 R2))); vm_compute; reflexivity.
Defined.

(** ** [strings.Trim] and [strings.Index] *)

Section TrimFacts.

Variable cutset : string.

Lemma TrimLeft_spec (s : string) :
  exists l, s = l +:+ strings.TrimLeft s cutset
            /\ Spec.all_in cutset l = true
            /\ Spec.starts_in cutset (strings.TrimLeft s cutset) = false.
Proof.
  induction s as [|c s (l & IH1 & IH2 & IH3)]; simpl.
  - exists "". repeat split.
  - destruct (strings.in_cutset c cutset) eqn:E.
    + exists (String c l). rewrite string_app_cons, <- IH1. simpl. rewrite E. auto.
    + exists "". simpl. rewrite E. auto.
Qed.

Lemma TrimRight_spec (s : string) :
  exists r, s = strings.TrimRight s cutset +:+ r
            /\ Spec.all_in cutset r = true
            /\ Spec.ends_in cutset (strings.TrimRight s cutset) = false
            /\ (Spec.starts_in cutset s = false ->
                Spec.starts_in cutset (strings.TrimRight s cutset) = false).
Proof.
  induction s as [|c s (r & IH1 & IH2 & IH3 & IH4)]; simpl.
  - exists "". repeat split.
  - destruct (strings.TrimRight s cutset) as [|d t] eqn:E.
    + destruct (strings.in_cutset c cutset) eqn:Ec.
      * exists (String c r). rewrite string_app_nil_l in *. subst s. simpl.
        rewrite Ec. auto.
      * exists r. rewrite string_app_cons, <- IH1. simpl. rewrite Ec. auto.
    + exists r. rewrite string_app_cons, <- IH1. simpl. auto.
Qed.

(** [Trim] removes a run of cutset bytes at each end, nothing else, and
    leaves no cutset byte at either end. *)
Lemma Trim_spec (s : string) :
  exists l r, s = l +:+ strings.Trim s cutset +:+ r
              /\ Spec.all_in cutset l = true
              /\ Spec.all_in cutset r = true
              /\ Spec.starts_in cutset (strings.Trim s cutset) = false
              /\ Spec.ends_in cutset (strings.Trim s cutset) = false.
Proof.
  unfold strings.Trim.
  destruct (TrimLeft_spec s) as (l & H1 & H2 & H3).
  destruct (TrimRight_spec (strings.TrimLeft s cutset)) as (r & H4 & H5 & H6 & H7).
  exists l, r. split; [rewrite <- H4; exact H1|].
  repeat split; auto.
Qed.

End TrimFacts.

Section IndexFacts.

Lemma HasPrefix_iff (s sub : string) :
  strings.HasPrefix s sub = true <-> exists rest, s = sub +:+ rest.
Proof.
  unfold strings.HasPrefix. revert s.
  induction sub as [|c sub IH]; intros s; simpl.
  - split; [intros _; exists s; reflexivity | intros _; now destruct s].
  - destruct s as [|d s]; [split; [discriminate | intros [rest H]; discriminate]|].
    simpl. destruct (ascii_dec c d) as [->|Hne].
    + rewrite IH. split; intros [rest H]; exists rest.
      * now rewrite string_app_cons, H.
      * rewrite string_app_cons in H. now inversion H.
    + split; [discriminate|]. intros [rest H]. rewrite string_app_cons in H.
      inversion H. congruence.
Qed.

Lemma occurs_at_0 (sub s : string) :
  Spec.occurs_at sub s 0 <-> strings.HasPrefix s sub = true.
Proof.
  rewrite HasPrefix_iff. split.
  - intros (pre & rest & H & Hlen). destruct pre; [|discriminate].
    exists rest. exact H.
  - intros [rest H]. exists "", rest. split; [exact H | reflexivity].
Qed.

Lemma occurs_at_S (sub : string) (c : ascii) (s : string) (i : nat) :
  Spec.occurs_at sub (String c s) (S i) <-> Spec.occurs_at sub s i.
Proof.
  split.
  - intros (pre & rest & H & Hlen). destruct pre as [|d pre]; [discriminate|].
    rewrite string_app_cons in H. inversion H; subst. exists pre, rest.
    split; [reflexivity | now inversion Hlen].
  - intros (pre & rest & H & Hlen). exists (String c pre), rest.
    rewrite string_app_cons, <- H. simpl. auto.
Qed.

Lemma Index_unfold (s sub : string) :
  strings.Index s sub =
  if strings.HasPrefix s sub then 0
  else match s with
       | EmptyString => -1
       | String _ s' =>
           match strings.Index s' sub with
           | -1 => -1
           | i => i + 1
           end
       end.
Proof. destruct s; reflexivity. Qed.

(** [Index] returns the offset of the first occurrence, or [-1] when there
    is none. *)
Lemma Index_spec (s sub : string) :
  (strings.Index s sub = -1 /\ forall j, ~ Spec.occurs_at sub s j)
  \/ (exists i : nat, strings.Index s sub = Z.of_nat i
                      /\ Spec.occurs_at sub s i
                      /\ forall j, (j < i)%nat -> ~ Spec.occurs_at sub s j).
Proof.
  induction s as [|c s IH]; rewrite Index_unfold.
  - destruct (strings.HasPrefix "" sub) eqn:E.
    + right. exists 0%nat. rewrite <- occurs_at_0 in E. repeat split; [exact E|]. lia.
    + left. split; [reflexivity|]. intros j (pre & rest & H & Hlen).
      destruct pre; [|discriminate]. simpl in Hlen; subst j.
      assert (Spec.occurs_at sub "" 0) as H0 by (exists "", rest; auto).
      apply occurs_at_0 in H0. congruence.
  - destruct (strings.HasPrefix (String c s) sub) eqn:E.
    + right. exists 0%nat. rewrite <- occurs_at_0 in E. repeat split; [exact E|]. lia.
    + destruct IH as [[H1 H2] | (i & H1 & H2 & H3)].
      * left. rewrite H1. split; [reflexivity|]. intros [|j] Hj.
        -- apply occurs_at_0 in Hj. congruence.
        -- apply occurs_at_S in Hj. exact (H2 j Hj).
      * right. exists (S i). rewrite H1.
        split; [destruct i; simpl; f_equal; lia|].
        split; [now apply occurs_at_S|].
        intros [|j] Hlt Hj.
        -- apply occurs_at_0 in Hj. congruence.
        -- apply occurs_at_S in Hj. apply (H3 j); [lia | exact Hj].
Qed.

Lemma slice_from_app (pre rest : string) :
  slice_from (pre +:+ rest) (len pre) = Some rest.
Proof.
  unfold slice_from, len. rewrite string_length_app.
  replace ((0 <=? Z.of_nat (String.length pre))
           && (Z.of_nat (String.length pre)
               <=? Z.of_nat (String.length pre + String.length rest)))
    with true by (symmetry; apply andb_true_intro; split; apply Z.leb_le; lia).
  rewrite Nat2Z.id. f_equal.
  replace (String.length pre + String.length rest - String.length pre)%nat
    with (String.length rest) by lia.
  induction pre as [|c pre IH]; [apply substring_all|].
  rewrite string_app_cons. simpl. exact IH.
Qed.

End IndexFacts.

(** ** The transport *)

Section Transport.

Import http api.

Variable transport : list Exchange -> Exchange -> result Response.

Lemma request_eq (c : Client) (method path : string) (body : ReqBody)
    (contentType : string) (w : World) :
  request transport c method path body contentType w =
  (transport (exchanges w) (Spec.exchange_of c method path body contentType),
   Spec.logged w (Spec.exchange_of c method path body contentType)).
Proof. reflexivity. Qed.

Lemma get_decoded_eq {T} (c : Client) (path : string)
    (decode : Stream -> result T) (w : World) :
  get_decoded transport c path decode w =
  (match transport (exchanges w) (Spec.exchange_of c "GET" path NoBody "") with
   | Err e => Err e
   | Ok resp =>
       if negb (StatusCode resp =? StatusOK)
       then Err (status_error "API error" resp)
       else decode (RespBody resp)
   end,
   Spec.logged w (Spec.exchange_of c "GET" path NoBody "")).
Proof.
  unfold get_decoded, get, try, bind. rewrite request_eq.
  destruct (transport _ _) as [resp|e]; [|reflexivity].
  destruct (negb _); reflexivity.
Qed.

End Transport.

(** ** Upload and download *)

Section UploadDownload.

Import http api.

Variable transport : list Exchange -> Exchange -> result Response.
Variable fs : string -> File.
Variable boundary : nat -> string.

Lemma upload_result_cases (resp : Response) :
  (Spec.upload_success (StatusCode resp)
   /\ upload_result resp
      = Ok (strings.Trim (data (RespBody resp)) Spec.upload_cutset))
  \/ (~ Spec.upload_success (StatusCode resp)
      /\ upload_result resp
         = Err ("upload failed " +:+ strconv.Itoa (StatusCode resp) +:+ ": "
                +:+ data (RespBody resp))).
Proof.
  unfold upload_result, Spec.upload_success, status_error, io_ReadAll,
    StatusOK, StatusCreated, StatusAccepted.
  destruct (Z.eqb_spec (StatusCode resp) 200) as [E1|E1]; simpl.
  { left. auto. }
  destruct (Z.eqb_spec (StatusCode resp) 201) as [E2|E2]; simpl.
  { left. auto. }
  destruct (Z.eqb_spec (StatusCode resp) 202) as [E3|E3]; simpl.
  { left. auto. }
  right. split; [intuition congruence | reflexivity].
Qed.

Lemma UploadDocument_answered (c : Client) (filePath title : string)
    (correspondent docType : option Z) (tags : list Z) (w : World)
    (bytes : string) (resp : Response) :
  fs filePath = Content bytes ->
  (forall ex, transport (exchanges w) ex = Ok resp) ->
  fst (UploadDocument transport fs boundary c filePath title correspondent
         docType tags w) = upload_result resp.
Proof.
  intros Hfs Hnet. unfold UploadDocument. rewrite Hfs.
  unfold try, bind. rewrite request_eq, Hnet. reflexivity.
Qed.

(** C3, as the code has it. Once the file is read and the server has
    answered, [UploadDocument] succeeds exactly when the status is 200, 201
    or 202. The task handle is then the response body without the run of
    double-quote, space and newline bytes at its start and at its end:
    the handle neither starts nor ends with such a byte and nothing else is
    removed. On any other status the error carries the status and the
    response body. *)
Theorem upload_outcome (c : Client) (filePath title : string)
    (correspondent docType : option Z) (tags : list Z) (w : World)
    (bytes : string) (resp : Response) :
  fs filePath = Content bytes ->
  (forall ex, transport (exchanges w) ex = Ok resp) ->
  let r := fst (UploadDocument transport fs boundary c filePath title
                  correspondent docType tags w) in
  let body := data (RespBody resp) in
  (is_ok r = true <-> Spec.upload_success (StatusCode resp))
  /\ (Spec.upload_success (StatusCode resp) ->
      exists l handle t,
        r = Ok handle /\ body = l +:+ handle +:+ t
        /\ Spec.all_in Spec.upload_cutset l = true
        /\ Spec.all_in Spec.upload_cutset t = true
        /\ Spec.starts_in Spec.upload_cutset handle = false
        /\ Spec.ends_in Spec.upload_cutset handle = false)
  /\ (~ Spec.upload_success (StatusCode resp) ->
      r = Err ("upload failed " +:+ strconv.Itoa (StatusCode resp) +:+ ": "
               +:+ body)).
Proof.
  intros Hfs Hnet r body. subst r body.
  rewrite (UploadDocument_answered _ _ _ _ _ _ _ _ _ Hfs Hnet).
  destruct (upload_result_cases resp) as [[Hs ->] | [Hs ->]].
  - split; [simpl; tauto|]. split; [|contradiction].
    intros _.
    destruct (Trim_spec Spec.upload_cutset (data (RespBody resp)))
      as (l & t & H1 & H2 & H3 & H4 & H5).
    exists l, (strings.Trim (data (RespBody resp)) Spec.upload_cutset), t.
    auto 10.
  - split; [simpl; split; [discriminate | contradiction]|].
    split; [contradiction | reflexivity].
Qed.

End UploadDownload.

Lemma upload_outcome_witness :
  Fixture.any_file "data" "/tmp/scan.pdf" = api.Content "data"
  /\ (forall ex, Fixture.always (Fixture.response 202 Fixture.crlf_body)
                   (exchanges Fixture.empty_world) ex
                 = Ok (Fixture.response 202 Fixture.crlf_body))
  /\ exists l handle t,
    fst (api.UploadDocument (Fixture.always (Fixture.response 202 Fixture.crlf_body))
           (Fixture.any_file "data") Fixture.fixed_boundary Fixture.client
           "/tmp/scan.pdf" "scan" None None [] Fixture.empty_world) = Ok handle
    /\ Fixture.crlf_body = l +:+ handle +:+ t
    /\ Spec.all_in Spec.upload_cutset l = true
    /\ Spec.all_in Spec.upload_cutset t = true
    /\ Spec.starts_in Spec.upload_cutset handle = false
    /\ Spec.ends_in Spec.upload_cutset handle = false.
Proof.
  split; [reflexivity|]. split; [intros ex; reflexivity|].
  refine (proj1 (proj2
    (upload_outcome (Fixture.always (Fixture.response 202 Fixture.crlf_body))
       (Fixture.any_file "data") Fixture.fixed_boundary Fixture.client
       "/tmp/scan.pdf" "scan" None None []
       Fixture.empty_world "data" (Fixture.response 202 Fixture.crlf_body)
       _ _)) _).
  - reflexivity.
  - intros ex. reflexivity.
  - right. right. reflexivity.
Defined.

(** C3, as worded, fails. The server answers 200 with a quoted handle
    followed by a carriage return and a newline: the handle returned still
    ends with the closing quote and the carriage return, while the body
    with all whitespace and the surrounding quotes stripped is [abc]. *)
Lemma upload_handle_not_as_specified :
  fst (api.UploadDocument (Fixture.always (Fixture.response 200 Fixture.crlf_body))
         (Fixture.any_file "data") Fixture.fixed_boundary Fixture.client
         "/tmp/scan.pdf" "scan" None None [] Fixture.empty_world)
  = Ok ("abc" +:+ api.dquote +:+ Fixture.CR)
  /\ Spec.handle_as_specified Fixture.crlf_body = "abc"
  /\ fst (api.UploadDocument (Fixture.always (Fixture.response 200 Fixture.crlf_body))
            (Fixture.any_file "data") Fixture.fixed_boundary Fixture.client
            "/tmp/scan.pdf" "scan" None None [] Fixture.empty_world)
     <> Ok (Spec.handle_as_specified Fixture.crlf_body).
Proof.
  split; [vm_compute; reflexivity|].
  split; [vm_compute; reflexivity|].
  vm_compute. discriminate.
Qed.

Section Download.

Import http api.

Variable transport : list Exchange -> Exchange -> result Response.

Lemma DownloadDocument_answered (c : Client) (id : Z) (original : bool)
    (w : World) (resp : Response) :
  (forall ex, transport (exchanges w) ex = Ok resp) ->
  fst (DownloadDocument transport c id original w) = download_result resp.
Proof.
  intros Hnet. unfold DownloadDocument, get, try, bind.
  rewrite request_eq, Hnet. reflexivity.
Qed.

Lemma download_filename_none (h : Header) :
  (forall j, ~ Spec.occurs_at "filename=" (Header_Get h "Content-Disposition") j) ->
  download_filename h = "".
Proof.
  intros Hno. unfold download_filename.
  destruct (negb _); [|reflexivity].
  destruct (Index_spec (Header_Get h "Content-Disposition") "filename=")
    as [[-> _] | (i & _ & Hi & _)]; [reflexivity|].
  destruct (Hno i Hi).
Qed.

Lemma download_filename_first (h : Header) (pre rest : string) :
  Header_Get h "Content-Disposition" = pre +:+ "filename=" +:+ rest ->
  (forall j, (j < String.length pre)%nat ->
             ~ Spec.occurs_at "filename=" (Header_Get h "Content-Disposition") j) ->
  download_filename h = strings.Trim rest dquote.
Proof.
  intros Hcd Hfirst. unfold download_filename.
  assert (Hocc : Spec.occurs_at "filename="
                   (Header_Get h "Content-Disposition") (String.length pre))
    by (exists pre, rest; auto).
  destruct (String.eqb_spec (Header_Get h "Content-Disposition") "") as [E|_].
  { rewrite E in Hcd. destruct pre; discriminate. }
  simpl negb. cbv iota.
  destruct (Index_spec (Header_Get h "Content-Disposition") "filename=")
    as [[_ Hno] | (i & -> & Hi & Hmin)]; [destruct (Hno _ Hocc)|].
  assert (i = String.length pre) as ->.
  { destruct (Nat.lt_trichotomy i (String.length pre)) as [Hlt | [Heq | Hgt]];
      [destruct (Hfirst i Hlt Hi) | exact Heq | destruct (Hmin _ Hgt Hocc)]. }
  replace (Z.of_nat (String.length pre) =? -1) with false
    by (symmetry; apply Z.eqb_neq; lia).
  simpl negb. cbv iota.
  rewrite Hcd, <- string_app_assoc.
  replace (Z.of_nat (String.length pre) + 9) with (len (pre +:+ "filename="))
    by (unfold len; rewrite string_length_app; simpl String.length; lia).
  now rewrite slice_from_app.
Qed.

(** C4. Once the server has answered, [DownloadDocument] succeeds only on
    status 200, and on status 200 it succeeds whenever the body is read to
    its end; any other status is an error carrying the status and the body.
    The file name returned is empty when the [Content-Disposition] header
    is absent or holds no [filename=]; otherwise it is what follows the
    first [filename=] without the double quotes at its two ends; for the
    header [attachment; filename="invoice.pdf"] it is [invoice.pdf]. *)
Theorem download_outcome (c : Client) (id : Z) (original : bool) (w : World)
    (resp : Response) :
  (forall ex, transport (exchanges w) ex = Ok resp) ->
  let r := fst (DownloadDocument transport c id original w) in
  let cd := Header_Get (RespHeader resp) "Content-Disposition" in
  (is_ok r = true -> StatusCode resp = 200)
  /\ (StatusCode resp = 200 -> read_error (RespBody resp) = None ->
      exists filename,
        r = Ok (data (RespBody resp), filename)
        /\ (RespHeader resp !! "Content-Disposition" = None -> filename = "")
        /\ ((forall j, ~ Spec.occurs_at "filename=" cd j) -> filename = "")
        /\ (forall pre rest,
              cd = pre +:+ "filename=" +:+ rest ->
              (forall j, (j < String.length pre)%nat ->
                         ~ Spec.occurs_at "filename=" cd j) ->
              exists l t,
                rest = l +:+ filename +:+ t
                /\ Spec.all_in dquote l = true
                /\ Spec.all_in dquote t = true
                /\ Spec.starts_in dquote filename = false
                /\ Spec.ends_in dquote filename = false))
  /\ (StatusCode resp <> 200 ->
      r = Err ("download failed " +:+ strconv.Itoa (StatusCode resp) +:+ ": "
               +:+ data (RespBody resp)))
  /\ download_filename Fixture.invoice_header = "invoice.pdf".
Proof.
  intros Hnet r cd. subst r cd.
  rewrite (DownloadDocument_answered _ _ _ _ _ Hnet).
  unfold download_result, status_error, io_ReadAll, StatusOK.
  destruct (Z.eqb_spec (StatusCode resp) 200) as [E|E]; simpl negb; cbv iota.
  - split; [intros _; exact E|]. split; [|split; [contradiction | reflexivity]].
    intros _ Hread. rewrite Hread.
    exists (download_filename (RespHeader resp)).
    split; [reflexivity|]. split; [|split].
    + intros Habs. unfold download_filename, Header_Get. now rewrite Habs.
    + apply download_filename_none.
    + intros pre rest Hcd Hfirst.
      rewrite (download_filename_first _ pre rest Hcd Hfirst).
      destruct (Trim_spec dquote rest) as (l & t & H1 & H2 & H3 & H4 & H5).
      exists l, t. auto.
  - split; [discriminate|]. split; [contradiction|].
    split; [reflexivity | reflexivity].
Qed.

End Download.

Lemma download_outcome_witness :
  (forall ex, Fixture.always Fixture.invoice_response
                (exchanges Fixture.empty_world) ex = Ok Fixture.invoice_response)
  /\ exists filename,
       fst (api.DownloadDocument (Fixture.always Fixture.invoice_response)
              Fixture.client 12 false Fixture.empty_world)
       = Ok ("%PDF", filename).
Proof.
  split; [intros ex; reflexivity|].
  destruct (proj1 (proj2
    (download_outcome (Fixture.always Fixture.invoice_response) Fixture.client
       12 false Fixture.empty_world Fixture.invoice_response
       (fun ex => eq_refl))) eq_refl eq_refl) as (filename & H & _).
  exists filename. exact H.
Defined.

(** ** Task status *)

Section Tasks.

Import http api.

Variable transport : list Exchange -> Exchange -> result Response.
Variable json : Codec.

(** C7. [GetTask] makes one request, [GET /api/tasks/?task_id=<id>]; when
    the server answers 200 with a list of tasks, the first element of the
    list is returned, and an empty list is the error "task <id> not
    found". *)
Theorem GetTask_spec (c : Client) (taskID : string) (w : World) :
  let ex := Spec.exchange_of c "GET" ("/api/tasks/?task_id=" +:+ taskID) NoBody "" in
  snd (GetTask transport json c taskID w) = Spec.logged w ex
  /\ forall resp tasks,
       transport (exchanges w) ex = Ok resp ->
       StatusCode resp = 200 ->
       decodeTasks json (RespBody resp) = Ok tasks ->
       (tasks = [] ->
        fst (GetTask transport json c taskID w)
        = Err ("task " +:+ taskID +:+ " not found"))
       /\ (forall t rest, tasks = t :: rest ->
           fst (GetTask transport json c taskID w) = Ok t).
Proof.
  intros ex. unfold GetTask, try, bind. rewrite get_decoded_eq. fold ex.
  split.
  - destruct (transport _ _) as [resp|e]; [|reflexivity].
    destruct (negb _); [reflexivity|].
    destruct (decodeTasks _ _); reflexivity.
  - intros resp tasks -> Hst Hdec. rewrite Hst, Hdec. simpl.
    split; [intros -> | intros t rest ->]; reflexivity.
Qed.

End Tasks.

Lemma GetTask_spec_witness :
  fst (api.GetTask (Fixture.always (Fixture.response 200 "[]")) Fixture.codec
         Fixture.client "abc" Fixture.empty_world)
  = Err "task abc not found"
  /\ fst (api.GetTask (Fixture.always (Fixture.response 200 "[{}]")) Fixture.codec
            Fixture.client "abc" Fixture.empty_world)
     = Ok Fixture.task.
Proof.
  split.
  - exact (proj1 (proj2 (GetTask_spec (Fixture.always (Fixture.response 200 "[]"))
             Fixture.codec Fixture.client "abc" Fixture.empty_world)
             (Fixture.response 200 "[]") [] eq_refl eq_refl eq_refl) eq_refl).
  - exact (proj2 (proj2 (GetTask_spec (Fixture.always (Fixture.response 200 "[{}]"))
             Fixture.codec Fixture.client "abc" Fixture.empty_world)
             (Fixture.response 200 "[{}]") [Fixture.task] eq_refl eq_refl eq_refl)
             Fixture.task [] eq_refl).
Defined.

(** ** Listing *)

Section Listing.

Import http api.

Variable transport : list Exchange -> Exchange -> result Response.
Variable json : Codec.

Lemma lookup_cond_set (b : bool) (q : url.Values) (k v k' : string) :
  (if b then url.Set_ q k v else q) !! k'
  = if b && String.eqb k' k then Some [v] else q !! k'.
Proof.
  destruct b; [|reflexivity]. unfold url.Set_. simpl.
  destruct (String.eqb_spec k' k) as [->|Hne].
  - apply lookup_insert_eq.
  - apply lookup_insert_ne. congruence.
Qed.

Lemma lookup_fold_add (tags : list string) (q : url.Values) (K k' : string) :
  fold_left (fun q tag => url.Add q K tag) tags q !! k'
  = if String.eqb k' K
    then match tags with
         | [] => q !! K
         | _ => Some (default [] (q !! K) ++ tags)%list
         end
    else q !! k'.
Proof.
  revert q. induction tags as [|t tags IH]; intros q; simpl.
  - destruct (String.eqb_spec k' K) as [->|]; reflexivity.
  - rewrite IH. unfold url.Add.
    destruct (String.eqb_spec k' K) as [E|Hne].
    + subst k'. rewrite lookup_insert_eq. simpl.
      destruct tags; [reflexivity|]. now rewrite <- List.app_assoc.
    + apply lookup_insert_ne. congruence.
Qed.

Lemma documents_query_lookup (params : DocumentListParams) (k : string) :
  documents_query params !! k = Spec.query_table params k.
Proof.
  unfold documents_query, Spec.query_table.
  rewrite !lookup_cond_set, lookup_fold_add, !lookup_cond_set, lookup_empty.
  unfold Spec.filter_value, Spec.paging_value, Spec.tags_value.
  repeat match goal with
         | |- context [String.eqb k ?K] =>
             destruct (String.eqb_spec k K) as [->|?];
             [ simpl String.eqb; cbv iota;
               repeat match goal with
                      | |- context [String.eqb ?a ""] => destruct (String.eqb a "")
                      | |- context [0 <? ?a] => destruct (0 <? a)
                      | |- context [match ?l with [] => _ | _ :: _ => _ end] =>
                          destruct l
                      end; reflexivity
             | rewrite ?andb_false_r ]
         end.
  reflexivity.
Qed.

Lemma Itoa_nonempty (n : Z) : strconv.Itoa n <> "".
Proof.
  unfold strconv.Itoa. destruct (Z.to_int n) as [d|d]; simpl.
  - destruct d; simpl; discriminate.
  - discriminate.
Qed.

Lemma query_table_nonempty (params : DocumentListParams) (k : string)
    (vs : list string) :
  k <> "tags__name__iexact" ->
  Spec.query_table params k = Some vs -> ~ In "" vs.
Proof.
  intros Hk. unfold Spec.query_table, Spec.filter_value, Spec.paging_value.
  assert (F : forall v, (if String.eqb v "" then None else Some [v]) = Some vs
                        -> ~ In "" vs).
  { intros v. destruct (String.eqb_spec v "") as [|Hv]; [discriminate|].
    intros [= <-] [E|[]]. congruence. }
  assert (P : forall n, (if 0 <? n then Some [strconv.Itoa n] else None) = Some vs
                        -> ~ In "" vs).
  { intros n. destruct (0 <? n); [|discriminate].
    intros [= <-] [E|[]]. exact (Itoa_nonempty n E). }
  repeat match goal with
         | |- context [String.eqb k ?K] =>
             destruct (String.eqb_spec k K) as [->|?]; [first [apply F | apply P | contradiction]|]
         end.
  discriminate.
Qed.

Lemma size_zero_iff (q : url.Values) : (0 <? size q)%nat = false <-> q = ∅.
Proof.
  rewrite Nat.ltb_ge. split.
  - intros H. apply map_size_empty_iff. lia.
  - intros ->. rewrite map_size_empty. lia.
Qed.

(** C9. [ListDocuments] makes one [GET] request, to [/api/documents/]
    followed, when the query is not empty, by [?] and the encoded query.
    The query holds exactly what [Spec.query_table] says: a string filter
    (query, correspondent, document type, date bounds, ordering) that is
    empty and a paging number (limit, page) that is zero or less have no
    entry at all, and no entry of these keys is the empty string; with
    every filter absent the path has no query string. Tags,
    correspondents, document types, storage paths and saved views are
    listed with the one fixed [page_size=1000]. *)
Theorem list_queries (c : Client) (params : DocumentListParams) (w : World) :
  let q := documents_query params in
  snd (ListDocuments transport json c params w)
  = Spec.logged w (Spec.exchange_of c "GET" (documents_path params) NoBody "")
  /\ documents_path params
     = (if decide (q = ∅) then "/api/documents/"
        else "/api/documents/?" +:+ url.Encode q)
  /\ (forall k, q !! k = Spec.query_table params k)
  /\ (forall k vs, k <> "tags__name__iexact" -> q !! k = Some vs -> ~ In "" vs)
  /\ (Query params = "" -> q !! "query" = None)
  /\ (Correspondent params = "" -> q !! "correspondent__name__iexact" = None)
  /\ (DocumentType params = "" -> q !! "document_type__name__iexact" = None)
  /\ (CreatedAfter params = "" -> q !! "created__date__gt" = None)
  /\ (CreatedBefore params = "" -> q !! "created__date__lt" = None)
  /\ (Ordering params = "" -> q !! "ordering" = None)
  /\ (Limit params = 0 -> q !! "page_size" = None)
  /\ (Page params = 0 -> q !! "page" = None)
  /\ snd (ListTags transport json c w)
     = Spec.logged w (Spec.exchange_of c "GET" "/api/tags/?page_size=1000" NoBody "")
  /\ snd (ListCorrespondents transport json c w)
     = Spec.logged w (Spec.exchange_of c "GET" "/api/correspondents/?page_size=1000" NoBody "")
  /\ snd (ListDocumentTypes transport json c w)
     = Spec.logged w (Spec.exchange_of c "GET" "/api/document_types/?page_size=1000" NoBody "")
  /\ snd (ListStoragePaths transport json c w)
     = Spec.logged w (Spec.exchange_of c "GET" "/api/storage_paths/?page_size=1000" NoBody "")
  /\ snd (ListSavedViews transport json c w)
     = Spec.logged w (Spec.exchange_of c "GET" "/api/saved_views/?page_size=1000" NoBody "").
Proof.
  intros q. subst q.
  split; [unfold ListDocuments; now rewrite get_decoded_eq|].
  split.
  { unfold documents_path.
    destruct (0 <? size (documents_query params))%nat eqn:E.
    - destruct (decide (documents_query params = ∅)) as [E0|_].
      + apply size_zero_iff in E0. congruence.
      + now rewrite <- string_app_assoc.
    - apply size_zero_iff in E. now rewrite decide_True. }
  split; [intros k; apply documents_query_lookup|].
  split.
  { intros k vs Hk. rewrite documents_query_lookup.
    now apply query_table_nonempty. }
  repeat (split; [intros E; rewrite documents_query_lookup;
                  unfold Spec.query_table, Spec.filter_value, Spec.paging_value;
                  simpl String.eqb; cbv iota; now rewrite E|]).
  unfold ListTags, ListCorrespondents, ListDocumentTypes, ListStoragePaths,
    ListSavedViews.
  rewrite !get_decoded_eq. auto.
Qed.

End Listing.

Lemma list_queries_witness :
  api.Query Fixture.only_limit = ""
  /\ api.documents_query Fixture.only_limit !! "query" = None
  /\ api.documents_path Fixture.only_limit = "/api/documents/?page_size=5".
Proof.
  split; [reflexivity|]. split; [|vm_compute; reflexivity].
  destruct (list_queries (Fixture.always (Fixture.response 200 ""))
              Fixture.codec Fixture.client Fixture.only_limit
              Fixture.empty_world) as (_ & _ & _ & _ & Hq & _).
  exact (Hq eq_refl).
Defined.

(** ** The client and its requests *)

Section ClientFacts.

Import http api.

Variable transport : list Exchange -> Exchange -> result Response.

Lemma HasSuffix_app (pre suffix : string) :
  strings.HasSuffix (pre +:+ suffix) suffix = true.
Proof.
  induction pre as [|c pre IH].
  - rewrite string_app_nil_l. destruct suffix; simpl; rewrite ?Ascii.eqb_refl,
      ?String.eqb_refl; reflexivity.
  - rewrite string_app_cons. simpl. rewrite IH. apply orb_true_r.
Qed.

Lemma substring_0_app (pre rest : string) :
  substring 0 (String.length pre) (pre +:+ rest) = pre.
Proof.
  induction pre as [|c pre IH]; [now destruct rest|].
  rewrite string_app_cons. simpl. now rewrite IH.
Qed.

(** A base URL that ends with a slash loses that one slash. *)
Lemma TrimSuffix_app (pre suffix : string) :
  strings.TrimSuffix (pre +:+ suffix) suffix = pre.
Proof.
  unfold strings.TrimSuffix. rewrite HasSuffix_app, string_length_app.
  replace (String.length pre + String.length suffix - String.length suffix)%nat
    with (String.length pre) by lia.
  apply substring_0_app.
Qed.

(** With one trailing slash or none, the base URL of the client has no
    trailing slash left from the one removed. *)
Lemma NewClient_baseURL (b tok : string) :
  baseURL (NewClient (b +:+ "/") tok) = b
  /\ (strings.HasSuffix b "/" = false -> baseURL (NewClient b tok) = b).
Proof.
  unfold NewClient. cbn [baseURL]. split; [apply TrimSuffix_app|].
  intros H. unfold strings.TrimSuffix. now rewrite H.
Qed.

(** What every request of a client made by [NewClient] carries: the
    [Authorization] header with the token, the [Accept] header with the API
    version, the client's timeout of 30 seconds; the URL is the base URL
    without one trailing slash, followed by the path. *)
Lemma request_carries (base tok method path : string) (body : ReqBody)
    (contentType : string) (w : World) :
  exists ex,
    exchanges (snd (request transport (NewClient base tok) method path body
                      contentType w))
    = (exchanges w ++ [ex])%list
    /\ ReqHeader (sent ex) !! "Authorization" = Some ["Token " +:+ tok]
    /\ ReqHeader (sent ex) !! "Accept" = Some ["application/json; version=5"]
    /\ Timeout (via ex) = 30 * Second
    /\ URL (sent ex) = strings.TrimSuffix base "/" +:+ path.
Proof.
  rewrite request_eq. eexists. split; [reflexivity|].
  unfold Spec.exchange_of, Header_Set. simpl.
  split; [|split; [|split; reflexivity]].
  - destruct (negb _); now simplify_map_eq.
  - now simplify_map_eq.
Qed.

End ClientFacts.

(** C6 at a base URL with two trailing slashes: [NewClient] removes one of
    them, and the URL of the request has two slashes where the base URL
    and the path meet. *)
Theorem request_url_two_slashes :
  api.baseURL Fixture.client_two_slashes = "http://paperless.local/"
  /\ List.map (fun ex => http.URL (http.sent ex))
       (exchanges (snd (api.ListTags (Fixture.always (Fixture.response 200 ""))
                          Fixture.codec Fixture.client_two_slashes
                          Fixture.empty_world)))
     = ["http://paperless.local//api/tags/?page_size=1000"].
Proof.
  split; vm_compute; reflexivity.
Qed.

(** ** [strconv.Atoi] and [strconv.Itoa] *)

Section AtoiFacts.








End AtoiFacts.

(** ** [strings.EqualFold] on ASCII *)

Section EqualFoldFacts.

Lemma byte_val_bounds (c : ascii) : 0 <= byte_val c < 256.
Proof.
  unfold byte_val. pose proof (N_ascii_bounded c). lia.
Qed.





End EqualFoldFacts.

(** ** Reference resolution *)

Section Resolve.

Import http api.

Variable transport : list Exchange -> Exchange -> result Response.
Variable json : Codec.
Variable hasUnicode : string -> string -> bool.

Section Generic.

Context {T : Type}.
Variable list_all : M (result (PaginatedResponse T)).
Variable Name : T -> string.
Variable ID : T -> Z.
Variable kind : string.



Lemma find_by_name_snd (name : string) (w : World) :
  snd (find_by_name hasUnicode list_all Name kind name w) = snd (list_all w).
Proof.
  unfold find_by_name, try, bind. destruct (list_all w) as [[page|e] w'];
    [|reflexivity].
  destruct (first_named _ _ _ _); reflexivity.
Qed.


Lemma resolve_snd (tok : string) (w : World) :
  strconv.Atoi tok = None ->
  snd (cmd.resolve (find_by_name hasUnicode list_all Name kind) ID tok w)
  = snd (list_all w).
Proof.
  intros Hatoi. unfold cmd.resolve, bind. rewrite Hatoi.
  rewrite <- (find_by_name_snd tok w).
  destruct (find_by_name _ _ _ _ _ _) as [[x|e] w']; reflexivity.
Qed.

End Generic.



End Resolve.


(** ** Tag reconciliation *)

Section TagSets.



Lemma delete_all_app (ids1 ids2 : list Z) (tags : gmap Z bool) :
  Spec.delete_all (ids1 ++ ids2) tags
  = Spec.delete_all ids2 (Spec.delete_all ids1 tags).
Proof. unfold Spec.delete_all. apply fold_left_app. Qed.


End TagSets.

Section Reconcile.

Import http api.

Variable transport : list Exchange -> Exchange -> result Response.
Variable json : Codec.
Variable hasUnicode : string -> string -> bool.
Variable c : Client.

Local Abbreviation resolveTag := (cmd.resolveTag transport json hasUnicode c).
Local Abbreviation addTags := (cmd.addTags transport json hasUnicode c).
Local Abbreviation removeTags := (cmd.removeTags transport json hasUnicode c).
Local Abbreviation reconcileTags := (cmd.reconcileTags transport json hasUnicode c).

(** *** With any server *)

Lemma resolveTag_number (tok : string) (n : Z) (w : World) :
  strconv.Atoi tok = Some n -> resolveTag tok w = (Ok n, w).
Proof. intros H. unfold cmd.resolveTag, cmd.resolve. now rewrite H. Qed.

Lemma removeTags_cons (tok : string) (rest : list string) (tags : gmap Z bool)
    (w : World) :
  removeTags (tok :: rest) tags w
  = match fst (resolveTag tok w) with
    | Err _ => removeTags rest tags (snd (resolveTag tok w))
    | Ok tagID => removeTags rest (base.delete tagID tags) (snd (resolveTag tok w))
    end.
Proof.
  cbn [cmd.removeTags]. unfold bind.
  destruct (resolveTag tok w) as [[id|e] w']; reflexivity.
Qed.

Lemma addTags_cons (tok : string) (rest : list string) (tags : gmap Z bool)
    (w : World) :
  addTags (tok :: rest) tags w
  = match fst (resolveTag tok w) with
    | Err _ => (Err ("tag not found: " +:+ tok), snd (resolveTag tok w))
    | Ok tagID => addTags rest (<[tagID := true]> tags) (snd (resolveTag tok w))
    end.
Proof.
  cbn [cmd.addTags]. unfold bind.
  destruct (resolveTag tok w) as [[id|e] w']; reflexivity.
Qed.

Lemma addTags_app_err (pre : list string) (tok : string) (post : list string)
    (tags tags1 : gmap Z bool) (w w1 : World) (e : error) :
  addTags pre tags w = (Ok tags1, w1) ->
  fst (resolveTag tok w1) = Err e ->
  addTags (pre ++ tok :: post) tags w
  = (Err ("tag not found: " +:+ tok), snd (resolveTag tok w1)).
Proof.
  revert tags w. induction pre as [|p pre IH]; intros tags w Hpre Hres.
  - cbn [cmd.addTags] in Hpre. injection Hpre as <- <-.
    cbn [app]. rewrite addTags_cons. now rewrite Hres.
  - rewrite <- app_comm_cons, addTags_cons. rewrite addTags_cons in Hpre.
    destruct (fst (resolveTag p w)) as [id|e']; [|discriminate].
    now apply IH.
Qed.

Lemma reconcileTags_remove_total (docTags : list Z) (adds removes : list string)
    (w : World) (tags1 : gmap Z bool) :
  fst (addTags adds (Spec.insert_all docTags ∅) w) = Ok tags1 ->
  is_ok (fst (reconcileTags docTags adds removes w)) = true.
Proof.
  intros H. unfold cmd.reconcileTags, try, bind.
  change (fold_left _ docTags ∅) with (Spec.insert_all docTags ∅).
  destruct (addTags adds _ w) as [[t|e] w1]; [|discriminate].
  destruct (removeTags removes t w1). reflexivity.
Qed.

(** *** With tokens that are numbers *)




(** *** With a server whose tag listing does not change *)

Variable page : PaginatedResponse Tag.t.
Hypothesis listing : forall w, fst (ListTags transport json c w) = Ok page.

Local Abbreviation resolved := (Spec.resolved hasUnicode page).
Local Abbreviation resolved_ids := (Spec.resolved_ids hasUnicode page).

Lemma resolveTag_stable (tok : string) (w : World) :
  fst (resolveTag tok w)
  = match resolved tok with
    | Some id => Ok id
    | None => Err ("tag not found: " +:+ tok)
    end.
Proof.
  unfold cmd.resolveTag, cmd.resolve, Spec.resolved.
  destruct (strconv.Atoi tok) as [n|]; [reflexivity|].
  unfold FindTagByName, find_by_name, try, bind.
  pose proof (listing w) as Hl.
  destruct (ListTags transport json c w) as [[p|e] w']; simpl in Hl;
    [|discriminate].
  injection Hl as ->.
  destruct (first_named _ _ _ _); reflexivity.
Qed.


Lemma removeTags_stable (toks : list string) (tags : gmap Z bool) (w : World) :
  fst (removeTags toks tags w) = Spec.delete_all (resolved_ids toks) tags.
Proof.
  revert tags w. induction toks as [|tok toks IH]; intros tags w.
  - reflexivity.
  - rewrite removeTags_cons, resolveTag_stable.
    unfold Spec.resolved_ids. cbn [omap list_omap].
    destruct (resolved tok) as [id|]; now rewrite IH.
Qed.



End Reconcile.





(** ** Which requests the edit makes *)

Section OnlyGets.

Import http api.

Variable transport : list Exchange -> Exchange -> result Response.
Variable json : Codec.
Variable hasUnicode : string -> string -> bool.

Lemma only_gets_refl (w : World) : Spec.only_gets w w.
Proof.
  exists []. split; [|constructor].
  destruct w. cbn [exchanges terminal]. now rewrite List.app_nil_r.
Qed.

Lemma only_gets_trans (w1 w2 w3 : World) :
  Spec.only_gets w1 w2 -> Spec.only_gets w2 w3 -> Spec.only_gets w1 w3.
Proof.
  intros (l1 & E1 & F1) (l2 & E2 & F2). exists (l1 ++ l2)%list. split.
  - rewrite E2, E1. cbn [exchanges terminal]. now rewrite List.app_assoc.
  - now apply Forall_app.
Qed.

Lemma only_gets_logged (c : Client) (path : string) (body : ReqBody)
    (contentType : string) (w : World) :
  Spec.only_gets w (Spec.logged w (Spec.exchange_of c "GET" path body contentType)).
Proof. eexists. split; [reflexivity|]. repeat constructor. Qed.

Lemma get_decoded_only_gets {T} (c : Client) (path : string)
    (decode : Stream -> result T) (w : World) :
  Spec.only_gets w (snd (get_decoded transport c path decode w)).
Proof. rewrite get_decoded_eq. apply only_gets_logged. Qed.

Lemma GetDocument_only_gets (c : Client) (id : Z) (w : World) :
  Spec.only_gets w (snd (GetDocument transport json c id w)).
Proof.
  unfold GetDocument, get, try, bind. rewrite request_eq.
  destruct (transport _ _) as [resp|e]; [|apply only_gets_logged].
  destruct (StatusCode resp =? StatusNotFound); [apply only_gets_logged|].
  destruct (negb _); apply only_gets_logged.
Qed.

Lemma resolve_only_gets {T} (list_all : M (result (PaginatedResponse T)))
    (Name : T -> string) (ID : T -> Z) (kind tok : string) (w : World) :
  (forall w0, Spec.only_gets w0 (snd (list_all w0))) ->
  Spec.only_gets w
    (snd (cmd.resolve (find_by_name hasUnicode list_all Name kind) ID tok w)).
Proof.
  intros H. destruct (strconv.Atoi tok) as [n|] eqn:E.
  - unfold cmd.resolve. rewrite E. apply only_gets_refl.
  - rewrite (resolve_snd hasUnicode list_all Name ID kind tok w E). apply H.
Qed.

Lemma resolveTag_only_gets (c : Client) (tok : string) (w : World) :
  Spec.only_gets w (snd (cmd.resolveTag transport json hasUnicode c tok w)).
Proof.
  apply resolve_only_gets. intros w0. apply get_decoded_only_gets.
Qed.

Lemma resolveCorrespondent_only_gets (c : Client) (tok : string) (w : World) :
  Spec.only_gets w (snd (cmd.resolveCorrespondent transport json hasUnicode c tok w)).
Proof.
  apply resolve_only_gets. intros w0. apply get_decoded_only_gets.
Qed.

Lemma resolveDocumentType_only_gets (c : Client) (tok : string) (w : World) :
  Spec.only_gets w (snd (cmd.resolveDocumentType transport json hasUnicode c tok w)).
Proof.
  apply resolve_only_gets. intros w0. apply get_decoded_only_gets.
Qed.

Lemma editReference_only_gets (resolve_ : string -> M (result Z))
    (kind key flag : string) (updates : gmap string Value) (w : World) :
  (forall tok w0, Spec.only_gets w0 (snd (resolve_ tok w0))) ->
  Spec.only_gets w (snd (cmd.editReference resolve_ kind key flag updates w)).
Proof.
  intros H. unfold cmd.editReference, bind.
  destruct (negb _); [|apply only_gets_refl].
  destruct (_ || _); [apply only_gets_refl|].
  specialize (H flag w).
  destruct (resolve_ flag w) as [[id|e] w']; exact H.
Qed.

Lemma addTags_only_gets (c : Client) (toks : list string) (tags : gmap Z bool)
    (w : World) :
  Spec.only_gets w (snd (cmd.addTags transport json hasUnicode c toks tags w)).
Proof.
  revert tags w. induction toks as [|tok toks IH]; intros tags w.
  - apply only_gets_refl.
  - rewrite addTags_cons.
    pose proof (resolveTag_only_gets c tok w) as H.
    destruct (fst (cmd.resolveTag _ _ _ c tok w)); [|exact H].
    eapply only_gets_trans; [exact H | apply IH].
Qed.

Lemma removeTags_only_gets (c : Client) (toks : list string)
    (tags : gmap Z bool) (w : World) :
  Spec.only_gets w (snd (cmd.removeTags transport json hasUnicode c toks tags w)).
Proof.
  revert tags w. induction toks as [|tok toks IH]; intros tags w.
  - apply only_gets_refl.
  - rewrite removeTags_cons.
    pose proof (resolveTag_only_gets c tok w) as H.
    destruct (fst (cmd.resolveTag _ _ _ c tok w));
      (eapply only_gets_trans; [exact H | apply IH]).
Qed.

Lemma reconcileTags_only_gets (c : Client) (docTags : list Z)
    (adds removes : list string) (w : World) :
  Spec.only_gets w
    (snd (cmd.reconcileTags transport json hasUnicode c docTags adds removes w)).
Proof.
  unfold cmd.reconcileTags, try, bind.
  pose proof (addTags_only_gets c adds
                (fold_left (fun m t => <[t := true]> m) docTags ∅) w) as H.
  destruct (cmd.addTags _ _ _ c adds _ w) as [[t|e] w1]; [|exact H].
  pose proof (removeTags_only_gets c removes t w1) as H'.
  destruct (cmd.removeTags _ _ _ c removes t w1) as [t' w2].
  eapply only_gets_trans; [exact H | exact H'].
Qed.

Lemma editTags_only_gets (range_keys : gmap Z bool -> list Z) (fl : cmd.Flags)
    (c : Client) (doc : Document.t) (updates : gmap string Value) (w : World) :
  Spec.only_gets w
    (snd (cmd.editTags transport json hasUnicode range_keys fl c doc updates w)).
Proof.
  unfold cmd.editTags, try, bind.
  destruct (_ || _); [|apply only_gets_refl].
  pose proof (reconcileTags_only_gets c (Document.Tags doc)
                (cmd.editAddTags fl) (cmd.editRemoveTags fl) w) as H.
  destruct (cmd.reconcileTags _ _ _ c _ _ _ w) as [[t|e] w1]; exact H.
Qed.

(** An add token that never resolves makes the add loop fail. *)
Lemma addTags_unresolvable (c : Client) (tok : string) (toks : list string) :
  (forall w, exists e, fst (cmd.resolveTag transport json hasUnicode c tok w) = Err e) ->
  tok ∈ toks ->
  forall tags w, exists e,
    fst (cmd.addTags transport json hasUnicode c toks tags w) = Err e.
Proof.
  intros Hun. induction toks as [|t toks IH]; intros Hin tags w.
  - inversion Hin.
  - rewrite addTags_cons.
    destruct (fst (cmd.resolveTag _ _ _ c t w)) as [id|e] eqn:E; [|eauto].
    apply elem_of_cons in Hin as [->|Hin].
    + destruct (Hun w) as [e He]. congruence.
    + now apply IH.
Qed.

Lemma editTags_unresolvable (range_keys : gmap Z bool -> list Z)
    (fl : cmd.Flags) (c : Client) (tok : string) :
  (forall w, exists e, fst (cmd.resolveTag transport json hasUnicode c tok w) = Err e) ->
  tok ∈ cmd.editAddTags fl ->
  forall doc updates w, exists e,
    fst (cmd.editTags transport json hasUnicode range_keys fl c doc updates w)
    = Err e.
Proof.
  intros Hun Hin doc updates w. unfold cmd.editTags.
  replace ((0 <? length (cmd.editAddTags fl))%nat) with true
    by (destruct (cmd.editAddTags fl); [inversion Hin | reflexivity]).
  cbn [orb]. unfold cmd.reconcileTags, try, bind.
  destruct (addTags_unresolvable c tok _ Hun Hin
              (fold_left (fun m t => <[t := true]> m) (Document.Tags doc) ∅) w)
    as [e He].
  destruct (cmd.addTags _ _ _ c _ _ w) as [[t|e'] w1]; simpl in He;
    [discriminate|]. simpl. eauto.
Qed.

End OnlyGets.

Section EditAborts.

Import http api.

Variable transport : list Exchange -> Exchange -> result Response.
Variable json : Codec.
Variable hasUnicode : string -> string -> bool.
Variable getenv : string -> string.
Variable Load : result config.Config.
Variable range_keys : gmap Z bool -> list Z.

Lemma runDocsEdit_aborts (fl : cmd.Flags) (tok arg : string) (w : World) :
  (forall c w0, exists e,
     fst (cmd.resolveTag transport json hasUnicode c tok w0) = Err e) ->
  tok ∈ cmd.editAddTags fl ->
  exists e,
    fst (cmd.runDocsEdit transport json hasUnicode getenv Load range_keys fl arg w)
    = Err e
    /\ Spec.only_gets w
         (snd (cmd.runDocsEdit transport json hasUnicode getenv Load range_keys
                 fl arg w)).
Proof.
  intros Hun Hin. unfold cmd.runDocsEdit, try, bind, ret.
  destruct (cmd.getClient getenv Load fl) as [c|e0];
    [|eexists; split; [reflexivity | apply only_gets_refl]].
  destruct (strconv.Atoi arg) as [id|];
    [|eexists; split; [reflexivity | apply only_gets_refl]].
  pose proof (GetDocument_only_gets transport json c id w) as G1.
  destruct (GetDocument transport json c id w) as [[doc|e1] w1];
    [|eexists; split; [reflexivity | exact G1]].
  match goal with
  | |- context [cmd.editReference ?r ?k ?key ?f ?u w1] =>
      pose proof (editReference_only_gets r k key f u w1
                    (resolveCorrespondent_only_gets transport json hasUnicode c)) as G2;
      destruct (cmd.editReference r k key f u w1) as [[u2|e2] w2]
  end;
    [|eexists; split; [reflexivity | eapply only_gets_trans; eassumption]].
  match goal with
  | |- context [cmd.editReference ?r ?k ?key ?f ?u w2] =>
      pose proof (editReference_only_gets r k key f u w2
                    (resolveDocumentType_only_gets transport json hasUnicode c)) as G3;
      destruct (cmd.editReference r k key f u w2) as [[u3|e3] w3]
  end;
    [|eexists; split; [reflexivity
                      | eapply only_gets_trans; [|eassumption];
                        eapply only_gets_trans; eassumption]].
  match goal with
  | |- context [cmd.editTags _ _ _ _ _ _ _ ?u w3] =>
      pose proof (editTags_only_gets transport json hasUnicode range_keys fl c doc u w3) as G4;
      destruct (editTags_unresolvable transport json hasUnicode range_keys fl c tok
                  (Hun c) Hin doc u w3) as [e4 E4];
      destruct (cmd.editTags transport json hasUnicode range_keys fl c doc u w3)
        as [[u4|e4'] w4]
  end; simpl in E4; [discriminate|].
  eexists. split; [reflexivity|].
  eapply only_gets_trans; [|exact G4].
  eapply only_gets_trans; [|exact G3].
  eapply only_gets_trans; eassumption.
Qed.

(** C5. In the remove loop a token whose resolution fails is skipped: the
    set is left as it is and the loop goes on with the next token. With a
    tag listing in which the token matches no name, its resolution fails
    with "tag not found: <token>" and the result of the loop is the one
    obtained without the token. A token that is a number not in the set
    changes nothing and makes no request. The remove loop cannot fail:
    once the adds have succeeded the reconciliation succeeds. An add token
    whose resolution fails ends the add loop with the error "tag not
    found: <token>", and the edit ends with an error having made [GET]
    requests only and printed nothing: no update is sent. *)
Theorem remove_skips_add_aborts (c : Client) :
  (forall tok rest tags w e,
     fst (cmd.resolveTag transport json hasUnicode c tok w) = Err e ->
     cmd.removeTags transport json hasUnicode c (tok :: rest) tags w
     = cmd.removeTags transport json hasUnicode c rest tags
         (snd (cmd.resolveTag transport json hasUnicode c tok w)))
  /\ (forall page,
        (forall w, fst (ListTags transport json c w) = Ok page) ->
        forall tok w,
          Spec.resolved hasUnicode page tok = None ->
          fst (cmd.resolveTag transport json hasUnicode c tok w)
          = Err ("tag not found: " +:+ tok))
  /\ (forall page,
        (forall w, fst (ListTags transport json c w) = Ok page) ->
        forall pre tok post tags w,
          Spec.resolved hasUnicode page tok = None ->
          fst (cmd.removeTags transport json hasUnicode c (pre ++ tok :: post) tags w)
          = fst (cmd.removeTags transport json hasUnicode c (pre ++ post) tags w))
  /\ (forall tok n rest tags w,
        strconv.Atoi tok = Some n -> tags !! n = None ->
        cmd.removeTags transport json hasUnicode c (tok :: rest) tags w
        = cmd.removeTags transport json hasUnicode c rest tags w)
  /\ (forall docTags adds removes w tags1,
        fst (cmd.addTags transport json hasUnicode c adds
               (Spec.insert_all docTags ∅) w) = Ok tags1 ->
        is_ok (fst (cmd.reconcileTags transport json hasUnicode c docTags adds
                      removes w)) = true)
  /\ (forall pre tok post tags w tags1 w1 e,
        cmd.addTags transport json hasUnicode c pre tags w = (Ok tags1, w1) ->
        fst (cmd.resolveTag transport json hasUnicode c tok w1) = Err e ->
        cmd.addTags transport json hasUnicode c (pre ++ tok :: post) tags w
        = (Err ("tag not found: " +:+ tok),
           snd (cmd.resolveTag transport json hasUnicode c tok w1)))
  /\ (forall fl tok arg w,
        (forall c0 w0, exists e,
           fst (cmd.resolveTag transport json hasUnicode c0 tok w0) = Err e) ->
        tok ∈ cmd.editAddTags fl ->
        exists e,
          fst (cmd.runDocsEdit transport json hasUnicode getenv Load range_keys
                 fl arg w) = Err e
          /\ Spec.only_gets w
               (snd (cmd.runDocsEdit transport json hasUnicode getenv Load
                       range_keys fl arg w))).
Proof.
  split; [|split; [|split; [|split; [|split; [|split]]]]].
  - intros tok rest tags w e H. rewrite removeTags_cons. now rewrite H.
  - intros page Hlist tok w Hres.
    rewrite (resolveTag_stable transport json hasUnicode c page Hlist).
    now rewrite Hres.
  - intros page Hlist pre tok post tags w Hres.
    rewrite !(removeTags_stable transport json hasUnicode c page Hlist).
    unfold Spec.resolved_ids. rewrite !omap_app. cbn [omap list_omap].
    now rewrite Hres.
  - intros tok n rest tags w Hn Habs. rewrite removeTags_cons.
    rewrite (resolveTag_number transport json hasUnicode c tok n w Hn).
    cbn [fst snd]. now rewrite delete_id.
  - intros docTags adds removes w tags1.
    apply reconcileTags_remove_total.
  - intros pre tok post tags w tags1 w1 e. apply addTags_app_err.
  - intros fl tok arg w. apply runDocsEdit_aborts.
Qed.

End EditAborts.

Lemma remove_skips_add_aborts_witness :
  cmd.runDocsEdit (Fixture.always (Fixture.response 200 "")) Fixture.codec
    Fixture.ascii_only Fixture.getenv Fixture.no_config Fixture.keys_in_order
    Fixture.add_unknown_tag "12" Fixture.empty_world
  = (Err "tag not found: nonexistent",
     {| exchanges :=
          [Spec.exchange_of Fixture.client "GET" "/api/documents/12/" http.NoBody "";
           Spec.exchange_of Fixture.client "GET" "/api/tags/?page_size=1000"
             http.NoBody ""];
        terminal := [] |})
  /\ exists e,
       fst (cmd.runDocsEdit (Fixture.always (Fixture.response 200 ""))
              Fixture.codec Fixture.ascii_only Fixture.getenv Fixture.no_config
              Fixture.keys_in_order Fixture.add_unknown_tag "12"
              Fixture.empty_world) = Err e.
Proof.
  split; [vm_compute; reflexivity|].
  destruct (remove_skips_add_aborts (Fixture.always (Fixture.response 200 ""))
              Fixture.codec Fixture.ascii_only Fixture.getenv Fixture.no_config
              Fixture.keys_in_order Fixture.client)
    as (_ & _ & _ & _ & _ & _ & Habort).
  destruct (Habort Fixture.add_unknown_tag "nonexistent" "12" Fixture.empty_world)
    as (e & He & _).
  - intros c0 w0. eexists. reflexivity.
  - constructor.
  - exists e. exact He.
Defined.

(** ** Batches *)

Section Batches.

Import http api.

Variable transport : list Exchange -> Exchange -> result Response.
Variable fs : string -> File.
Variable boundary : nat -> string.
Variable fl : cmd.Flags.

Lemma for_each_app_err {A} (body : A -> M (result unit)) (pre : list A) (x : A)
    (post : list A) (w w1 w2 : World) (e : error) :
  cmd.for_each body pre w = (Ok tt, w1) ->
  body x w1 = (Err e, w2) ->
  cmd.for_each body (pre ++ x :: post) w = (Err e, w2).
Proof.
  revert w. induction pre as [|p pre IH]; intros w Hpre Hx.
  - cbn [cmd.for_each ret] in Hpre. injection Hpre as <-.
    cbn [app cmd.for_each]. unfold try, bind. now rewrite Hx.
  - cbn [app cmd.for_each] in *. unfold try, bind in *.
    destruct (body p w) as [[[]|e'] w']; [|discriminate].
    now apply IH.
Qed.

Lemma printed_nil (w : World) : Spec.printed w [] = w.
Proof. destruct w. unfold Spec.printed. simpl. now rewrite List.app_nil_r. Qed.

Lemma announce_eq (filePath : string) (w : World) :
  (if negb (cmd.isQuiet fl)
   then print (Stderr ("Uploading " +:+ filepath.Base filePath +:+ "..."
                       +:+ String "010" ""))
   else ret tt) w
  = (tt, Spec.printed w (Spec.announcement fl filePath)).
Proof.
  unfold Spec.announcement, cmd.isQuiet.
  destruct (negb (cmd.quietMode fl)); [reflexivity|].
  now rewrite printed_nil.
Qed.

Lemma upload_report_eq (filePath taskID : string) (w : World) :
  cmd.upload_report fl filePath taskID w
  = (tt, Spec.printed w (Spec.report fl filePath taskID)).
Proof.
  unfold cmd.upload_report, Spec.report, cmd.isJSON, cmd.isQuiet.
  destruct (cmd.jsonOutput fl); [reflexivity|].
  destruct (negb (cmd.quietMode fl)); [reflexivity|].
  now rewrite printed_nil.
Qed.

Lemma UploadDocument_world (c : Client) (filePath title : string)
    (correspondent docType : option Z) (tags : list Z) (w : World) :
  terminal (snd (UploadDocument transport fs boundary c filePath title
                   correspondent docType tags w)) = terminal w
  /\ (length (exchanges (snd (UploadDocument transport fs boundary c filePath
                                title correspondent docType tags w)))
      <= length (exchanges w) + 1)%nat.
Proof.
  unfold UploadDocument.
  destruct (fs filePath); try (simpl; split; [reflexivity | lia]).
  unfold try, bind. rewrite request_eq.
  destruct (transport _ _) as [resp|e]; simpl;
    (split; [reflexivity | rewrite length_app; simpl; lia]).
Qed.

(** What one turn of the upload loop does. *)
Lemma uploadFile_eq (c : Client) (correspondentID docTypeID : option Z)
    (tagIDs : list Z) (filePath : string) (w : World) :
  fs filePath <> Missing ->
  let up := UploadDocument transport fs boundary c filePath
              (Spec.title_of fl filePath) correspondentID docTypeID tagIDs
              (Spec.printed w (Spec.announcement fl filePath)) in
  cmd.uploadFile transport fs boundary fl c correspondentID docTypeID tagIDs
    filePath w
  = match fst up with
    | Err err => (Err ("upload failed for " +:+ filePath +:+ ": " +:+ err), snd up)
    | Ok taskID => (Ok tt, Spec.printed (snd up) (Spec.report fl filePath taskID))
    end.
Proof.
  intros Hfs up. subst up. unfold cmd.uploadFile.
  assert (E : forall (X : Type) (a b : X),
             match fs filePath with Missing => a | _ => b end = b)
    by (intros X a b; destruct (fs filePath); congruence).
  rewrite E. unfold bind at 1. rewrite announce_eq.
  fold (Spec.title_of fl filePath). unfold bind.
  destruct (UploadDocument _ _ _ _ _ _ _ _ _ _) as [[taskID|err] w1];
    [|reflexivity].
  cbn [fst snd]. now rewrite upload_report_eq.
Qed.

Lemma uploadFile_missing (c : Client) (correspondentID docTypeID : option Z)
    (tagIDs : list Z) (filePath : string) (w : World) :
  fs filePath = Missing ->
  cmd.uploadFile transport fs boundary fl c correspondentID docTypeID tagIDs
    filePath w
  = (Err ("file not found: " +:+ filePath), w).
Proof. intros H. unfold cmd.uploadFile. now rewrite H. Qed.

Lemma uploadFile_ok_inv (c : Client) (correspondentID docTypeID : option Z)
    (tagIDs : list Z) (filePath : string) (w w1 : World) :
  cmd.uploadFile transport fs boundary fl c correspondentID docTypeID tagIDs
    filePath w = (Ok tt, w1) ->
  exists taskID,
    fst (UploadDocument transport fs boundary c filePath
           (Spec.title_of fl filePath) correspondentID docTypeID tagIDs
           (Spec.printed w (Spec.announcement fl filePath))) = Ok taskID
    /\ terminal w1
       = (terminal w ++ Spec.announcement fl filePath
          ++ Spec.report fl filePath taskID)%list
    /\ (length (exchanges w1) <= length (exchanges w) + 1)%nat.
Proof.
  intros H.
  assert (fs filePath = Missing \/ fs filePath <> Missing) as [E|E]
    by (destruct (fs filePath); auto; right; discriminate).
  { rewrite uploadFile_missing in H by exact E. discriminate. }
  rewrite (uploadFile_eq c _ _ _ _ w E) in H. cbv zeta in H.
  destruct (UploadDocument_world c filePath (Spec.title_of fl filePath)
              correspondentID docTypeID tagIDs
              (Spec.printed w (Spec.announcement fl filePath))) as [Ht Hx].
  destruct (UploadDocument _ _ _ _ _ _ _ _ _ _) as [[taskID|err] wu];
    cbn [fst snd] in *; [|discriminate].
  injection H as <-. exists taskID. split; [reflexivity|].
  unfold Spec.printed in *. cbn [terminal exchanges] in *.
  split; [now rewrite Ht, List.app_assoc | exact Hx].
Qed.

Lemma uploadFile_err_inv (c : Client) (correspondentID docTypeID : option Z)
    (tagIDs : list Z) (filePath : string) (w w2 : World) (e : error) :
  cmd.uploadFile transport fs boundary fl c correspondentID docTypeID tagIDs
    filePath w = (Err e, w2) ->
  (e = "file not found: " +:+ filePath
   \/ exists err, e = "upload failed for " +:+ filePath +:+ ": " +:+ err)
  /\ (exists out, terminal w2 = (terminal w ++ out)%list)
  /\ (length (exchanges w2) <= length (exchanges w) + 1)%nat.
Proof.
  intros H.
  assert (fs filePath = Missing \/ fs filePath <> Missing) as [E|E]
    by (destruct (fs filePath); auto; right; discriminate).
  { rewrite uploadFile_missing in H by exact E. injection H as <- <-.
    split; [now left|]. split; [exists []; now rewrite List.app_nil_r | lia]. }
  rewrite (uploadFile_eq c _ _ _ _ w E) in H. cbv zeta in H.
  destruct (UploadDocument_world c filePath (Spec.title_of fl filePath)
              correspondentID docTypeID tagIDs
              (Spec.printed w (Spec.announcement fl filePath))) as [Ht Hx].
  destruct (UploadDocument _ _ _ _ _ _ _ _ _ _) as [[taskID|err] wu];
    cbn [fst snd] in *; [discriminate|].
  injection H as <- <-. split; [right; eauto|].
  unfold Spec.printed in *. cbn [terminal exchanges] in *.
  split; [eauto | exact Hx].
Qed.

Lemma deleteOne_err_inv (c : Client) (id : Z) (w w2 : World) (e : error) :
  cmd.deleteOne transport fl c id w = (Err e, w2) ->
  (exists err, e = "failed to delete document " +:+ strconv.Itoa id +:+ ": "
                   +:+ err)
  /\ w2 = Spec.logged w
            (Spec.exchange_of c "DELETE"
               ("/api/documents/" +:+ strconv.Itoa id +:+ "/") NoBody "").
Proof.
  unfold cmd.deleteOne, DeleteDocument, delete, try, bind.
  rewrite request_eq.
  destruct (transport _ _) as [resp|err]; cbn [ret].
  - destruct (delete_result resp) as [[]|err].
    + destruct (negb (cmd.isQuiet fl)); discriminate.
    + intros [= <- <-]. eauto.
  - intros [= <- <-]. eauto.
Qed.

End Batches.

(** C8, as worded, fails in quiet mode. Three files are uploaded with
    [--quiet]; the server takes the first, answering with the task handle
    [t1], and refuses the second. The command ends with the error of the
    second file after two requests, and nothing at all has been written to
    the terminal: the task handle of the first file is not reported. *)
Lemma quiet_upload_reports_nothing :
  fst (api.UploadDocument Fixture.upload_server (Fixture.any_file "data")
         Fixture.fixed_boundary Fixture.client "a.pdf" "a" None None []
         Fixture.empty_world) = Ok "t1"
  /\ fst (cmd.runDocsUpload Fixture.upload_server Fixture.codec
            (Fixture.any_file "data") Fixture.fixed_boundary Fixture.ascii_only
            Fixture.getenv Fixture.no_config Fixture.quiet
            ["a.pdf"; "b.pdf"; "c.pdf"] Fixture.empty_world)
     = Err "upload failed for b.pdf: upload failed 500: boom"
  /\ terminal
       (snd (cmd.runDocsUpload Fixture.upload_server Fixture.codec
               (Fixture.any_file "data") Fixture.fixed_boundary
               Fixture.ascii_only Fixture.getenv Fixture.no_config Fixture.quiet
               ["a.pdf"; "b.pdf"; "c.pdf"] Fixture.empty_world)) = []
  /\ length
       (exchanges
          (snd (cmd.runDocsUpload Fixture.upload_server Fixture.codec
                  (Fixture.any_file "data") Fixture.fixed_boundary
                  Fixture.ascii_only Fixture.getenv Fixture.no_config
                  Fixture.quiet ["a.pdf"; "b.pdf"; "c.pdf"]
                  Fixture.empty_world))) = 2%nat.
Proof. repeat split; vm_compute; reflexivity. Qed.

(** * Further properties of the code *)

(** ** [maskToken] *)

Section MaskToken.

Lemma slice_to_app (head rest : string) :
  slice_to (head +:+ rest) (len head) = Some head.
Proof.
  unfold slice_to, len. rewrite string_length_app.
  replace ((0 <=? Z.of_nat (String.length head))
           && (Z.of_nat (String.length head)
               <=? Z.of_nat (String.length head + String.length rest)))
    with true by (symmetry; apply andb_true_intro; split; apply Z.leb_le; lia).
  rewrite Nat2Z.id. f_equal. apply substring_0_app.
Qed.

Lemma length_4 (s : string) :
  String.length s = 4%nat ->
  exists a b c d, s = String a (String b (String c (String d ""))).
Proof.
  destruct s as [|a [|b [|c [|d [|e s]]]]]; simpl; try discriminate.
  intros _. eauto.
Qed.

(** X1. [maskToken] shows at most the first four and the last four bytes
    of a token: a token of one to eight bytes is masked whole, and of a
    longer token everything between its first four and its last four bytes
    is replaced by three dots, so two tokens that differ only there are
    masked alike. The lengths are those of a Go string, within [int]. *)
Theorem maskToken_hides_middle (head mid tail : string) :
  String.length head = 4%nat -> String.length tail = 4%nat -> mid <> "" ->
  len (head +:+ mid +:+ tail) <= int_max ->
  cmd.maskToken (head +:+ mid +:+ tail) = Some (head +:+ "..." +:+ tail).
Proof.
  intros Hh Ht Hm Hlen. unfold cmd.maskToken.
  assert (L : len (head +:+ mid +:+ tail) = 8 + len mid).
  { unfold len. rewrite !string_length_app, Hh, Ht. lia. }
  assert (Hmid : 0 < len mid).
  { unfold len. destruct mid; [contradiction | simpl; lia]. }
  destruct (String.eqb_spec (head +:+ mid +:+ tail) "") as [E|_].
  { apply (f_equal len) in E. rewrite L in E. unfold len in E. simpl in E. lia. }
  replace (len (head +:+ mid +:+ tail) <=? 8) with false
    by (symmetry; apply Z.leb_gt; lia).
  replace 4 with (len head) at 1 by (unfold len; rewrite Hh; reflexivity).
  rewrite slice_to_app.
  rewrite wrap_int_id
    by (unfold int_range, int_min, int_max in *; lia).
  replace (len (head +:+ mid +:+ tail) - 4) with (len (head +:+ mid))
    by (rewrite L; unfold len; rewrite string_length_app, Hh; lia).
  rewrite <- string_app_assoc, slice_from_app. reflexivity.
Qed.

Lemma maskToken_hides_middle_witness :
  String.length "abcd" = 4%nat /\ String.length "wxyz" = 4%nat
  /\ "SECRET" <> "" /\ "secret!" <> ""
  /\ cmd.maskToken ("abcd" +:+ "SECRET" +:+ "wxyz")
     = cmd.maskToken ("abcd" +:+ "secret!" +:+ "wxyz").
Proof.
  split; [reflexivity|]. split; [reflexivity|].
  split; [discriminate|]. split; [discriminate|].
  rewrite (maskToken_hides_middle "abcd" "SECRET" "wxyz" eq_refl eq_refl)
    by (discriminate || (vm_compute; discriminate)).
  rewrite (maskToken_hides_middle "abcd" "secret!" "wxyz" eq_refl eq_refl)
    by (discriminate || (vm_compute; discriminate)).
  reflexivity.
Defined.

(** X2. [maskToken] never fails on an out-of-range slice, and what it
    returns is at most eleven bytes long, whatever the length of the
    token: ["(not set)"] for the empty token, four stars for a token of
    up to eight bytes, eleven bytes for a longer one. *)
Theorem maskToken_total (token : string) :
  len token <= int_max ->
  exists masked,
    cmd.maskToken token = Some masked
    /\ len masked <= 11
    /\ (token = "" -> masked = "(not set)")
    /\ (token <> "" -> len token <= 8 -> masked = "****")
    /\ (8 < len token -> len masked = 11).
Proof.
  intros Hlen. unfold cmd.maskToken.
  destruct (String.eqb_spec token "") as [->|Hne].
  { eexists. split; [reflexivity|]. split; [vm_compute; discriminate|].
    split; [reflexivity|]. split; [congruence|].
    intros H. vm_compute in H. discriminate. }
  destruct (Z.leb_spec (len token) 8) as [H8|H8].
  { eexists. split; [reflexivity|]. split; [vm_compute; discriminate|].
    split; [contradiction|]. split; [reflexivity | lia]. }
  destruct (slice_to_ok token 4) as (head & -> & Hh & _); [lia|].
  rewrite wrap_int_id by (unfold int_range, int_min, int_max in *; lia).
  unfold slice_from.
  replace ((0 <=? len token - 4) && (len token - 4 <=? len token)) with true
    by (symmetry; apply andb_true_intro; split; apply Z.leb_le; lia).
  eexists. split; [reflexivity|].
  assert (Htail : len (substring (Z.to_nat (len token - 4))
                         (String.length token - Z.to_nat (len token - 4)) token)
                  = 4).
  { unfold len in *.
    pose proof (substring_split (Z.to_nat (Z.of_nat (String.length token) - 4))
                  token ltac:(lia)) as Hs.
    apply (f_equal String.length) in Hs. rewrite string_length_app in Hs.
    rewrite substring_0_length in Hs by lia. lia. }
  assert (L : len (head +:+ "..."
                   +:+ substring (Z.to_nat (len token - 4))
                         (String.length token - Z.to_nat (len token - 4)) token)
              = 11).
  { unfold len in *. rewrite !string_length_app. simpl String.length at 2. lia. }
  split; [lia|]. split; [contradiction|]. split; [lia | intros _; exact L].
Qed.

Lemma maskToken_total_witness :
  len "0123456789abcdef" <= int_max
  /\ exists masked, cmd.maskToken "0123456789abcdef" = Some masked
                    /\ len masked <= 11.
Proof.
  assert (H : len "0123456789abcdef" <= int_max) by (vm_compute; discriminate).
  split; [exact H|].
  destruct (maskToken_total "0123456789abcdef" H) as (masked & E & L & _).
  exists masked. split; assumption.
Defined.

End MaskToken.

(** ** The client of a command *)

Section GetClient.

Import http api.

Variable getenv : string -> string.
Variable Load : result config.Config.
Variable fl : cmd.Flags.

Lemma GetURL_first :
  config.GetURL getenv Load
  = Spec.first_nonempty [getenv "PAPERLESS_URL"; Spec.file_URL Load].
Proof.
  unfold config.GetURL, Spec.first_nonempty, Spec.file_URL.
  destruct (String.eqb (getenv "PAPERLESS_URL") ""); simpl; [|reflexivity].
  destruct Load as [cfg|e]; [|reflexivity].
  destruct (String.eqb_spec (config.URL cfg) ""); congruence.
Qed.

Lemma GetToken_first :
  config.GetToken getenv Load
  = Spec.first_nonempty [getenv "PAPERLESS_TOKEN"; Spec.file_Token Load].
Proof.
  unfold config.GetToken, Spec.first_nonempty, Spec.file_Token.
  destruct (String.eqb (getenv "PAPERLESS_TOKEN") ""); simpl; [|reflexivity].
  destruct Load as [cfg|e]; [|reflexivity].
  destruct (String.eqb_spec (config.Token cfg) ""); congruence.
Qed.

(** X3. The server URL of a command is the [--url] flag, else the
    environment variable PAPERLESS_URL, else the URL of the configuration
    file; the token is PAPERLESS_TOKEN, else the token of the file; a
    file that cannot be loaded counts as empty. Without a URL the error
    is the one about the URL, whatever the token; with a URL and no token
    it is the one about the token; otherwise the client is
    [NewClient url token]. *)
Theorem getClient_precedence :
  let url := Spec.first_nonempty
               [cmd.urlFlag fl; getenv "PAPERLESS_URL"; Spec.file_URL Load] in
  let token := Spec.first_nonempty
                 [getenv "PAPERLESS_TOKEN"; Spec.file_Token Load] in
  (url = "" ->
   cmd.getClient getenv Load fl
   = Err "no server URL configured. Set PAPERLESS_URL or run 'paperless config set-url <url>'")
  /\ (url <> "" -> token = "" ->
      cmd.getClient getenv Load fl
      = Err "no API token configured. Set PAPERLESS_TOKEN or run 'paperless config set-token <token>'")
  /\ (url <> "" -> token <> "" ->
      cmd.getClient getenv Load fl = Ok (NewClient url token)).
Proof.
  intros url token. unfold cmd.getClient.
  rewrite GetURL_first, GetToken_first. fold token.
  assert (E : (if String.eqb (cmd.urlFlag fl) ""
               then Spec.first_nonempty [getenv "PAPERLESS_URL"; Spec.file_URL Load]
               else cmd.urlFlag fl) = url) by reflexivity.
  rewrite E.
  destruct (String.eqb_spec url "") as [Hu|Hu].
  { split; [reflexivity|]. split; intros; contradiction. }
  split; [contradiction|].
  destruct (String.eqb_spec token "") as [Ht|Ht].
  - split; [reflexivity | intros; contradiction].
  - split; [intros; contradiction | reflexivity].
Qed.

End GetClient.

Lemma getClient_precedence_witness :
  Spec.first_nonempty ["http://flag.example"; Fixture.getenv "PAPERLESS_URL";
                       Spec.file_URL Fixture.no_config] <> ""
  /\ cmd.getClient Fixture.getenv Fixture.no_config Fixture.url_flag
     = Ok (api.NewClient "http://flag.example" "s3cret").
Proof.
  assert (H1 : Spec.first_nonempty
                 [cmd.urlFlag Fixture.url_flag; Fixture.getenv "PAPERLESS_URL";
                  Spec.file_URL Fixture.no_config] <> "")
    by (vm_compute; discriminate).
  split; [exact H1|].
  apply (proj2 (proj2 (getClient_precedence Fixture.getenv Fixture.no_config
                         Fixture.url_flag)) H1).
  vm_compute. discriminate.
Defined.

(** ** What a request carries *)

Section RequestFacts.

Import http api.

Variable transport : list Exchange -> Exchange -> result Response.

(** X4. Every request goes out once, with exactly these headers: the
    [Authorization] header "Token <token>", the [Accept] header of API
    version 5, and a [Content-Type] header exactly when a content type is
    given; nothing is printed. [get] and [delete] send no body and so no
    [Content-Type]. *)
Theorem request_headers (c : Client) (method path : string) (body : ReqBody)
    (contentType : string) (w : World) :
  exists ex,
    snd (request transport c method path body contentType w) = Spec.logged w ex
    /\ Method (sent ex) = method
    /\ URL (sent ex) = baseURL c +:+ path
    /\ Body (sent ex) = body
    /\ via ex = httpClient c
    /\ ReqHeader (sent ex) !! "Authorization" = Some ["Token " +:+ token c]
    /\ ReqHeader (sent ex) !! "Accept" = Some ["application/json; version=5"]
    /\ ReqHeader (sent ex) !! "Content-Type"
       = (if String.eqb contentType "" then None else Some [contentType])
    /\ (forall k, k <> "Authorization" -> k <> "Accept" -> k <> "Content-Type" ->
                  ReqHeader (sent ex) !! k = None)
    /\ snd (get transport c path w)
       = Spec.logged w (Spec.exchange_of c "GET" path NoBody "")
    /\ snd (delete transport c path w)
       = Spec.logged w (Spec.exchange_of c "DELETE" path NoBody "").
Proof.
  rewrite request_eq. eexists. split; [reflexivity|].
  unfold Spec.exchange_of, Header_Set. cbn [sent via Method URL Body ReqHeader].
  repeat (split; [reflexivity|]).
  split; [destruct (negb _); now simplify_map_eq|].
  split; [now simplify_map_eq|].
  split.
  { destruct (String.eqb contentType ""); cbn [negb]; now simplify_map_eq. }
  split.
  { intros k H1 H2 H3. destruct (negb _); now simplify_map_eq. }
  unfold get, delete. now rewrite !request_eq.
Qed.

End RequestFacts.

(** X5. A base URL with one trailing slash and the same URL without it
    give the same client, so the same requests: the URL of a request is
    the base URL without that slash, followed by the path. *)
Theorem NewClient_trailing_slash (b tok : string) :
  strings.HasSuffix b "/" = false ->
  api.NewClient (b +:+ "/") tok = api.NewClient b tok
  /\ forall base path,
       base = b \/ base = b +:+ "/" ->
       api.baseURL (api.NewClient base tok) +:+ path = b +:+ path.
Proof.
  intros H.
  destruct (NewClient_baseURL b tok) as [E1 E2]. specialize (E2 H).
  split.
  - unfold api.NewClient in *. cbn [api.baseURL] in *. now rewrite E1, E2.
  - intros base path [-> | ->]; now rewrite ?E1, ?E2.
Qed.

Lemma NewClient_trailing_slash_witness :
  api.NewClient "http://paperless.local/" "s3cret" = Fixture.client.
Proof.
  apply (proj1 (NewClient_trailing_slash "http://paperless.local" "s3cret"
                  eq_refl)).
Defined.

(** ** The calls on one record *)

Section RecordCalls.

Import http api.

Variable transport : list Exchange -> Exchange -> result Response.
Variable json : Codec.
Variable entities : EntityCodec.

Ltac status_cases :=
  unfold StatusOK, StatusCreated, StatusNoContent, StatusNotFound in *;
  repeat match goal with
         | |- context [Z.eqb ?a ?b] => destruct (Z.eqb_spec a b)
         end;
  cbn [negb andb orb ret fst snd];
  repeat split; intros; try reflexivity; try congruence; try lia;
  try (exfalso; intuition congruence).

Lemma get_one_contract {T} (c : Client) (resource kind : string) (id : Z)
    (decode : Stream -> result T) (resp : Response) (w : World) :
  (forall ex, transport (exchanges w) ex = Ok resp) ->
  Spec.got_by_id c resource kind id decode resp w
    (get_one transport c resource kind id decode w).
Proof.
  intros H. unfold Spec.got_by_id, get_one, get, try, bind.
  rewrite request_eq, H. status_cases.
Qed.

(** X6. [GetTag], [GetCorrespondent], [GetDocumentType], [GetStoragePath],
    [GetSavedView] and [GetDocument] make one [GET] request to
    [/api/<resource>/<id>/] and print nothing. When the server answers,
    status 404 gives the error "<kind> <id> not found", status 200 the
    decoded body, and every other status an "API error" with the status
    and the body. *)
Theorem get_by_id_outcome (c : Client) (id : Z) (resp : Response) (w : World) :
  (forall ex, transport (exchanges w) ex = Ok resp) ->
  Spec.got_by_id c "tags" "tag" id (decodeTag entities) resp w
    (GetTag transport entities c id w)
  /\ Spec.got_by_id c "correspondents" "correspondent" id
       (decodeCorrespondent entities) resp w
       (GetCorrespondent transport entities c id w)
  /\ Spec.got_by_id c "document_types" "document type" id
       (decodeDocumentType entities) resp w
       (GetDocumentType transport entities c id w)
  /\ Spec.got_by_id c "storage_paths" "storage path" id
       (decodeStoragePath entities) resp w
       (GetStoragePath transport entities c id w)
  /\ Spec.got_by_id c "saved_views" "saved view" id
       (decodeSavedView entities) resp w
       (GetSavedView transport entities c id w)
  /\ Spec.got_by_id c "documents" "document" id (decodeDocument json) resp w
       (GetDocument transport json c id w).
Proof.
  intros H.
  do 5 (split; [exact (get_one_contract c _ _ id _ resp w H)|]).
  unfold Spec.got_by_id, GetDocument, get, try, bind.
  rewrite request_eq, H. status_cases.
Qed.

Lemma create_contract {T} (c : Client) (path : string)
    (data : gmap string Value) (decode : Stream -> result T)
    (resp : Response) (w : World) :
  (forall ex, transport (exchanges w) ex = Ok resp) ->
  (forall payload, marshalUpdates json data = Ok payload ->
     Spec.created c path payload decode resp w
       (create transport json c path data decode w))
  /\ (forall e, marshalUpdates json data = Err e ->
        create transport json c path data decode w = (Err e, w)).
Proof.
  intros H. unfold Spec.created, create, post, try, bind. split.
  - intros payload ->. rewrite request_eq, H. status_cases.
  - now intros e ->.
Qed.

(** X7. [CreateTag], [CreateCorrespondent], [CreateDocumentType] and
    [CreateStoragePath] send the marshalled payload in one [POST] request
    as JSON; statuses 201 and 200 give the decoded body, every other
    status is "create failed" with the status and the body. When the
    payload cannot be marshalled no request is made. The payload of a tag
    has the name, and the colour only when a colour is given. *)
Theorem create_outcome (c : Client) (name color path : string)
    (resp : Response) (w : World) :
  (forall ex, transport (exchanges w) ex = Ok resp) ->
  let sends {T} (url : string) (data : gmap string Value)
        (decode : Stream -> result T) (r : result T * World) :=
    (forall payload, marshalUpdates json data = Ok payload ->
       Spec.created c url payload decode resp w r)
    /\ (forall e, marshalUpdates json data = Err e -> r = (Err e, w)) in
  sends "/api/tags/"
    (if String.eqb color "" then {[ "name" := VString name ]}
     else {[ "name" := VString name; "color" := VString color ]})
    (decodeTag entities) (CreateTag transport json entities c name color w)
  /\ sends "/api/correspondents/" {[ "name" := VString name ]}
       (decodeCorrespondent entities)
       (CreateCorrespondent transport json entities c name w)
  /\ sends "/api/document_types/" {[ "name" := VString name ]}
       (decodeDocumentType entities)
       (CreateDocumentType transport json entities c name w)
  /\ sends "/api/storage_paths/"
       {[ "name" := VString name; "path" := VString path ]}
       (decodeStoragePath entities)
       (CreateStoragePath transport json entities c name path w).
Proof.
  intros H sends. subst sends. cbv beta.
  assert (Et : tag_data name color
               = if String.eqb color "" then {[ "name" := VString name ]}
                 else {[ "name" := VString name; "color" := VString color ]}).
  { unfold tag_data. destruct (String.eqb color ""); cbn [negb].
    - now rewrite insert_empty.
    - rewrite insert_empty. apply map_eq. intros k.
      destruct (decide (k = "color")) as [->|]; [now simplify_map_eq|].
      destruct (decide (k = "name")) as [->|]; now simplify_map_eq. }
  assert (Es : <["path" := VString path]> (<["name" := VString name]> ∅)
               = ({[ "name" := VString name; "path" := VString path ]}
                  : gmap string Value)).
  { rewrite insert_empty. apply map_eq. intros k.
    destruct (decide (k = "path")) as [->|]; [now simplify_map_eq|].
    destruct (decide (k = "name")) as [->|]; now simplify_map_eq. }
  split; [|split; [|split]].
  - unfold CreateTag. rewrite Et. now apply create_contract.
  - unfold CreateCorrespondent. rewrite insert_empty. now apply create_contract.
  - unfold CreateDocumentType. rewrite insert_empty. now apply create_contract.
  - unfold CreateStoragePath. rewrite Es. now apply create_contract.
Qed.

Lemma update_contract {T} (c : Client) (path : string)
    (updates : gmap string Value) (decode : Stream -> result T)
    (resp : Response) (w : World) :
  (forall ex, transport (exchanges w) ex = Ok resp) ->
  (forall payload, marshalUpdates json updates = Ok payload ->
     Spec.updated c path payload decode resp w
       (update transport json c path updates decode w))
  /\ (forall e, marshalUpdates json updates = Err e ->
        update transport json c path updates decode w = (Err e, w)).
Proof.
  intros H. unfold Spec.updated, update, patch, try, bind. split.
  - intros payload ->. rewrite request_eq, H. status_cases.
  - now intros e ->.
Qed.

(** X8. [UpdateDocument], [UpdateTag], [UpdateCorrespondent] and
    [UpdateDocumentType] send the marshalled updates in one [PATCH]
    request to the record; only status 200 is success (201 and 204 are
    not), every other status is "update failed" with the status and the
    body. When the updates cannot be marshalled no request is made. *)
Theorem update_outcome (c : Client) (id : Z) (updates : gmap string Value)
    (resp : Response) (w : World) :
  (forall ex, transport (exchanges w) ex = Ok resp) ->
  let sends {T} (resource : string) (decode : Stream -> result T)
        (r : result T * World) :=
    (forall payload, marshalUpdates json updates = Ok payload ->
       Spec.updated c ("/api/" +:+ resource +:+ "/" +:+ strconv.Itoa id +:+ "/")
         payload decode resp w r)
    /\ (forall e, marshalUpdates json updates = Err e -> r = (Err e, w)) in
  sends "documents" (decodeDocument json)
    (UpdateDocument transport json c id updates w)
  /\ sends "tags" (decodeTag entities)
       (UpdateTag transport json entities c id updates w)
  /\ sends "correspondents" (decodeCorrespondent entities)
       (UpdateCorrespondent transport json entities c id updates w)
  /\ sends "document_types" (decodeDocumentType entities)
       (UpdateDocumentType transport json entities c id updates w).
Proof.
  intros H sends. subst sends. cbv beta.
  split; [|split; [|split]].
  - unfold Spec.updated, UpdateDocument, patch, try, bind. split.
    + intros payload ->. rewrite request_eq, H. status_cases.
    + now intros e ->.
  - exact (update_contract c _ updates _ resp w H).
  - exact (update_contract c _ updates _ resp w H).
  - exact (update_contract c _ updates _ resp w H).
Qed.

Lemma delete_one_contract (c : Client) (resource : string) (id : Z)
    (resp : Response) (w : World) :
  (forall ex, transport (exchanges w) ex = Ok resp) ->
  Spec.deleted c ("/api/" +:+ resource +:+ "/" +:+ strconv.Itoa id +:+ "/")
    resp w (delete_one transport c resource id w).
Proof.
  intros H. unfold Spec.deleted, delete_one, delete_result, delete, try, bind.
  rewrite request_eq, H. status_cases.
Qed.

(** X9. [DeleteDocument], [DeleteTag], [DeleteCorrespondent],
    [DeleteDocumentType] and [DeleteStoragePath] make one [DELETE] request
    to the record, without a body; statuses 204 and 200 are success, every
    other status is "delete failed" with the status and the body. *)
Theorem delete_outcome (c : Client) (id : Z) (resp : Response) (w : World) :
  (forall ex, transport (exchanges w) ex = Ok resp) ->
  let at_ (resource : string) :=
    Spec.deleted c ("/api/" +:+ resource +:+ "/" +:+ strconv.Itoa id +:+ "/")
      resp w in
  at_ "documents" (DeleteDocument transport c id w)
  /\ at_ "tags" (DeleteTag transport c id w)
  /\ at_ "correspondents" (DeleteCorrespondent transport c id w)
  /\ at_ "document_types" (DeleteDocumentType transport c id w)
  /\ at_ "storage_paths" (DeleteStoragePath transport c id w).
Proof.
  intros H at_. subst at_. cbv beta.
  split; [|split; [|split; [|split]]];
    exact (delete_one_contract c _ id resp w H).
Qed.


End RecordCalls.

Lemma get_by_id_outcome_witness :
  fst (api.GetTag (Fixture.always (Fixture.response 404 "")) Fixture.entities
         Fixture.client 5 Fixture.empty_world)
  = Err "tag 5 not found".
Proof.
  destruct (get_by_id_outcome (Fixture.always (Fixture.response 404 ""))
              Fixture.codec Fixture.entities Fixture.client 5
              (Fixture.response 404 "") Fixture.empty_world
              (fun _ => eq_refl)) as [(_ & H & _) _].
  exact (H eq_refl).
Defined.

Lemma create_outcome_witness :
  fst (api.CreateTag (Fixture.always (Fixture.response 201 ""))
         Fixture.codec Fixture.entities Fixture.client "Bills" ""
         Fixture.empty_world)
  = Ok (Fixture.tag 7 "Bills").
Proof.
  destruct (create_outcome (Fixture.always (Fixture.response 201 ""))
              Fixture.codec Fixture.entities Fixture.client "Bills" "" ""
              (Fixture.response 201 "") Fixture.empty_world
              (fun _ => eq_refl)) as [[H _] _].
  destruct (H "{}" eq_refl) as (_ & H1 & _).
  exact (H1 (or_introl eq_refl)).
Defined.

Lemma update_outcome_witness :
  fst (api.UpdateTag (Fixture.always (Fixture.response 204 "gone"))
         Fixture.codec Fixture.entities Fixture.client 7 ∅ Fixture.empty_world)
  = Err "update failed 204: gone".
Proof.
  destruct (update_outcome (Fixture.always (Fixture.response 204 "gone"))
              Fixture.codec Fixture.entities Fixture.client 7 ∅
              (Fixture.response 204 "gone") Fixture.empty_world
              (fun _ => eq_refl)) as (_ & [H _] & _).
  destruct (H "{}" eq_refl) as (_ & _ & H1).
  exact (H1 ltac:(vm_compute; discriminate)).
Defined.

Lemma delete_outcome_witness :
  fst (api.DeleteTag (Fixture.always (Fixture.response 204 "")) Fixture.client
         7 Fixture.empty_world)
  = Ok tt.
Proof.
  destruct (delete_outcome (Fixture.always (Fixture.response 204 ""))
              Fixture.client 7 (Fixture.response 204 "") Fixture.empty_world
              (fun _ => eq_refl)) as (_ & (_ & H & _) & _).
  exact (H (or_introl eq_refl)).
Defined.


(** ** The calls that read *)

Section ReadCalls.

Import http api.

Variable transport : list Exchange -> Exchange -> result Response.
Variable json : Codec.
Variable entities : EntityCodec.
Variable hasUnicode : string -> string -> bool.

Lemma get_one_get {T} (c : Client) (path : string)
    (k : Response -> M (result T)) (w : World) :
  (forall resp w0, snd (k resp w0) = w0) ->
  Spec.one_get c w (snd ((resp <-? get transport c path ;; k resp) w)).
Proof.
  intros Hk. exists path. unfold get, try, bind. rewrite request_eq.
  destruct (transport _ _) as [resp|e]; [apply Hk | reflexivity].
Qed.

Lemma get_decoded_one_get {T} (c : Client) (path : string)
    (decode : Stream -> result T) (w : World) :
  Spec.one_get c w (snd (get_decoded transport c path decode w)).
Proof.
  unfold get_decoded. apply get_one_get. intros resp w0.
  now destruct (negb _).
Qed.

Lemma get_by_id_one_get {T} (c : Client) (resource kind : string) (id : Z)
    (decode : Stream -> result T) (w : World) :
  Spec.one_get c w (snd (get_one transport c resource kind id decode w)).
Proof.
  unfold get_one. apply get_one_get. intros resp w0.
  destruct (_ =? _); [reflexivity|]. now destruct (negb _).
Qed.

Lemma find_by_name_one_get {T} (c : Client)
    (list_all : M (result (PaginatedResponse T))) (Name : T -> string)
    (kind name : string) (w : World) :
  Spec.one_get c w (snd (list_all w)) ->
  Spec.one_get c w
    (snd (find_by_name hasUnicode list_all Name kind name w)).
Proof. now rewrite find_by_name_snd. Qed.

(** X11. The calls that read make exactly one [GET] request, without a
    body, and print nothing, whatever the server answers: the listings,
    the look-ups by name, the reads by ID, the task status, the search,
    the similar documents, the download, the preview and the thumbnail
    never change anything on the server. *)
Theorem reads_make_one_get (c : Client) (id limit : Z) (name : string)
    (original : bool) (params : DocumentListParams) (w : World) :
  let reads {T} (m : M (result T)) := Spec.one_get c w (snd (m w)) in
  reads (ListDocuments transport json c params)
  /\ reads (ListTags transport json c)
  /\ reads (ListCorrespondents transport json c)
  /\ reads (ListDocumentTypes transport json c)
  /\ reads (ListStoragePaths transport json c)
  /\ reads (ListSavedViews transport json c)
  /\ reads (FindTagByName transport json hasUnicode c name)
  /\ reads (FindCorrespondentByName transport json hasUnicode c name)
  /\ reads (FindDocumentTypeByName transport json hasUnicode c name)
  /\ reads (FindStoragePathByName transport json hasUnicode c name)
  /\ reads (GetDocument transport json c id)
  /\ reads (GetTag transport entities c id)
  /\ reads (GetCorrespondent transport entities c id)
  /\ reads (GetDocumentType transport entities c id)
  /\ reads (GetStoragePath transport entities c id)
  /\ reads (GetSavedView transport entities c id)
  /\ reads (GetTask transport json c name)
  /\ reads (GlobalSearch transport entities c name)
  /\ reads (GetSimilarDocuments transport json c id limit)
  /\ reads (DownloadDocument transport c id original)
  /\ reads (GetDocumentPreview transport c id)
  /\ reads (GetDocumentThumb transport c id).
Proof.
  intros reads. subst reads. cbv beta.
  do 6 (split; [apply get_decoded_one_get|]).
  do 4 (split; [apply find_by_name_one_get, get_decoded_one_get|]).
  split; [exact (get_by_id_one_get c "documents" "document" id _ w)|].
  do 5 (split; [apply get_by_id_one_get|]).
  split.
  { unfold GetTask, try, bind.
    destruct (get_decoded_one_get c ("/api/tasks/?task_id=" +:+ name)
                (decodeTasks json) w) as [path E].
    exists path.
    destruct (get_decoded _ _ _ _ w) as [[tasks|e] w1]; exact E. }
  split; [apply get_decoded_one_get|].
  split; [apply get_decoded_one_get|].
  split; [unfold DownloadDocument; now apply get_one_get|].
  split; unfold GetDocumentPreview, GetDocumentThumb, get_bytes;
    apply get_one_get; intros resp w0;
    (destruct (negb _); [reflexivity|]);
    now destruct (io_ReadAll _) as [b [err|]].
Qed.

Lemma escape_byte (c : ascii) :
  c = " "%char
  \/ (c <> " "%char /\ url.shouldEscape c = true
      /\ exists h l,
           Spec.unhex (url.upperhex (Z.shiftr (byte_val c) 4)) = Some h
           /\ Spec.unhex (url.upperhex (Z.land (byte_val c) 15)) = Some l
           /\ ascii_of_N (Z.to_N (16 * h + l)) = c
           /\ Spec.query_byte (url.upperhex (Z.shiftr (byte_val c) 4)) = true
           /\ Spec.query_byte (url.upperhex (Z.land (byte_val c) 15)) = true)
  \/ (c <> " "%char /\ url.shouldEscape c = false
      /\ c <> "%"%char /\ c <> "+"%char).
Proof.
  destruct c as [b0 b1 b2 b3 b4 b5 b6 b7].
  destruct b0, b1, b2, b3, b4, b5, b6, b7;
    first [ left; reflexivity
          | right; left; split; [discriminate|]; split; [vm_compute; reflexivity|];
            eexists _, _; repeat split; vm_compute; reflexivity
          | right; right; split; [discriminate|];
            split; [vm_compute; reflexivity|]; split; discriminate ].
Qed.

Lemma QueryEscape_cons (c : ascii) (s : string) :
  Spec.QueryUnescape (url.QueryEscape (String c s))
  = match Spec.QueryUnescape (url.QueryEscape s) with
    | Some r => Some (String c r)
    | None => None
    end
  /\ Spec.query_safe (url.QueryEscape (String c s))
     = Spec.query_safe (url.QueryEscape s).
Proof.
  cbn [url.QueryEscape]. generalize (url.QueryEscape s). intros q.
  destruct (escape_byte c)
    as [-> | [(Hs & He & h & l & Eh & El & Ec & Qh & Ql) | (Hs & He & Hp & Hq)]].
  - split; reflexivity.
  - apply Ascii.eqb_neq in Hs. rewrite Hs, He.
    cbn [Spec.QueryUnescape Spec.query_safe].
    change (Ascii.eqb "%" "%") with true. cbv iota.
    rewrite Eh, El, Ec, Qh, Ql. split; reflexivity.
  - apply Ascii.eqb_neq in Hs, Hp, Hq. rewrite Hs, He.
    cbn [Spec.QueryUnescape Spec.query_safe]. rewrite Hp, Hq.
    unfold Spec.query_byte. rewrite He. split; reflexivity.
Qed.

Lemma QueryEscape_round_trip (s : string) :
  Spec.QueryUnescape (url.QueryEscape s) = Some s
  /\ Spec.query_safe (url.QueryEscape s) = true.
Proof.
  induction s as [|c s [IH1 IH2]]; [split; reflexivity|].
  destruct (QueryEscape_cons c s) as [E1 E2].
  now rewrite E1, E2, IH1, IH2.
Qed.

(** X12. [GlobalSearch] sends the query as one escaped value: the URL is
    [/api/search/?query=] followed by bytes that are letters, digits,
    [-], [_], [.], [~], [+] or [%] only (so no [&], [=], [#] or space of
    the query can end the value or start another parameter), and
    unescaping that value gives the query back, byte for byte. *)
Theorem GlobalSearch_sends_query (c : Client) (query : string) (w : World) :
  exists value,
    snd (GlobalSearch transport entities c query w)
    = Spec.logged w (Spec.exchange_of c "GET" ("/api/search/?query=" +:+ value)
                       NoBody "")
    /\ Spec.query_safe value = true
    /\ Spec.QueryUnescape value = Some query.
Proof.
  exists (url.QueryEscape query).
  destruct (QueryEscape_round_trip query) as [E1 E2].
  split; [|split; assumption].
  unfold GlobalSearch. now rewrite get_decoded_eq.
Qed.

End ReadCalls.

(** ** The title of an uploaded file *)

Section TitleFacts.

Lemma from_last_dot_suffix (s : string) :
  exists pre, s = pre +:+ filepath.from_last_dot s.
Proof.
  induction s as [|c s [pre IH]]; [now exists ""|].
  cbn [filepath.from_last_dot].
  destruct (filepath.from_last_dot s) as [|d r] eqn:E.
  - destruct (Ascii.eqb c "."); [now exists ""|].
    exists (String c s). now rewrite string_app_empty_r.
  - exists (String c pre). now rewrite string_app_cons, <- IH.
Qed.

Lemma TrimRight_no_sep (s : string) :
  filepath.contains_sep s = false -> strings.TrimRight s "/" = s.
Proof.
  induction s as [|c s IH]; [reflexivity|].
  cbn [filepath.contains_sep strings.TrimRight]. intros H.
  apply orb_false_iff in H as [Hc Hs]. rewrite (IH Hs).
  destruct s; [|reflexivity].
  cbn [strings.in_cutset]. unfold filepath.is_sep in Hc. now rewrite Hc.
Qed.

Lemma contains_sep_nonempty (s : string) :
  filepath.contains_sep s = true -> s <> "".
Proof. now destruct s. Qed.

Lemma TrimRight_after_last_sep (f : string) :
  filepath.after_last_sep f <> "" -> strings.TrimRight f "/" = f.
Proof.
  induction f as [|c f IH]; [reflexivity|].
  cbn [filepath.after_last_sep strings.TrimRight].
  destruct (filepath.contains_sep f) eqn:Hs.
  - intros H. rewrite (IH H).
    apply contains_sep_nonempty in Hs. now destruct f.
  - rewrite (TrimRight_no_sep f Hs).
    destruct (filepath.is_sep c) eqn:Hc.
    + intros H. now destruct f.
    + intros _. destruct f; [|reflexivity].
      cbn [strings.in_cutset]. unfold filepath.is_sep in Hc. now rewrite Hc.
Qed.

Lemma Base_after_last_sep (f : string) :
  filepath.after_last_sep f <> "" -> filepath.Base f = filepath.after_last_sep f.
Proof.
  intros H. unfold filepath.Base.
  destruct f as [|c f]; [now contradiction H|].
  rewrite (TrimRight_after_last_sep _ H).
  now destruct (filepath.after_last_sep (String c f)).
Qed.

(** X13. Without [--title], the title of an upload is the base name of
    the file without its extension: the title followed by the extension
    [filepath.Ext] finds is the base name, for every path (with
    directories, a trailing slash, several dots or none). *)
Theorem upload_title_and_extension (fl : cmd.Flags) (filePath : string) :
  cmd.uploadTitle fl = "" ->
  Spec.title_of fl filePath +:+ filepath.Ext filePath = filepath.Base filePath.
Proof.
  intros Ht. unfold Spec.title_of. rewrite Ht. cbn [String.eqb].
  destruct (string_dec (filepath.Ext filePath) "") as [E|E].
  - rewrite E, string_app_empty_r.
    rewrite <- (string_app_empty_r (filepath.Base filePath)) at 1.
    apply TrimSuffix_app.
  - assert (Ha : filepath.after_last_sep filePath <> "").
    { intros Ha. apply E. unfold filepath.Ext. now rewrite Ha. }
    rewrite (Base_after_last_sep _ Ha). unfold filepath.Ext.
    destruct (from_last_dot_suffix (filepath.after_last_sep filePath))
      as [pre Hpre].
    rewrite Hpre at 1. rewrite TrimSuffix_app. now rewrite <- Hpre.
Qed.

Lemma plain_name_facts (name : string) :
  Spec.plain_name name = true ->
  filepath.contains_sep name = false /\ filepath.from_last_dot name = "".
Proof.
  induction name as [|c name IH]; [now split|].
  cbn [Spec.plain_name filepath.contains_sep filepath.from_last_dot].
  intros H. apply andb_true_iff in H as [H Hn].
  apply andb_true_iff in H as [Hs Hd].
  destruct (IH Hn) as [-> ->]. unfold filepath.is_sep.
  apply negb_true_iff in Hs, Hd. now rewrite Hs, Hd.
Qed.

Lemma after_last_sep_dir (dir s : string) :
  filepath.contains_sep s = false ->
  filepath.after_last_sep (dir +:+ "/" +:+ s) = s.
Proof.
  intros Hs. induction dir as [|c dir IH].
  - rewrite string_app_nil_l, string_app_cons, string_app_nil_l.
    cbn [filepath.after_last_sep]. now rewrite Hs.
  - rewrite string_app_cons. cbn [filepath.after_last_sep].
    assert (E : filepath.contains_sep (dir +:+ "/" +:+ s) = true).
    { clear IH. induction dir as [|d dir IHd].
      - now rewrite string_app_nil_l, string_app_cons.
      - rewrite string_app_cons. cbn [filepath.contains_sep].
        rewrite IHd. apply orb_true_r. }
    now rewrite E.
Qed.

(** X14. Without [--title], a file whose base name begins with its only
    dot (a dotfile such as [.bashrc], alone or in a directory) is
    uploaded with the empty title: the whole name is its extension. *)
Theorem upload_title_of_dotfile (fl : cmd.Flags) (dir name : string) :
  cmd.uploadTitle fl = "" ->
  Spec.plain_name name = true ->
  Spec.title_of fl (dir +:+ "/." +:+ name) = ""
  /\ Spec.title_of fl ("." +:+ name) = ""
  /\ filepath.Ext (dir +:+ "/." +:+ name) = "." +:+ name.
Proof.
  intros Ht Hn. destruct (plain_name_facts name Hn) as [Hs Hd].
  assert (Hs' : filepath.contains_sep ("." +:+ name) = false).
  { rewrite string_app_cons, string_app_nil_l. cbn [filepath.contains_sep].
    now rewrite Hs. }
  assert (Hd' : filepath.from_last_dot ("." +:+ name) = "." +:+ name).
  { rewrite string_app_cons, string_app_nil_l. cbn [filepath.from_last_dot].
    now rewrite Hd. }
  assert (Ha : filepath.after_last_sep (dir +:+ "/." +:+ name) = "." +:+ name).
  { replace (dir +:+ "/." +:+ name) with (dir +:+ "/" +:+ "." +:+ name)
      by reflexivity.
    now apply after_last_sep_dir. }
  assert (Hb : filepath.after_last_sep ("." +:+ name) = "." +:+ name).
  { rewrite string_app_cons, string_app_nil_l. cbn [filepath.after_last_sep].
    now rewrite Hs. }
  assert (Hne : "." +:+ name <> "") by now rewrite string_app_cons.
  unfold Spec.title_of. rewrite Ht. cbn [String.eqb].
  unfold filepath.Ext.
  rewrite !Base_after_last_sep by (rewrite ?Ha, ?Hb; exact Hne).
  rewrite Ha, Hb, Hd'.
  rewrite <- (string_app_nil_l ("." +:+ name)) at 1 3.
  now rewrite TrimSuffix_app.
Qed.

End TitleFacts.

Lemma upload_title_and_extension_witness :
  Spec.title_of Fixture.no_flags "scans/invoice.final.pdf" +:+ ".pdf"
  = "invoice.final.pdf".
Proof.
  exact (upload_title_and_extension Fixture.no_flags "scans/invoice.final.pdf"
           eq_refl).
Defined.

Lemma upload_title_of_dotfile_witness :
  Spec.title_of Fixture.no_flags "/home/me/.bashrc" = "".
Proof.
  exact (proj1 (upload_title_of_dotfile Fixture.no_flags "/home/me" "bashrc"
                  eq_refl eq_refl)).
Defined.

(** ** The commands that delete *)

Section DeleteCommands.

Import http api.

Variable transport : list Exchange -> Exchange -> result Response.
Variable getenv : string -> string.
Variable Load : result config.Config.
Variable stdin_word : string.
Variable fl : cmd.Flags.
Variable rf : cmd.ResourceFlags.

Local Abbreviation runDocsDelete :=
  (cmd.runDocsDelete transport getenv Load stdin_word fl).

Lemma parseIDs_bad (good : list string) (bad : string) (rest : list string)
    (ids : list Z) :
  Forall (fun arg => is_Some (strconv.Atoi arg)) good ->
  strconv.Atoi bad = None ->
  cmd.parseIDs (good ++ bad :: rest) ids
  = Err ("invalid document ID: " +:+ bad).
Proof.
  intros Hgood Hbad. revert ids.
  induction Hgood as [|arg good [id Hid] _ IH]; intros ids.
  - cbn [app cmd.parseIDs]. now rewrite Hbad.
  - cbn [app cmd.parseIDs]. rewrite Hid. apply IH.
Qed.

Lemma parseIDs_parsed (args : list string) (ids acc : list Z) :
  Spec.parsed args ids -> cmd.parseIDs args acc = Ok (acc ++ ids)%list.
Proof.
  intros H. revert acc. induction H as [|arg id args ids Hid _ IH]; intros acc.
  - cbn [cmd.parseIDs]. now rewrite List.app_nil_r.
  - cbn [cmd.parseIDs]. rewrite Hid, IH. now rewrite <- List.app_assoc.
Qed.

Lemma printed_printed (w : World) (out1 out2 : list Output) :
  Spec.printed (Spec.printed w out1) out2 = Spec.printed w (out1 ++ out2).
Proof. unfold Spec.printed. cbn [exchanges terminal]. now rewrite List.app_assoc. Qed.

Lemma confirmAction_refused (message : string) (w : World) :
  Spec.refused fl stdin_word ->
  cmd.confirmAction stdin_word fl message w
  = (false, Spec.printed w (Spec.prompt fl message)).
Proof.
  unfold Spec.refused, Spec.prompt, cmd.confirmAction.
  destruct (cmd.quietMode fl).
  - intros _. cbn [ret]. now rewrite printed_nil.
  - intros [H|H]; [discriminate|].
    unfold bind, print, Spec.printed. cbn [ret].
    assert (E : String.eqb stdin_word "y" || String.eqb stdin_word "Y"
                || String.eqb stdin_word "yes" || String.eqb stdin_word "Yes"
                = false).
    { apply not_true_is_false. intros Ht. apply H. unfold Spec.yes_words.
      repeat (apply orb_true_iff in Ht as [Ht|Ht]);
        apply String.eqb_eq in Ht; subst; set_solver. }
    now rewrite E.
Qed.

Lemma confirmAction_yes (message : string) (w : World) :
  cmd.quietMode fl = false -> stdin_word ∈ Spec.yes_words ->
  cmd.confirmAction stdin_word fl message w
  = (true, Spec.printed w (Spec.prompt fl message)).
Proof.
  unfold Spec.prompt, cmd.confirmAction, Spec.yes_words. intros -> H.
  unfold bind, print, Spec.printed. cbn [ret].
  assert (E : String.eqb stdin_word "y" || String.eqb stdin_word "Y"
              || String.eqb stdin_word "yes" || String.eqb stdin_word "Yes"
              = true).
  { repeat (apply elem_of_cons in H as [->|H]); [reflexivity..|].
    now apply elem_of_nil in H. }
  now rewrite E.
Qed.

(** What the confirmation step of a delete command does when the command
    goes on. *)
Lemma confirmation_goes_on (force : bool) (message : string) (w : World) :
  Spec.goes_on fl stdin_word force ->
  (if negb force then cmd.confirmAction stdin_word fl message else ret true) w
  = (true, Spec.printed w (if force then [] else Spec.prompt fl message)).
Proof.
  intros [->|[Hq Hy]].
  - cbn [negb ret]. now rewrite printed_nil.
  - destruct force; cbn [negb ret]; [now rewrite printed_nil|].
    now apply confirmAction_yes.
Qed.

(** X15. [runDocsDelete] reads every argument before it deletes or asks
    anything: when an argument is not an integer, the command fails with
    "invalid document ID: <the first such argument>", no request is made
    and nothing is printed, also for the documents named before it. *)
Theorem runDocsDelete_parses_first (client : Client) (good : list string)
    (bad : string) (rest : list string) (w : World) :
  cmd.getClient getenv Load fl = Ok client ->
  Forall (fun arg => is_Some (strconv.Atoi arg)) good ->
  strconv.Atoi bad = None ->
  runDocsDelete (good ++ bad :: rest) w
  = (Err ("invalid document ID: " +:+ bad), w).
Proof.
  intros Hc Hgood Hbad. unfold cmd.runDocsDelete, try, bind, ret.
  now rewrite Hc, (parseIDs_bad good bad rest [] Hgood Hbad).
Qed.

(** X16. Without [--force], [runDocsDelete] deletes nothing unless the
    user answers y, Y, yes or Yes: on any other answer, and always in
    quiet mode (where the question is not asked), no request is made,
    "Cancelled" is printed (also in quiet mode) and the command
    succeeds. The question counts the documents. *)
Theorem runDocsDelete_cancelled (client : Client) (args : list string)
    (ids : list Z) (w : World) :
  cmd.getClient getenv Load fl = Ok client ->
  Spec.parsed args ids ->
  cmd.deleteForce fl = false ->
  Spec.refused fl stdin_word ->
  runDocsDelete args w
  = (Ok tt,
     Spec.printed w
       (Spec.prompt fl ("Delete " +:+ strconv.Itoa (Z.of_nat (length args))
                        +:+ " document(s)?")
        ++ [Spec.cancelled])).
Proof.
  intros Hc Hp Hf Hr. unfold cmd.runDocsDelete, try, bind, ret.
  rewrite Hc, (parseIDs_parsed args ids [] Hp), Hf. cbn [negb app].
  rewrite confirmAction_refused by exact Hr. cbn [negb].
  unfold print. rewrite (Forall2_length _ _ _ Hp).
  unfold Spec.printed, Spec.cancelled. cbn [exchanges terminal].
  now rewrite List.app_assoc.
Qed.

Lemma deleteOne_ok (client : Client) (id : Z) (resp : Response) (w : World) :
  (forall ex h, transport h ex = Ok resp) ->
  StatusCode resp = StatusNoContent \/ StatusCode resp = StatusOK ->
  cmd.deleteOne transport fl client id w
  = (Ok tt,
     Spec.printed (Spec.logged w (Spec.delete_request client "documents" id))
       (Spec.unless_quiet fl ("Deleted document " +:+ strconv.Itoa id))).
Proof.
  intros H Hs.
  unfold cmd.deleteOne, DeleteDocument, delete, delete_result, try, bind.
  rewrite request_eq, H. cbn [ret].
  replace (negb (StatusCode resp =? StatusNoContent)
           && negb (StatusCode resp =? StatusOK)) with false
    by (destruct Hs as [-> | ->]; reflexivity).
  unfold cmd.isQuiet, Spec.unless_quiet.
  destruct (cmd.quietMode fl); cbn [negb ret print].
  - now rewrite printed_nil.
  - unfold print, Spec.printed. repeat f_equal;
      now rewrite <- ?string_app_assoc.
Qed.

Lemma for_each_deleteOne (client : Client) (ids : list Z) (resp : Response)
    (w : World) :
  (forall ex h, transport h ex = Ok resp) ->
  StatusCode resp = StatusNoContent \/ StatusCode resp = StatusOK ->
  cmd.for_each (cmd.deleteOne transport fl client) ids w
  = (Ok tt,
     {| exchanges :=
          (exchanges w
           ++ List.map (Spec.delete_request client "documents") ids)%list;
        terminal :=
          (terminal w
           ++ flat_map (fun id => Spec.unless_quiet fl
                                    ("Deleted document " +:+ strconv.Itoa id))
                ids)%list |}).
Proof.
  intros H Hs. revert w. induction ids as [|id ids IH]; intros w.
  - cbn [cmd.for_each ret List.map flat_map]. rewrite !List.app_nil_r.
    now destruct w.
  - cbn [cmd.for_each List.map flat_map]. unfold try, bind.
    rewrite (deleteOne_ok client id resp w H Hs), IH.
    unfold Spec.printed, Spec.logged. cbn [exchanges terminal].
    now rewrite <- !List.app_assoc.
Qed.

(** X17. With [--force], or after a yes outside quiet mode, and a server
    that answers every request with 204 or 200, [runDocsDelete] sends
    one [DELETE] request per argument, to [/api/documents/<id>/], in the
    order of the arguments (an ID given twice is deleted twice), and
    prints one "Deleted document <id>" line for each unless in quiet
    mode. *)
Theorem runDocsDelete_deletes_all (client : Client) (args : list string)
    (ids : list Z) (resp : Response) (w : World) :
  cmd.getClient getenv Load fl = Ok client ->
  Spec.parsed args ids ->
  Spec.goes_on fl stdin_word (cmd.deleteForce fl) ->
  (forall ex h, transport h ex = Ok resp) ->
  StatusCode resp = StatusNoContent \/ StatusCode resp = StatusOK ->
  runDocsDelete args w
  = (Ok tt,
     {| exchanges :=
          (exchanges w
           ++ List.map (Spec.delete_request client "documents") ids)%list;
        terminal :=
          (terminal w
           ++ (if cmd.deleteForce fl then []
               else Spec.prompt fl
                      ("Delete " +:+ strconv.Itoa (Z.of_nat (length args))
                       +:+ " document(s)?"))
           ++ flat_map (fun id => Spec.unless_quiet fl
                                    ("Deleted document " +:+ strconv.Itoa id))
                ids)%list |}).
Proof.
  intros Hc Hp Hg H Hs. unfold cmd.runDocsDelete, try, bind, ret.
  rewrite Hc, (parseIDs_parsed args ids [] Hp). cbn [app].
  rewrite (confirmation_goes_on _ _ w Hg). cbn [negb].
  rewrite (for_each_deleteOne client ids resp _ H Hs).
  rewrite (Forall2_length _ _ _ Hp).
  unfold Spec.printed. cbn [exchanges terminal].
  now rewrite <- !List.app_assoc.
Qed.

Lemma runDelete_contract (client : Client) (kind resource arg : string)
    (force : bool) (w : World) :
  cmd.getClient getenv Load fl = Ok client ->
  Spec.deletes_one transport fl stdin_word client kind resource force arg
    (cmd.runDelete getenv Load stdin_word fl kind arg force
       (fun c id => delete_one transport c resource id)) w.
Proof.
  intros Hc. unfold Spec.deletes_one, cmd.runDelete, try, bind, ret.
  rewrite Hc. split.
  - now intros ->.
  - intros id ->. cbv zeta. split.
    + intros -> Hr. cbn [negb].
      rewrite confirmAction_refused by exact Hr. cbn [negb].
      unfold print, Spec.printed, Spec.cancelled. cbn [exchanges terminal].
      now rewrite List.app_assoc.
    + intros Hg resp H. rewrite (confirmation_goes_on _ _ w Hg). cbn [negb].
      unfold delete_one, delete, delete_result, try, bind.
      rewrite request_eq, H. cbn [ret]. fold (Spec.delete_request client resource id).
      split.
      * intros Hs.
        replace (negb (StatusCode resp =? StatusNoContent)
                 && negb (StatusCode resp =? StatusOK)) with false
          by (destruct Hs as [-> | ->]; reflexivity).
        unfold cmd.isQuiet, Spec.unless_quiet.
        destruct (cmd.quietMode fl); cbn [negb ret print].
        -- now rewrite printed_nil.
        -- unfold bind, print, Spec.printed. cbn [ret].
           now rewrite !string_app_assoc.
      * intros H1 H2. apply Z.eqb_neq in H1, H2. now rewrite H1, H2.
Qed.

(** X18. [runTagsDelete], [runCorrDelete], [runTypesDelete] and
    [runStorageDelete] behave alike. An argument that is not an integer
    is "invalid <kind> ID: <arg>" and nothing is sent. Without the
    command's [--force], unless the user answers y, Y, yes or Yes outside
    quiet mode, nothing is sent, "Cancelled" is printed and the command
    succeeds. Otherwise one [DELETE] request goes to
    [/api/<resource>/<id>/]: 204 and 200 print "Deleted <kind> <id>"
    unless in quiet mode, any other status is the error "delete failed
    <status>: <body>". *)
Theorem resource_delete_commands (client : Client) (arg : string) (w : World) :
  cmd.getClient getenv Load fl = Ok client ->
  let contract := Spec.deletes_one transport fl stdin_word client in
  contract "tag" "tags" (cmd.tagForce rf) arg
    (cmd.runTagsDelete transport getenv Load stdin_word fl rf arg) w
  /\ contract "correspondent" "correspondents" (cmd.corrForce rf) arg
       (cmd.runCorrDelete transport getenv Load stdin_word fl rf arg) w
  /\ contract "document type" "document_types" (cmd.typeForce rf) arg
       (cmd.runTypesDelete transport getenv Load stdin_word fl rf arg) w
  /\ contract "storage path" "storage_paths" (cmd.storageForce rf) arg
       (cmd.runStorageDelete transport getenv Load stdin_word fl rf arg) w.
Proof.
  intros Hc contract. subst contract.
  split; [|split; [|split]]; exact (runDelete_contract client _ _ arg _ w Hc).
Qed.

End DeleteCommands.

Lemma runDocsDelete_parses_first_witness :
  cmd.runDocsDelete (Fixture.always (Fixture.response 204 "")) Fixture.getenv
    Fixture.no_config "y" Fixture.force ["3"; "x7"; "5"] Fixture.empty_world
  = (Err "invalid document ID: x7", Fixture.empty_world).
Proof.
  apply (runDocsDelete_parses_first (Fixture.always (Fixture.response 204 ""))
           Fixture.getenv Fixture.no_config "y" Fixture.force Fixture.client
           ["3"] "x7" ["5"] Fixture.empty_world).
  - reflexivity.
  - repeat constructor. now exists 3.
  - reflexivity.
Defined.

Lemma runDocsDelete_cancelled_witness :
  cmd.runDocsDelete (Fixture.always (Fixture.response 204 "")) Fixture.getenv
    Fixture.no_config "y" Fixture.quiet ["3"; "5"] Fixture.empty_world
  = (Ok tt, {| exchanges := [];
               terminal := [Stdout ("Cancelled" +:+ String "010" "")] |}).
Proof.
  apply (runDocsDelete_cancelled (Fixture.always (Fixture.response 204 ""))
           Fixture.getenv Fixture.no_config "y" Fixture.quiet Fixture.client
           ["3"; "5"] [3; 5] Fixture.empty_world).
  - reflexivity.
  - repeat constructor.
  - reflexivity.
  - now left.
Defined.

Lemma runDocsDelete_deletes_all_witness :
  List.map (fun ex => http.URL (http.sent ex))
    (exchanges
       (snd (cmd.runDocsDelete (Fixture.always (Fixture.response 204 ""))
               Fixture.getenv Fixture.no_config "n" Fixture.force ["3"; "5"]
               Fixture.empty_world)))
  = ["http://paperless.local/api/documents/3/";
     "http://paperless.local/api/documents/5/"].
Proof.
  rewrite (runDocsDelete_deletes_all (Fixture.always (Fixture.response 204 ""))
             Fixture.getenv Fixture.no_config "n" Fixture.force Fixture.client
             ["3"; "5"] [3; 5] (Fixture.response 204 "") Fixture.empty_world).
  - reflexivity.
  - reflexivity.
  - repeat constructor.
  - now left.
  - reflexivity.
  - now left.
Defined.

Lemma resource_delete_commands_witness :
  cmd.runTagsDelete (Fixture.always (Fixture.response 204 "")) Fixture.getenv
    Fixture.no_config "no" Fixture.no_flags Fixture.no_resource_flags "7"
    Fixture.empty_world
  = (Ok tt,
     {| exchanges := [];
        terminal := [Stderr "Delete tag 7? [y/N]: ";
                     Stdout ("Cancelled" +:+ String "010" "")] |}).
Proof.
  destruct (resource_delete_commands (Fixture.always (Fixture.response 204 ""))
              Fixture.getenv Fixture.no_config "no" Fixture.no_flags
              Fixture.no_resource_flags Fixture.client "7" Fixture.empty_world
              eq_refl) as [[_ H] _].
  destruct (H 7 eq_refl) as [H1 _].
  apply H1; [reflexivity|]. right. unfold Spec.yes_words.
  intros Hin. repeat (apply elem_of_cons in Hin as [Hin|Hin]; [discriminate|]).
  now apply elem_of_nil in Hin.
Defined.

(** ** Batches of uploads and of deletions *)

Section BatchCommands.

Import http api.

Variable transport : list Exchange -> Exchange -> result Response.
Variable json : Codec.
Variable fs : string -> File.
Variable boundary : nat -> string.
Variable hasUnicode : string -> string -> bool.
Variable getenv : string -> string.
Variable Load : result config.Config.
Variable stdin_word : string.
Variable fl : cmd.Flags.

Local Abbreviation runDocsUpload :=
  (cmd.runDocsUpload transport json fs boundary hasUnicode getenv Load fl).
Local Abbreviation runDocsDelete :=
  (cmd.runDocsDelete transport getenv Load stdin_word fl).
Local Abbreviation upload_references :=
  (Spec.upload_references transport json hasUnicode fl).

(** [runDocsUpload] is the resolution of the references followed by the
    loop over the files. *)
Lemma runDocsUpload_eq (client : Client) (args : list string) (w : World) :
  cmd.getClient getenv Load fl = Ok client ->
  runDocsUpload args w
  = match upload_references client w with
    | (Ok (correspondentID, docTypeID, tagIDs), w0) =>
        cmd.for_each
          (cmd.uploadFile transport fs boundary fl client correspondentID
             docTypeID tagIDs) args w0
    | (Err e, w0) => (Err e, w0)
    end.
Proof.
  intros Hc. unfold cmd.runDocsUpload, Spec.upload_references, try, bind, ret.
  rewrite Hc.
  destruct (cmd.uploadOptionalID _ "correspondent" _ w) as [[corrID|e1] w1];
    [|reflexivity].
  destruct (cmd.uploadOptionalID _ "document type" _ w1) as [[typeID|e2] w2];
    [|reflexivity].
  destruct (cmd.uploadTagIDs _ _ _ _ _ _ w2) as [[tagIDs|e3] w3]; reflexivity.
Qed.

(** C8, as the code has it. [runDocsUpload] takes the files in the order
    of the arguments, after the references are resolved, and its first
    failure ends the command: when the files before one are uploaded and
    that one fails, the result is that file's error and the world is the
    one that failure left, whatever files follow, so nothing is done for
    them. In a batch of three in which the first upload succeeds and the
    second fails, the task handle of the first is on the terminal when
    JSON output is on or quiet mode is off (in quiet mode without JSON
    output a successful upload prints nothing), the error names the
    second file, and at most two requests have been made for the files.
    [runDocsDelete] ends in the same way: once the arguments are read and
    the deletion confirmed or forced, when the documents before one are
    deleted and that one cannot be, the result is "failed to delete
    document <id>: ..." right after the [DELETE] request for that
    document, and no request is made for the documents after it. *)
Theorem batch_aborts_on_first_failure (client : Client) :
  cmd.getClient getenv Load fl = Ok client ->
  (forall correspondentID docTypeID tagIDs w w0,
     upload_references client w
     = (Ok (correspondentID, docTypeID, tagIDs), w0) ->
     let upload := cmd.uploadFile transport fs boundary fl client
                     correspondentID docTypeID tagIDs in
     (forall pre f post w1 w2 e,
        runDocsUpload pre w = (Ok tt, w1) ->
        upload f w1 = (Err e, w2) ->
        runDocsUpload (pre ++ f :: post) w = (Err e, w2))
     /\ (forall f1 f2 f3 w1 w2 e,
           upload f1 w0 = (Ok tt, w1) ->
           upload f2 w1 = (Err e, w2) ->
           runDocsUpload [f1; f2; f3] w = (Err e, w2)
           /\ (exists taskID,
                 fst (UploadDocument transport fs boundary client f1
                        (Spec.title_of fl f1) correspondentID docTypeID tagIDs
                        (Spec.printed w0 (Spec.announcement fl f1))) = Ok taskID
                 /\ (cmd.jsonOutput fl = true ->
                     StdoutJSON (<["file" := f1]> (<["task_id" := taskID]> ∅))
                     ∈ terminal w2)
                 /\ (cmd.jsonOutput fl = false -> cmd.quietMode fl = false ->
                     Stdout ("Uploaded " +:+ filepath.Base f1 +:+ " (task: "
                             +:+ taskID +:+ ")" +:+ String "010" "")
                     ∈ terminal w2))
           /\ (e = "file not found: " +:+ f2
               \/ exists err, e = "upload failed for " +:+ f2 +:+ ": " +:+ err)
           /\ (length (exchanges w2) <= length (exchanges w0) + 2)%nat))
  /\ (forall args pre id post w w1 w2 e,
        Spec.parsed args (pre ++ id :: post) ->
        Spec.goes_on fl stdin_word (cmd.deleteForce fl) ->
        let asked :=
          Spec.printed w
            (if cmd.deleteForce fl then []
             else Spec.prompt fl
                    ("Delete " +:+ strconv.Itoa (Z.of_nat (length args))
                     +:+ " document(s)?")) in
        cmd.for_each (cmd.deleteOne transport fl client) pre asked = (Ok tt, w1) ->
        cmd.deleteOne transport fl client id w1 = (Err e, w2) ->
        runDocsDelete args w = (Err e, w2)
        /\ (exists err, e = "failed to delete document " +:+ strconv.Itoa id
                             +:+ ": " +:+ err)
        /\ w2 = Spec.logged w1 (Spec.delete_request client "documents" id)).
Proof.
  intros Hc. split.
  - intros correspondentID docTypeID tagIDs w w0 Hrefs upload.
    assert (Hrun : forall args, runDocsUpload args w = cmd.for_each upload args w0).
    { intros args. rewrite (runDocsUpload_eq client args w Hc). now rewrite Hrefs. }
    split.
    + intros pre f post w1 w2 e H1 H2. rewrite Hrun in *.
      now apply (for_each_app_err upload pre f post w0 w1).
    + intros f1 f2 f3 w1 w2 e H1 H2. rewrite Hrun.
      split.
      { apply (for_each_app_err upload [f1] f2 [f3] w0 w1 w2 e); [|exact H2].
        cbn [cmd.for_each]. unfold try, bind. now rewrite H1. }
      destruct (uploadFile_ok_inv _ _ _ _ _ _ _ _ _ _ _ H1)
        as (taskID & Hup & Hterm & Hx1).
      destruct (uploadFile_err_inv _ _ _ _ _ _ _ _ _ _ _ _ H2)
        as (Hshape & (out & Hterm2) & Hx2).
      split; [|split; [exact Hshape | lia]].
      exists taskID. split; [exact Hup|].
      assert (Hin : forall o, o ∈ Spec.report fl f1 taskID -> o ∈ terminal w2).
      { intros o Ho. rewrite Hterm2, Hterm.
        apply elem_of_app. left. apply elem_of_app. right.
        apply elem_of_app. now right. }
      unfold Spec.report in Hin. split.
      * intros Hj. rewrite Hj in Hin. apply Hin. constructor.
      * intros Hj Hq. rewrite Hj, Hq in Hin. apply Hin. constructor.
  - intros args pre id post w w1 w2 e Hp Hg asked Hpre Hid.
    destruct (deleteOne_err_inv transport fl client id w1 w2 e Hid) as [He Hw].
    split; [|split; [exact He | exact Hw]].
    unfold cmd.runDocsDelete, try, bind, ret.
    rewrite Hc, (parseIDs_parsed args _ [] Hp). cbn [app].
    rewrite (confirmation_goes_on stdin_word fl _ _ w Hg). cbn [negb].
    rewrite <- (Forall2_length _ _ _ Hp). fold asked.
    now apply (for_each_app_err _ pre id post asked w1).
Qed.

End BatchCommands.

Lemma batch_aborts_on_first_failure_witness :
  cmd.getClient Fixture.getenv Fixture.no_config Fixture.no_flags
  = Ok Fixture.client
  /\ fst (cmd.runDocsUpload Fixture.upload_server Fixture.codec
            (Fixture.any_file "data") Fixture.fixed_boundary Fixture.ascii_only
            Fixture.getenv Fixture.no_config Fixture.no_flags
            ["a.pdf"; "b.pdf"; "c.pdf"] Fixture.empty_world)
     = Err "upload failed for b.pdf: upload failed 500: boom".
Proof.
  assert (Hc : cmd.getClient Fixture.getenv Fixture.no_config Fixture.no_flags
               = Ok Fixture.client) by reflexivity.
  split; [exact Hc|].
  pose (upload := cmd.uploadFile Fixture.upload_server (Fixture.any_file "data")
                    Fixture.fixed_boundary Fixture.no_flags Fixture.client
                    None None []).
  pose (w1 := snd (upload "a.pdf" Fixture.empty_world)).
  pose (w2 := snd (upload "b.pdf" w1)).
  assert (H0 : Spec.upload_references Fixture.upload_server Fixture.codec
                 Fixture.ascii_only Fixture.no_flags Fixture.client
                 Fixture.empty_world
               = (Ok (None, None, []), Fixture.empty_world))
    by (vm_compute; reflexivity).
  assert (H1 : upload "a.pdf" Fixture.empty_world = (Ok tt, w1))
    by (vm_compute; reflexivity).
  assert (H2 : upload "b.pdf" w1
               = (Err "upload failed for b.pdf: upload failed 500: boom", w2))
    by (vm_compute; reflexivity).
  destruct (batch_aborts_on_first_failure Fixture.upload_server Fixture.codec
              (Fixture.any_file "data") Fixture.fixed_boundary
              Fixture.ascii_only Fixture.getenv Fixture.no_config "y"
              Fixture.no_flags Fixture.client Hc) as [Hup _].
  destruct (Hup None None [] Fixture.empty_world Fixture.empty_world H0)
    as [_ H3].
  destruct (H3 "a.pdf" "b.pdf" "c.pdf" w1 w2 _ H1 H2) as [Hrun _].
  now rewrite Hrun.
Defined.

(** ** The commands that edit and create one record *)

Section EditCommands.

Import http api.

Variable transport : list Exchange -> Exchange -> result Response.
Variable json : Codec.
Variable getenv : string -> string.
Variable Load : result config.Config.
Variable fl : cmd.Flags.
Variable entities : EntityCodec.
Variable printer : cmd.Printer.
Variable rf : cmd.ResourceFlags.

Lemma printJSON_shows {T} (marshal : T -> result string) (x : T)
    (line : string) (w : World) :
  (if cmd.isJSON fl then cmd.printJSON_text (marshal x)
   else (_ <- (if negb (cmd.isQuiet fl)
               then print (Stdout (line +:+ String "010" ""))
               else ret tt) ;;
         ret (Ok tt))) w
  = Spec.shows fl marshal x line w.
Proof.
  unfold Spec.shows, cmd.isJSON, cmd.isQuiet, cmd.printJSON_text,
    Spec.unless_quiet.
  destruct (cmd.jsonOutput fl).
  - now destruct (marshal x).
  - destruct (cmd.quietMode fl); cbn [negb]; unfold bind, ret, print.
    + now rewrite printed_nil.
    + reflexivity.
Qed.

Lemma runEdit_contract {T} (client : Client) (kind resource arg : string)
    (updates : gmap string Value) (decode : Stream -> result T)
    (marshal : T -> result string) (w : World) :
  cmd.getClient getenv Load fl = Ok client ->
  Spec.edits_one transport json fl client kind resource updates decode marshal
    arg
    (cmd.runEdit getenv Load fl kind arg updates
       (fun c id u =>
          update transport json c
            ("/api/" +:+ resource +:+ "/" +:+ strconv.Itoa id +:+ "/") u decode)
       marshal) w.
Proof.
  intros Hc. unfold Spec.edits_one, cmd.runEdit, update, patch, try, bind, ret.
  rewrite Hc. split.
  - now intros ->.
  - intros id ->. split.
    + intros ->. reflexivity.
    + intros Hne payload resp Hm H. cbv zeta.
      replace (size updates =? 0)%nat with false
        by (symmetry; apply Nat.eqb_neq; intros E; apply Hne;
            now apply map_size_empty_iff).
      rewrite Hm, request_eq, H.
      split.
      * intros Hs. apply Z.eqb_neq in Hs. now rewrite Hs.
      * intros Hs x Hx. rewrite Hs.
        change (StatusOK =? StatusOK) with true. cbn [negb]. rewrite Hx.
        rewrite <- (printJSON_shows marshal x).
        unfold bind, ret. now rewrite !string_app_assoc.
Qed.

Lemma given_one (v : string) :
  cmd.name_update v ∅ = Spec.given [("name", v)].
Proof.
  unfold cmd.name_update, Spec.given. cbn [omap list_omap fst snd].
  destruct (String.eqb v ""); reflexivity.
Qed.

Lemma given_tag : cmd.tag_updates rf
                  = Spec.given [("name", cmd.tagName rf); ("color", cmd.tagColor rf)].
Proof.
  unfold cmd.tag_updates, cmd.name_update, Spec.given. cbn [omap list_omap fst snd].
  destruct (String.eqb (cmd.tagName rf) ""), (String.eqb (cmd.tagColor rf) "");
    cbn [negb list_to_map]; reflexivity.
Qed.

(** X19. [runTagsEdit], [runCorrEdit] and [runTypesEdit] behave alike.
    The updates have one key for each flag that is given ([--name], and
    [--color] for a tag). An argument that is not an integer is "invalid
    <kind> ID: <arg>", also when no flag is given; with no flag the error
    is "no changes specified"; in both cases nothing is sent. Otherwise
    one [PATCH] request with the updates goes to [/api/<resource>/<id>/]:
    a status other than 200 is "update failed"; on 200 the record is
    printed as JSON with [--json] (also in quiet mode), else "Updated
    <kind> <id>" is printed unless in quiet mode. *)
Theorem resource_edit_commands (client : Client) (arg : string) (w : World) :
  cmd.getClient getenv Load fl = Ok client ->
  Spec.edits_one transport json fl client "tag" "tags"
    (Spec.given [("name", cmd.tagName rf); ("color", cmd.tagColor rf)])
    (decodeTag entities) (cmd.marshalTag printer) arg
    (cmd.runTagsEdit transport json getenv Load fl entities printer rf arg) w
  /\ Spec.edits_one transport json fl client "correspondent" "correspondents"
       (Spec.given [("name", cmd.corrName rf)])
       (decodeCorrespondent entities) (cmd.marshalCorrespondent printer) arg
       (cmd.runCorrEdit transport json getenv Load fl entities printer rf arg) w
  /\ Spec.edits_one transport json fl client "document type" "document_types"
       (Spec.given [("name", cmd.typeName rf)])
       (decodeDocumentType entities) (cmd.marshalDocumentType printer) arg
       (cmd.runTypesEdit transport json getenv Load fl entities printer rf arg) w.
Proof.
  intros Hc. split; [|split].
  - unfold cmd.runTagsEdit. rewrite given_tag.
    exact (runEdit_contract client "tag" "tags" arg _ _ _ w Hc).
  - unfold cmd.runCorrEdit. rewrite given_one.
    exact (runEdit_contract client "correspondent" "correspondents" arg _ _ _
             w Hc).
  - unfold cmd.runTypesEdit. rewrite given_one.
    exact (runEdit_contract client "document type" "document_types" arg _ _ _
             w Hc).
Qed.

Lemma runCreate_contract {T} (client : Client) (kind path : string)
    (data : gmap string Value) (decode : Stream -> result T)
    (marshal : T -> result string) (ID : T -> Z) (Name : T -> string)
    (w : World) :
  cmd.getClient getenv Load fl = Ok client ->
  Spec.creates_one transport json fl client kind path data decode marshal
    ID Name
    (cmd.runCreate getenv Load fl
       (fun c => create transport json c path data decode) marshal
       (fun x => cmd.created_line kind (ID x) (Name x))) w.
Proof.
  intros Hc payload resp Hm H. cbv zeta.
  unfold cmd.runCreate, create, post, try, bind, ret.
  rewrite Hc, Hm, request_eq, H. split.
  - intros H1 H2. apply Z.eqb_neq in H1, H2. now rewrite H1, H2.
  - intros Hs x Hx.
    replace (negb (StatusCode resp =? StatusCreated)
             && negb (StatusCode resp =? StatusOK)) with false
      by (destruct Hs as [-> | ->]; reflexivity).
    rewrite Hx. unfold cmd.created_line.
    rewrite <- (printJSON_shows marshal x).
    unfold bind, ret. now rewrite !string_app_assoc.
Qed.

(** X20. [runTagsCreate], [runCorrCreate], [runTypesCreate] and
    [runStorageCreate] send one [POST] request with the name (and the
    colour of a tag when [--color] is given, the path of a storage path):
    a status other than 201 and 200 is "create failed"; otherwise the
    record the server returns is printed as JSON with [--json] (also in
    quiet mode), else "Created <kind> <id>: <name>" is printed, with the
    ID and the name of the returned record, unless in quiet mode. *)
Theorem resource_create_commands (client : Client) (arg path : string)
    (w : World) :
  cmd.getClient getenv Load fl = Ok client ->
  Spec.creates_one transport json fl client "tag" "/api/tags/"
    (<["name" := VString arg]> (Spec.given [("color", cmd.tagColor rf)]))
    (decodeTag entities) (cmd.marshalTag printer) Tag.ID Tag.Name
    (cmd.runTagsCreate transport json getenv Load fl entities printer rf arg) w
  /\ Spec.creates_one transport json fl client "correspondent"
       "/api/correspondents/" {[ "name" := VString arg ]}
       (decodeCorrespondent entities) (cmd.marshalCorrespondent printer)
       Correspondent.ID Correspondent.Name
       (cmd.runCorrCreate transport json getenv Load fl entities printer arg) w
  /\ Spec.creates_one transport json fl client "document type"
       "/api/document_types/" {[ "name" := VString arg ]}
       (decodeDocumentType entities) (cmd.marshalDocumentType printer)
       DocumentType.ID DocumentType.Name
       (cmd.runTypesCreate transport json getenv Load fl entities printer arg) w
  /\ Spec.creates_one transport json fl client "storage path"
       "/api/storage_paths/"
       {[ "name" := VString arg; "path" := VString path ]}
       (decodeStoragePath entities) (cmd.marshalStoragePath printer)
       StoragePath.ID StoragePath.Name
       (cmd.runStorageCreate transport json getenv Load fl entities printer
          arg path) w.
Proof.
  intros Hc.
  assert (Et : tag_data arg (cmd.tagColor rf)
               = <["name" := VString arg]>
                   (Spec.given [("color", cmd.tagColor rf)])).
  { unfold tag_data, Spec.given. cbn [omap list_omap fst snd].
    destruct (String.eqb (cmd.tagColor rf) ""); cbn [negb list_to_map];
      reflexivity. }
  assert (Es : <["path" := VString path]> (<["name" := VString arg]> ∅)
               = ({[ "name" := VString arg; "path" := VString path ]}
                  : gmap string Value)).
  { rewrite insert_empty. apply map_eq. intros k.
    destruct (decide (k = "path")) as [->|]; [now simplify_map_eq|].
    destruct (decide (k = "name")) as [->|]; now simplify_map_eq. }
  split; [|split; [|split]].
  - unfold cmd.runTagsCreate, CreateTag. rewrite Et.
    exact (runCreate_contract client "tag" "/api/tags/" _ _ _ Tag.ID Tag.Name
             w Hc).
  - unfold cmd.runCorrCreate, CreateCorrespondent. rewrite insert_empty.
    exact (runCreate_contract client "correspondent" "/api/correspondents/"
             _ _ _ Correspondent.ID Correspondent.Name w Hc).
  - unfold cmd.runTypesCreate, CreateDocumentType. rewrite insert_empty.
    exact (runCreate_contract client "document type" "/api/document_types/"
             _ _ _ DocumentType.ID DocumentType.Name w Hc).
  - unfold cmd.runStorageCreate, CreateStoragePath. rewrite Es.
    exact (runCreate_contract client "storage path" "/api/storage_paths/"
             _ _ _ StoragePath.ID StoragePath.Name w Hc).
Qed.

End EditCommands.

Lemma resource_edit_commands_witness :
  cmd.runTagsEdit (Fixture.always (Fixture.response 200 "")) Fixture.codec
    Fixture.getenv Fixture.no_config Fixture.no_flags Fixture.entities
    Fixture.printer Fixture.no_resource_flags "7" Fixture.empty_world
  = (Err "no changes specified", Fixture.empty_world).
Proof.
  destruct (resource_edit_commands (Fixture.always (Fixture.response 200 ""))
              Fixture.codec Fixture.getenv Fixture.no_config Fixture.no_flags
              Fixture.entities Fixture.printer Fixture.no_resource_flags
              Fixture.client "7" Fixture.empty_world eq_refl) as [[_ H] _].
  destruct (H 7 eq_refl) as [H1 _].
  exact (H1 eq_refl).
Defined.

Lemma resource_create_commands_witness :
  fst (cmd.runTagsCreate (Fixture.always (Fixture.response 201 ""))
         Fixture.codec Fixture.getenv Fixture.no_config Fixture.quiet
         Fixture.entities Fixture.printer Fixture.no_resource_flags "Bills"
         Fixture.empty_world)
  = Ok tt.
Proof.
  destruct (resource_create_commands (Fixture.always (Fixture.response 201 ""))
              Fixture.codec Fixture.getenv Fixture.no_config Fixture.quiet
              Fixture.entities Fixture.printer Fixture.no_resource_flags
              Fixture.client "Bills" "" Fixture.empty_world eq_refl) as [H _].
  destruct (H "{}" (Fixture.response 201 "") eq_refl (fun _ _ => eq_refl))
    as [_ H1].
  now rewrite (H1 (or_introl eq_refl) (Fixture.tag 7 "Bills") eq_refl).
Defined.

(** ** The fields the edit command of a document sends *)

Section EditDocument.

Import http api.

Variable transport : list Exchange -> Exchange -> result Response.
Variable json : Codec.
Variable hasUnicode : string -> string -> bool.
Variable getenv : string -> string.
Variable Load : result config.Config.
Variable range_keys : gmap Z bool -> list Z.
Variable fl : cmd.Flags.

Local Abbreviation runDocsEdit :=
  (cmd.runDocsEdit transport json hasUnicode getenv Load range_keys fl).

Lemma editReference_direct {T} (find : string -> M (result T)) (ID : T -> Z)
    (kind key flag : string) (updates : gmap string Value) (w : World) :
  Spec.direct flag ->
  cmd.editReference (cmd.resolve find ID) kind key flag updates w
  = (Ok (match Spec.reference_value flag with
         | Some v => <[key := v]> updates
         | None => updates
         end), w).
Proof.
  unfold Spec.direct, Spec.reference_value, cmd.editReference.
  intros [-> | [-> | [-> | [n Hn]]]]; try reflexivity.
  destruct (String.eqb_spec flag "") as [E|_];
    [subst; vm_compute in Hn; discriminate|].
  destruct (String.eqb_spec flag "-") as [E|_];
    [subst; vm_compute in Hn; discriminate|].
  destruct (String.eqb_spec flag "none") as [E|_];
    [subst; vm_compute in Hn; discriminate|].
  cbn [negb orb]. unfold bind, cmd.resolve. now rewrite Hn.
Qed.

Lemma GetDocument_ok (client : Client) (id : Z) (resp : Response)
    (doc : Document.t) (w : World) :
  (forall ex h, transport h ex = Ok resp) ->
  StatusCode resp = StatusOK ->
  decodeDocument json (RespBody resp) = Ok doc ->
  GetDocument transport json client id w
  = (Ok doc, Spec.logged w (Spec.document_request client id)).
Proof.
  intros H Hs Hd. unfold GetDocument, get, try, bind.
  rewrite request_eq, H, Hs. cbn [ret]. now rewrite Hd.
Qed.

(** X21. [runDocsEdit] without [--add-tag] and [--remove-tag], and with
    [--correspondent] and [--type] that are not names, on a server that
    answers 200 with a document: the document is read with one [GET]
    request first. The updates then hold the title when [--title] is
    given, the correspondent and the document type as the null value for
    [-] and [none] and as the number for a number, the archive serial
    number when [--asn] is positive (zero and negative numbers are not
    sent), and no other key. With no update the command fails with "no
    changes specified" after that one request; otherwise the updates go
    out in one [PATCH] request to the document, and the answer is shown:
    the document as JSON with [--json], else "Updated document <id>"
    unless in quiet mode. *)
Theorem runDocsEdit_fields (client : Client) (arg : string) (id : Z)
    (resp : Response) (doc : Document.t) (w : World) :
  cmd.getClient getenv Load fl = Ok client ->
  strconv.Atoi arg = Some id ->
  cmd.editAddTags fl = [] -> cmd.editRemoveTags fl = [] ->
  Spec.direct (cmd.editCorrespondent fl) -> Spec.direct (cmd.editDocType fl) ->
  (forall ex h, transport h ex = Ok resp) ->
  StatusCode resp = StatusOK ->
  decodeDocument json (RespBody resp) = Ok doc ->
  exists updates : gmap string Value,
    updates !! "title"
    = (if String.eqb (cmd.editTitle fl) "" then None
       else Some (VString (cmd.editTitle fl)))
    /\ updates !! "correspondent" = Spec.reference_value (cmd.editCorrespondent fl)
    /\ updates !! "document_type" = Spec.reference_value (cmd.editDocType fl)
    /\ updates !! "archive_serial_number"
       = (if 0 <? cmd.editASN fl then Some (VInt (cmd.editASN fl)) else None)
    /\ (forall k, k ∉ ["title"; "correspondent"; "document_type";
                       "archive_serial_number"] -> updates !! k = None)
    /\ let read := Spec.logged w (Spec.document_request client id) in
       (updates = ∅ -> runDocsEdit arg w = (Err "no changes specified", read))
       /\ (updates <> ∅ ->
           forall payload, marshalUpdates json updates = Ok payload ->
           runDocsEdit arg w
           = Spec.shows fl (marshalDocument json) doc
               ("Updated document " +:+ strconv.Itoa id)
               (Spec.logged read
                  (Spec.exchange_of client "PATCH"
                     ("/api/documents/" +:+ strconv.Itoa id +:+ "/")
                     (Bytes payload) "application/json"))).
Proof.
  intros Hc Ha Hadd Hrem Hcorr Htype H Hs Hd.
  set (u1 := if negb (String.eqb (cmd.editTitle fl) "")
             then <["title" := VString (cmd.editTitle fl)]> (∅ : gmap string Value)
             else ∅).
  set (u2 := match Spec.reference_value (cmd.editCorrespondent fl) with
             | Some v => <["correspondent" := v]> u1
             | None => u1
             end).
  set (u3 := match Spec.reference_value (cmd.editDocType fl) with
             | Some v => <["document_type" := v]> u2
             | None => u2
             end).
  set (u4 := if 0 <? cmd.editASN fl
             then <["archive_serial_number" := VInt (cmd.editASN fl)]> u3
             else u3).
  assert (Hrun : runDocsEdit arg w
                 = (let read := Spec.logged w (Spec.document_request client id) in
                    if (size u4 =? 0)%nat then (Err "no changes specified", read)
                    else
                      (updatedDoc <-? UpdateDocument transport json client id u4 ;;
                       if cmd.isJSON fl then
                         match marshalDocument json updatedDoc with
                         | Err e => ret (Err e)
                         | Ok text => _ <- print (Stdout text) ;; ret (Ok tt)
                         end
                       else
                         _ <- (if negb (cmd.isQuiet fl)
                               then print (Stdout ("Updated document "
                                                   +:+ strconv.Itoa id
                                                   +:+ String "010" ""))
                               else ret tt) ;;
                         ret (Ok tt)) read)).
  { unfold cmd.runDocsEdit. unfold try at 1, bind at 1. cbn [ret].
    rewrite Hc, Ha. unfold try at 1, bind at 1.
    rewrite (GetDocument_ok client id resp doc w H Hs Hd).
    fold u1. unfold try at 1, bind at 1.
    unfold cmd.resolveCorrespondent.
    rewrite (editReference_direct _ _ _ _ _ u1 _ Hcorr). fold u2.
    unfold try at 1, bind at 1. unfold cmd.resolveDocumentType.
    rewrite (editReference_direct _ _ _ _ _ u2 _ Htype). fold u3. fold u4.
    unfold try at 1, bind at 1. unfold cmd.editTags.
    rewrite Hadd, Hrem. cbn [length Nat.ltb Nat.leb orb ret].
    cbv zeta. destruct (size u4 =? 0)%nat; reflexivity. }
  exists u4. subst u4 u3 u2 u1.
  split; [|split; [|split; [|split; [|split]]]].
  - destruct (String.eqb (cmd.editTitle fl) ""),
      (Spec.reference_value (cmd.editCorrespondent fl)),
      (Spec.reference_value (cmd.editDocType fl)), (0 <? cmd.editASN fl);
      cbn [negb]; rewrite ?lookup_insert, ?lookup_empty; reflexivity.
  - destruct (String.eqb (cmd.editTitle fl) ""),
      (Spec.reference_value (cmd.editCorrespondent fl)),
      (Spec.reference_value (cmd.editDocType fl)), (0 <? cmd.editASN fl);
      cbn [negb]; rewrite ?lookup_insert, ?lookup_empty; reflexivity.
  - destruct (String.eqb (cmd.editTitle fl) ""),
      (Spec.reference_value (cmd.editCorrespondent fl)),
      (Spec.reference_value (cmd.editDocType fl)), (0 <? cmd.editASN fl);
      cbn [negb]; rewrite ?lookup_insert, ?lookup_empty; reflexivity.
  - destruct (String.eqb (cmd.editTitle fl) ""),
      (Spec.reference_value (cmd.editCorrespondent fl)),
      (Spec.reference_value (cmd.editDocType fl)), (0 <? cmd.editASN fl);
      cbn [negb]; rewrite ?lookup_insert, ?lookup_empty; reflexivity.
  - intros k Hk.
    assert (k <> "title" /\ k <> "correspondent" /\ k <> "document_type"
            /\ k <> "archive_serial_number") as (K1 & K2 & K3 & K4)
      by (repeat split; intros ->; apply Hk; set_solver).
    destruct (String.eqb (cmd.editTitle fl) ""),
      (Spec.reference_value (cmd.editCorrespondent fl)),
      (Spec.reference_value (cmd.editDocType fl)), (0 <? cmd.editASN fl);
      cbn [negb];
      rewrite ?lookup_insert_ne, ?lookup_empty by congruence; reflexivity.
  - cbv zeta. rewrite Hrun. cbv zeta. split.
    + intros ->. reflexivity.
    + intros Hne payload Hm.
      match goal with
      | |- context [size ?u] =>
          replace (size u =? 0)%nat with false
            by (symmetry; apply Nat.eqb_neq; intros E; apply Hne;
                now apply map_size_empty_iff)
      end.
      unfold UpdateDocument, patch, try, bind. rewrite Hm, request_eq, H, Hs.
      change (StatusOK =? StatusOK) with true. cbn [negb ret]. rewrite Hd.
      unfold Spec.shows, cmd.isJSON, cmd.isQuiet, Spec.unless_quiet.
      destruct (cmd.jsonOutput fl).
      * now destruct (marshalDocument json doc).
      * destruct (cmd.quietMode fl); cbn [negb ret print].
        -- now rewrite printed_nil.
        -- unfold print, Spec.printed. now rewrite !string_app_assoc.
Qed.

End EditDocument.

Lemma runDocsEdit_fields_witness :
  List.map (fun ex => (http.Method (http.sent ex), http.URL (http.sent ex)))
    (exchanges
       (snd (cmd.runDocsEdit (Fixture.always (Fixture.response 200 ""))
               Fixture.codec Fixture.ascii_only Fixture.getenv Fixture.no_config
               Fixture.keys_in_order Fixture.clear_correspondent "12"
               Fixture.empty_world)))
  = [("GET", "http://paperless.local/api/documents/12/");
     ("PATCH", "http://paperless.local/api/documents/12/")].
Proof.
  destruct (runDocsEdit_fields (Fixture.always (Fixture.response 200 ""))
              Fixture.codec Fixture.ascii_only Fixture.getenv Fixture.no_config
              Fixture.keys_in_order Fixture.clear_correspondent Fixture.client
              "12" 12 (Fixture.response 200 "") (Fixture.document 12 [1; 2; 3])
              Fixture.empty_world eq_refl eq_refl eq_refl eq_refl
              (or_intror (or_intror (or_introl eq_refl))) (or_introl eq_refl)
              (fun _ _ => eq_refl) eq_refl eq_refl)
    as (updates & _ & Hcorr & _ & _ & _ & _ & Hsend).
  assert (Hne : updates <> ∅).
  { intros E. rewrite E, lookup_empty in Hcorr. discriminate Hcorr. }
  rewrite (Hsend Hne "{}" eq_refl). vm_compute. reflexivity.
Defined.

(** ** What an upload resolves before it sends a file *)

Section UploadResolves.

Import http api.

Variable transport : list Exchange -> Exchange -> result Response.
Variable json : Codec.
Variable fs : string -> File.
Variable boundary : nat -> string.
Variable hasUnicode : string -> string -> bool.
Variable getenv : string -> string.
Variable Load : result config.Config.
Variable fl : cmd.Flags.

Local Abbreviation resolveTag := (cmd.resolveTag transport json hasUnicode).
Local Abbreviation resolveCorrespondent :=
  (cmd.resolveCorrespondent transport json hasUnicode).
Local Abbreviation resolveDocumentType :=
  (cmd.resolveDocumentType transport json hasUnicode).
Local Abbreviation runDocsUpload :=
  (cmd.runDocsUpload transport json fs boundary hasUnicode getenv Load fl).

Lemma uploadOptionalID_cases (resolve_ : string -> M (result Z))
    (kind flag : string) (w : World) :
  (forall tok w0, Spec.only_gets w0 (snd (resolve_ tok w0))) ->
  Spec.only_gets w (snd (cmd.uploadOptionalID resolve_ kind flag w))
  /\ (forall e, fst (cmd.uploadOptionalID resolve_ kind flag w) = Err e ->
        e = kind +:+ " not found: " +:+ flag)
  /\ (flag <> "" -> Spec.unresolvable resolve_ flag ->
      fst (cmd.uploadOptionalID resolve_ kind flag w)
      = Err (kind +:+ " not found: " +:+ flag)).
Proof.
  intros Hg. unfold cmd.uploadOptionalID, bind.
  destruct (String.eqb_spec flag "") as [E|E]; cbn [negb].
  - split; [apply only_gets_refl|]. split; [discriminate | contradiction].
  - specialize (Hg flag w).
    split; [|split].
    + destruct (resolve_ flag w) as [[id|e] w1]; exact Hg.
    + intros e. destruct (resolve_ flag w) as [[id|e'] w1]; cbn [ret fst];
        congruence.
    + intros _ Hun. destruct (Hun w) as [e He].
      destruct (resolve_ flag w) as [[id|e'] w1]; cbn [fst] in *;
        [discriminate | reflexivity].
Qed.

Lemma uploadTagIDs_cases (c : Client) (toks : list string) (ids : list Z)
    (w : World) :
  Spec.only_gets w
    (snd (cmd.uploadTagIDs transport json hasUnicode c toks ids w))
  /\ (forall e,
        fst (cmd.uploadTagIDs transport json hasUnicode c toks ids w) = Err e ->
        exists tok, tok ∈ toks /\ e = "tag not found: " +:+ tok)
  /\ (forall tok, tok ∈ toks -> Spec.unresolvable (resolveTag c) tok ->
        exists e,
          fst (cmd.uploadTagIDs transport json hasUnicode c toks ids w) = Err e).
Proof.
  revert ids w. induction toks as [|t toks IH]; intros ids w.
  - cbn [cmd.uploadTagIDs ret fst snd].
    split; [apply only_gets_refl|]. split; [discriminate|].
    intros tok Hin. now apply elem_of_nil in Hin.
  - cbn [cmd.uploadTagIDs]. unfold bind.
    pose proof (resolveTag_only_gets transport json hasUnicode c t w) as Hg.
    destruct (resolveTag c t w) as [[id|e'] w1] eqn:Er; cbn [fst snd] in *.
    + destruct (IH (ids ++ [id])%list w1) as (G & Herr & Hun).
      split; [exact (only_gets_trans _ _ _ Hg G)|]. split.
      * intros e He. destruct (Herr e He) as (tok & Hin & ->).
        exists tok. split; [now apply elem_of_cons; right | reflexivity].
      * intros tok Hin Htok. apply elem_of_cons in Hin as [->|Hin].
        -- destruct (Htok w) as [e He]. rewrite Er in He. discriminate.
        -- now apply (Hun tok).
    + cbn [ret fst snd]. split; [exact Hg|]. split.
      * intros e [= <-]. exists t. split; [now apply elem_of_cons; left|].
        reflexivity.
      * intros; eauto.
Qed.

Lemma uploadOptionalID_found (resolve_ : string -> M (result Z))
    (kind flag : string) (w : World) :
  flag = "" \/ Spec.resolvable resolve_ flag ->
  exists r, fst (cmd.uploadOptionalID resolve_ kind flag w) = Ok r.
Proof.
  unfold cmd.uploadOptionalID, bind.
  destruct (String.eqb_spec flag "") as [E|E]; cbn [negb]; [eauto|].
  intros [E'|Hr]; [contradiction|].
  destruct (Hr w) as [id Hid].
  destruct (resolve_ flag w) as [[id'|e] w1]; cbn [fst] in *;
    [eauto | discriminate].
Qed.

Lemma uploadTagIDs_first_bad (c : Client) (good : list string) (bad : string)
    (rest : list string) (ids : list Z) (w : World) :
  Forall (Spec.resolvable (resolveTag c)) good ->
  Spec.unresolvable (resolveTag c) bad ->
  fst (cmd.uploadTagIDs transport json hasUnicode c (good ++ bad :: rest) ids w)
  = Err ("tag not found: " +:+ bad).
Proof.
  intros Hgood Hbad. revert ids w.
  induction Hgood as [|tok good Htok _ IH]; intros ids w.
  - cbn [app cmd.uploadTagIDs]. unfold bind.
    destruct (Hbad w) as [e He].
    destruct (resolveTag c bad w) as [[id|e'] w1]; cbn [fst] in *;
      [discriminate | reflexivity].
  - cbn [app cmd.uploadTagIDs]. unfold bind.
    destruct (Htok w) as [id Hid].
    destruct (resolveTag c tok w) as [[id'|e'] w1]; cbn [fst] in *;
      [apply IH | discriminate].
Qed.

(** What the resolution of the references of an upload does when one of
    them cannot be resolved. *)
Lemma upload_references_fail (client : Client) (w : World) :
  let r := Spec.upload_references transport json hasUnicode fl client w in
  let corr := cmd.uploadCorrespondent fl in
  let type_ := cmd.uploadDocType fl in
  Spec.only_gets w (snd r)
  /\ (corr <> "" -> Spec.unresolvable (resolveCorrespondent client) corr ->
      fst r = Err ("correspondent not found: " +:+ corr))
  /\ (corr = "" \/ Spec.resolvable (resolveCorrespondent client) corr ->
      type_ <> "" -> Spec.unresolvable (resolveDocumentType client) type_ ->
      fst r = Err ("document type not found: " +:+ type_))
  /\ (corr = "" \/ Spec.resolvable (resolveCorrespondent client) corr ->
      type_ = "" \/ Spec.resolvable (resolveDocumentType client) type_ ->
      forall good bad rest,
        cmd.uploadTags fl = (good ++ bad :: rest)%list ->
        Forall (Spec.resolvable (resolveTag client)) good ->
        Spec.unresolvable (resolveTag client) bad ->
        fst r = Err ("tag not found: " +:+ bad)).
Proof.
  cbv zeta. unfold Spec.upload_references, try, bind, ret.
  destruct (uploadOptionalID_cases (resolveCorrespondent client) "correspondent"
              (cmd.uploadCorrespondent fl) w
              (resolveCorrespondent_only_gets transport json hasUnicode client))
    as (G1 & E1 & U1).
  pose proof (uploadOptionalID_found (resolveCorrespondent client)
                "correspondent" (cmd.uploadCorrespondent fl) w) as F1.
  revert G1 E1 U1 F1.
  destruct (cmd.uploadOptionalID (resolveCorrespondent client) "correspondent"
              (cmd.uploadCorrespondent fl) w) as [[corrID|e1] w1];
    cbn [fst snd]; intros G1 E1 U1 F1.
  2: { split; [exact G1|].
       split; [intros Hne Hu; now rewrite (E1 e1 eq_refl)|].
       split; intros Hf; destruct (F1 Hf) as [r Hr]; discriminate. }
  destruct (uploadOptionalID_cases (resolveDocumentType client) "document type"
              (cmd.uploadDocType fl) w1
              (resolveDocumentType_only_gets transport json hasUnicode client))
    as (G2 & E2 & U2).
  pose proof (uploadOptionalID_found (resolveDocumentType client)
                "document type" (cmd.uploadDocType fl) w1) as F2.
  revert G2 E2 U2 F2.
  destruct (cmd.uploadOptionalID (resolveDocumentType client) "document type"
              (cmd.uploadDocType fl) w1) as [[typeID|e2] w2];
    cbn [fst snd]; intros G2 E2 U2 F2.
  2: { split; [exact (only_gets_trans _ _ _ G1 G2)|].
       split; [intros Hne Hu; specialize (U1 Hne Hu); discriminate|].
       split; [intros _ Hne Hu; now rewrite (E2 e2 eq_refl)|].
       intros _ Hf. destruct (F2 Hf) as [r Hr]. discriminate. }
  destruct (uploadTagIDs_cases client (cmd.uploadTags fl) [] w2)
    as (G3 & _).
  pose proof (fun good bad rest =>
                uploadTagIDs_first_bad client good bad rest [] w2) as F3.
  revert G3 F3.
  destruct (cmd.uploadTags fl) as [|t0 ts] eqn:Etags.
  - cbn [cmd.uploadTagIDs ret fst snd]. intros G3 F3.
    split; [exact (only_gets_trans _ _ _ G1 G2)|].
    split; [intros Hne Hu; specialize (U1 Hne Hu); discriminate|].
    split; [intros _ Hne Hu; specialize (U2 Hne Hu); discriminate|].
    intros _ _ good bad rest Hl. now destruct good.
  - destruct (cmd.uploadTagIDs transport json hasUnicode client (t0 :: ts) [] w2)
      as [[tagIDs|e3] w3] eqn:Eup; cbn [fst snd]; intros G3 F3.
    + split; [exact (only_gets_trans _ _ _ (only_gets_trans _ _ _ G1 G2) G3)|].
      split; [intros Hne Hu; specialize (U1 Hne Hu); discriminate|].
      split; [intros _ Hne Hu; specialize (U2 Hne Hu); discriminate|].
      intros _ _ good bad rest Hl Hgood Hbad.
      specialize (F3 good bad rest Hgood Hbad). rewrite <- Hl, Eup in F3.
      discriminate.
    + split; [exact (only_gets_trans _ _ _ (only_gets_trans _ _ _ G1 G2) G3)|].
      split; [intros Hne Hu; specialize (U1 Hne Hu); discriminate|].
      split; [intros _ Hne Hu; specialize (U2 Hne Hu); discriminate|].
      intros _ _ good bad rest Hl Hgood Hbad.
      specialize (F3 good bad rest Hgood Hbad). rewrite <- Hl, Eup in F3.
      cbn [fst] in F3. now injection F3 as ->.
Qed.

(** X22. [runDocsUpload] resolves the correspondent, then the document
    type, then the tags in the order given, before it looks at any file,
    and stops at the first that no record is found for. A correspondent
    that is not found is "correspondent not found: <name>", whatever the
    document type and the tags are. With the correspondent found or not
    given, a document type that is not found is "document type not found:
    <name>". With both found or not given, the first tag that is not
    found is "tag not found: <name>". In each case only [GET] requests
    are made and nothing is printed, so no file of the batch is uploaded
    and none is announced. *)
Theorem runDocsUpload_resolves_first (client : Client) (args : list string)
    (w : World) :
  cmd.getClient getenv Load fl = Ok client ->
  let corr := cmd.uploadCorrespondent fl in
  let type_ := cmd.uploadDocType fl in
  let found (resolve_ : string -> M (result Z)) (flag : string) :=
    flag = "" \/ Spec.resolvable resolve_ flag in
  let fails_with (e : error) :=
    fst (runDocsUpload args w) = Err e
    /\ Spec.only_gets w (snd (runDocsUpload args w)) in
  (corr <> "" -> Spec.unresolvable (resolveCorrespondent client) corr ->
   fails_with ("correspondent not found: " +:+ corr))
  /\ (found (resolveCorrespondent client) corr ->
      type_ <> "" -> Spec.unresolvable (resolveDocumentType client) type_ ->
      fails_with ("document type not found: " +:+ type_))
  /\ (found (resolveCorrespondent client) corr ->
      found (resolveDocumentType client) type_ ->
      forall good bad rest,
        cmd.uploadTags fl = (good ++ bad :: rest)%list ->
        Forall (Spec.resolvable (resolveTag client)) good ->
        Spec.unresolvable (resolveTag client) bad ->
        fails_with ("tag not found: " +:+ bad)).
Proof.
  intros Hc corr type_ found fails_with.
  subst corr type_ found fails_with. cbv beta.
  destruct (upload_references_fail client w) as (G & H1 & H2 & H3).
  assert (Hstop : forall e,
             fst (Spec.upload_references transport json hasUnicode fl client w)
             = Err e ->
             fst (runDocsUpload args w) = Err e
             /\ Spec.only_gets w (snd (runDocsUpload args w))).
  { intros e He.
    rewrite (runDocsUpload_eq transport json fs boundary hasUnicode getenv Load
               fl client args w Hc).
    revert G He.
    destruct (Spec.upload_references transport json hasUnicode fl client w)
      as [[[[corrID typeID] tagIDs]|e'] w0]; cbn [fst snd]; intros G He;
      [discriminate|].
    injection He as ->. now split. }
  split; [|split].
  - intros Hne Hu. apply Hstop. exact (H1 Hne Hu).
  - intros Hf Hne Hu. apply Hstop. exact (H2 Hf Hne Hu).
  - intros Hf1 Hf2 good bad rest Hl Hgood Hbad. apply Hstop.
    exact (H3 Hf1 Hf2 good bad rest Hl Hgood Hbad).
Qed.

End UploadResolves.

Lemma runDocsUpload_resolves_first_witness :
  cmd.uploadTags Fixture.upload_unknown_correspondent = ["nonexistent"]
  /\ fst (cmd.runDocsUpload (Fixture.always (Fixture.response 200 ""))
            Fixture.codec (Fixture.any_file "%PDF") Fixture.fixed_boundary
            Fixture.ascii_only Fixture.getenv Fixture.no_config
            Fixture.upload_unknown_correspondent ["a.pdf"; "b.pdf"]
            Fixture.empty_world)
     = Err "correspondent not found: nobody"
  /\ fst (cmd.runDocsUpload (Fixture.always (Fixture.response 200 ""))
            Fixture.codec (Fixture.any_file "%PDF") Fixture.fixed_boundary
            Fixture.ascii_only Fixture.getenv Fixture.no_config
            Fixture.upload_unknown_tag ["a.pdf"; "b.pdf"] Fixture.empty_world)
     = Err "tag not found: nonexistent".
Proof.
  split; [reflexivity|]. split.
  - destruct (runDocsUpload_resolves_first
                (Fixture.always (Fixture.response 200 "")) Fixture.codec
                (Fixture.any_file "%PDF") Fixture.fixed_boundary
                Fixture.ascii_only Fixture.getenv Fixture.no_config
                Fixture.upload_unknown_correspondent Fixture.client
                ["a.pdf"; "b.pdf"] Fixture.empty_world eq_refl) as [H _].
    apply H; [discriminate|]. intros w0. eexists. reflexivity.
  - destruct (runDocsUpload_resolves_first
                (Fixture.always (Fixture.response 200 "")) Fixture.codec
                (Fixture.any_file "%PDF") Fixture.fixed_boundary
                Fixture.ascii_only Fixture.getenv Fixture.no_config
                Fixture.upload_unknown_tag Fixture.client ["a.pdf"; "b.pdf"]
                Fixture.empty_world eq_refl) as (_ & _ & H).
    apply (H (or_introl eq_refl) (or_introl eq_refl) ["Bills"] "nonexistent" []).
    + reflexivity.
    + repeat constructor. intros w0. eexists. reflexivity.
    + intros w0. eexists. reflexivity.
Defined.

(** ** The download command *)

Section DownloadCommand.

Import http api.

Variable transport : list Exchange -> Exchange -> result Response.
Variable getenv : string -> string.
Variable Load : result config.Config.
Variable fl : cmd.Flags.
Variable rf : cmd.ResourceFlags.
Variable write_outcome : os.Disk -> string -> string -> os.WriteOutcome.
Variable umask : Z.

Local Abbreviation runDocsDownload :=
  (cmd.runDocsDownload transport getenv Load fl rf write_outcome umask).

Lemma download_target_first (output filename : string) (id : Z) :
  cmd.download_target output filename id
  = Spec.first_nonempty
      [output; filename; "document_" +:+ strconv.Itoa id +:+ ".pdf"].
Proof.
  unfold cmd.download_target, Spec.first_nonempty.
  destruct (String.eqb output ""); [|reflexivity].
  destruct (String.eqb filename ""); reflexivity.
Qed.

(** X23. [runDocsDownload] asks for the document with one [GET] request
    to [/api/documents/<id>/download/] (with [?original=true] for
    [--original]). On status 200 with a body read to its end, the bytes
    are written to the [--output] path when given, else to the file name
    of the response's [Content-Disposition] header as the server gives
    it, else to [document_<id>.pdf]; a file already at that path is
    replaced and keeps its permission bits, a new file gets 0644 without
    the bits of the umask. Unless in quiet mode the command prints
    "Downloaded to <path> (<n> bytes)". *)
Theorem runDocsDownload_writes (client : Client) (arg : string) (id : Z)
    (resp : Response) (d : os.Disk) (w : World) :
  cmd.getClient getenv Load fl = Ok client ->
  strconv.Atoi arg = Some id ->
  (forall ex h, transport h ex = Ok resp) ->
  StatusCode resp = StatusOK ->
  read_error (RespBody resp) = None ->
  let bytes := data (RespBody resp) in
  let target :=
    Spec.first_nonempty
      [cmd.downloadOutput rf; download_filename (RespHeader resp);
       "document_" +:+ strconv.Itoa id +:+ ".pdf"] in
  write_outcome d target bytes = os.Written ->
  runDocsDownload arg d w
  = ((Ok tt,
      <[target := {| os.bytes := bytes;
                     os.mode := match d !! target with
                                | Some old => os.mode old
                                | None => Z.ldiff 420 umask
                                end |}]> d),
     Spec.printed
       (Spec.logged w
          (Spec.exchange_of client "GET"
             ("/api/documents/" +:+ strconv.Itoa id +:+ "/download/"
              +:+ (if cmd.downloadOriginal rf then "?original=true" else ""))
             NoBody ""))
       (Spec.unless_quiet fl
          ("Downloaded to " +:+ target +:+ " (" +:+ strconv.Itoa (len bytes)
           +:+ " bytes)"))).
Proof.
  intros Hc Ha H Hs Hr bytes target Hw.
  unfold cmd.runDocsDownload. rewrite Hc, Ha.
  unfold bind at 1. unfold DownloadDocument, get, try, bind at 1.
  rewrite request_eq, H. cbn [ret].
  unfold download_result, io_ReadAll. rewrite Hs, Hr.
  change (StatusOK =? StatusOK) with true. cbn [negb].
  rewrite download_target_first. fold bytes target.
  unfold os.WriteFile. rewrite Hw.
  assert (Ep : (if cmd.downloadOriginal rf
                then ("/api/documents/" +:+ strconv.Itoa id +:+ "/download/")
                     +:+ "?original=true"
                else "/api/documents/" +:+ strconv.Itoa id +:+ "/download/")
               = "/api/documents/" +:+ strconv.Itoa id +:+ "/download/"
                 +:+ (if cmd.downloadOriginal rf then "?original=true" else "")).
  { destruct (cmd.downloadOriginal rf).
    - now rewrite !string_app_assoc.
    - now rewrite !string_app_empty_r. }
  rewrite Ep. unfold cmd.isQuiet, Spec.unless_quiet.
  destruct (cmd.quietMode fl); cbn [negb]; unfold bind, ret, print.
  - now rewrite printed_nil.
  - unfold Spec.printed. cbn [exchanges terminal].
    now rewrite !string_app_assoc.
Qed.

(** X24. [runDocsDownload] never changes anything on the server: it
    makes [GET] requests only, and none when the argument is not an
    integer. It touches at most one path of the disk, and none unless
    the download succeeded: when the command fails and the disk is not
    as before, the error is "failed to write file: ...". *)
Theorem runDocsDownload_is_careful (arg : string) (d : os.Disk) (w : World) :
  let r := runDocsDownload arg d w in
  Spec.reads_only w (snd r)
  /\ (strconv.Atoi arg = None -> snd r = w /\ snd (fst r) = d)
  /\ (exists target, forall path, path <> target ->
        snd (fst r) !! path = d !! path)
  /\ (forall e, fst (fst r) = Err e ->
        snd (fst r) = d \/ exists err, e = "failed to write file: " +:+ err).
Proof.
  assert (Hrefl : forall w0, Spec.reads_only w0 w0).
  { intros w0. exists []. split; [now rewrite List.app_nil_r | constructor]. }
  cbv zeta. remember (runDocsDownload arg d w) as r eqn:Er. revert Er.
  unfold cmd.runDocsDownload.
  destruct (cmd.getClient getenv Load fl) as [client|e0].
  2: { intros ->. cbn [ret fst snd]. split; [apply Hrefl|].
       split; [now split|]. split; [now exists ""|]. intros; now left. }
  destruct (strconv.Atoi arg) as [id|].
  2: { intros ->. cbn [ret fst snd]. split; [apply Hrefl|].
       split; [now split|]. split; [now exists ""|]. intros; now left. }
  unfold bind at 1.
  assert (Hg : Spec.reads_only w
                 (snd (DownloadDocument transport client id
                         (cmd.downloadOriginal rf) w))).
  { unfold DownloadDocument, get, try, bind. rewrite request_eq.
    eexists [_]. split; [destruct (transport _ _); reflexivity|].
    repeat constructor. }
  revert Hg.
  destruct (DownloadDocument transport client id (cmd.downloadOriginal rf) w)
    as [[[bytes filename]|e1] w1]; cbn [fst snd ret]; intros Hg.
  2: { intros ->. cbn [fst snd]. split; [exact Hg|]. split; [discriminate|].
       split; [now exists ""|]. intros; now left. }
  set (target := cmd.download_target (cmd.downloadOutput rf) filename id).
  unfold os.WriteFile.
  assert (Hp : forall (f : os.file) path, path <> target ->
                 <[target := f]> d !! path = d !! path)
    by (intros f path Hne; now rewrite lookup_insert_ne).
  assert (Hq : forall path, path <> target ->
                 base.delete target d !! path = d !! path)
    by (intros path Hne; now rewrite lookup_delete_ne).
  destruct (write_outcome d target bytes) as [|err [f|]].
  - unfold bind, ret.
    destruct (negb (cmd.isQuiet fl)); unfold print; intros ->; cbn [fst snd];
      (split; [destruct Hg as (l & El & Fl); exists l; split; assumption|]);
      (split; [discriminate|]);
      (split; [exists target; apply Hp | discriminate]).
  - intros ->. cbn [fst snd ret]. split; [exact Hg|]. split; [discriminate|].
    split; [exists target; apply Hp|]. intros e [= <-]. right. eauto.
  - intros ->. cbn [fst snd ret]. split; [exact Hg|]. split; [discriminate|].
    split; [exists target; apply Hq|]. intros e [= <-]. right. eauto.
Qed.

End DownloadCommand.

Lemma runDocsDownload_writes_witness :
  fst (cmd.runDocsDownload (Fixture.always Fixture.invoice_response)
         Fixture.getenv Fixture.no_config Fixture.no_flags
         Fixture.no_resource_flags Fixture.writable 18 "12" Fixture.old_invoice
         Fixture.empty_world)
  = (Ok tt, {[ "invoice.pdf" := {| os.bytes := "%PDF"; os.mode := 384 |} ]}).
Proof.
  rewrite (runDocsDownload_writes (Fixture.always Fixture.invoice_response)
             Fixture.getenv Fixture.no_config Fixture.no_flags
             Fixture.no_resource_flags Fixture.writable 18 Fixture.client "12" 12
             Fixture.invoice_response Fixture.old_invoice Fixture.empty_world
             eq_refl eq_refl (fun _ _ => eq_refl) eq_refl eq_refl eq_refl).
  vm_compute. reflexivity.
Defined.

(** ** The configuration file *)

Section ConfigFile.

Import config.

Variable UserHomeDir : result string.
Variable Join : list string -> string.
Variable read_error : string -> option error.
Variable write_outcome : os.Disk -> string -> string -> os.WriteOutcome.
Variable umask : Z.
Variable mkdir_error : string -> option error.
Variable yaml_Unmarshal : string -> result Config.
Variable yaml_Marshal : Config -> result string.

Local Abbreviation Load :=
  (config.Load UserHomeDir Join read_error yaml_Unmarshal).
Local Abbreviation Save :=
  (config.Save UserHomeDir Join write_outcome umask mkdir_error yaml_Marshal).
Local Abbreviation SetURL :=
  (config.SetURL UserHomeDir Join read_error write_outcome umask mkdir_error
     yaml_Unmarshal yaml_Marshal).
Local Abbreviation SetToken :=
  (config.SetToken UserHomeDir Join read_error write_outcome umask mkdir_error
     yaml_Unmarshal yaml_Marshal).

Lemma private_mode : Z.land (Z.ldiff 384 umask) 63 = 0.
Proof.
  apply Z.bits_inj'. intros n Hn.
  rewrite Z.land_spec, Z.ldiff_spec, Z.bits_0.
  destruct (Z.testbit 63 n) eqn:E; [|apply andb_false_r].
  assert (n < 6).
  { destruct (Z_lt_le_dec n 6) as [|Hge]; [assumption|].
    rewrite (Z.bits_above_log2 63 n) in E; [discriminate | lia |].
    apply Z.lt_le_trans with 6; [|exact Hge].
    change (Z.log2 63) with 5. lia. }
  assert (n = 0 \/ n = 1 \/ n = 2 \/ n = 3 \/ n = 4 \/ n = 5) as Hcases by lia.
  destruct Hcases as [-> | [-> | [-> | [-> | [-> | ->]]]]]; reflexivity.
Qed.

(** What [Save] leaves when every step of it succeeds. *)
Lemma Save_written (home text : string) (new : Config) (d : os.Disk) :
  UserHomeDir = Ok home ->
  let dir := Join [home; ".config"; "paperless-cli"] in
  let path := Join [dir; "config.yaml"] in
  read_error path = None ->
  mkdir_error dir = None ->
  yaml_Marshal new = Ok text ->
  yaml_Unmarshal text = Ok new ->
  write_outcome d path text = os.Written ->
  fst (Save new d) = Ok tt
  /\ Load (snd (Save new d)) = Ok new
  /\ (forall other, other <> path -> snd (Save new d) !! other = d !! other)
  /\ (d !! path = None ->
      exists f, snd (Save new d) !! path = Some f
                /\ Z.land (os.mode f) 63 = 0).
Proof.
  intros Hh dir path Hr Hd Hm Hu Hw.
  unfold config.Save, config.Load, config.configPath, config.configDir.
  rewrite Hh. fold dir. rewrite Hd. fold path. rewrite Hm.
  unfold os.WriteFile, os.ReadFile. rewrite Hw, Hr. cbn [fst snd].
  rewrite lookup_insert_eq. cbn [os.bytes]. rewrite Hu.
  split; [reflexivity|]. split; [reflexivity|]. split.
  - intros other Hne. now rewrite lookup_insert_ne.
  - intros ->. eexists. split; [reflexivity|]. apply private_mode.
Qed.

(** X25. [SetURL] keeps the token and [SetToken] keeps the URL of a
    configuration file that loads: when the directory can be made, the
    new configuration marshals to a text that unmarshals to it again and
    the file can be written, loading the file afterwards gives the new
    value with the other field as it was, and no other path of the disk
    changes. A configuration file that did not exist before is created
    without any permission for group and others, whatever the umask. *)
Theorem config_set_keeps_other_field (home value text : string) (cfg : Config)
    (url_not_token : bool) (d : os.Disk) :
  UserHomeDir = Ok home ->
  let dir := Join [home; ".config"; "paperless-cli"] in
  let path := Join [dir; "config.yaml"] in
  let new := if url_not_token then {| URL := value; Token := Token cfg |}
             else {| URL := URL cfg; Token := value |} in
  let set := if url_not_token then SetURL value d else SetToken value d in
  Load d = Ok cfg ->
  mkdir_error dir = None ->
  yaml_Marshal new = Ok text ->
  yaml_Unmarshal text = Ok new ->
  write_outcome d path text = os.Written ->
  fst set = Ok tt
  /\ Load (snd set) = Ok new
  /\ (forall other, other <> path -> snd set !! other = d !! other)
  /\ (d !! path = None ->
      exists f, snd set !! path = Some f /\ Z.land (os.mode f) 63 = 0).
Proof.
  intros Hh dir path new set Hl Hd Hm Hu Hw.
  assert (Hr : read_error path = None).
  { revert Hl. unfold config.Load, config.configPath, config.configDir,
      os.ReadFile. rewrite Hh. fold dir path.
    now destruct (read_error path). }
  assert (E : set = Save new d).
  { subst set new. unfold config.SetURL, config.SetToken. rewrite Hl.
    now destruct url_not_token. }
  rewrite E. exact (Save_written home text new d Hh Hr Hd Hm Hu Hw).
Qed.

(** X26. A configuration file that is there but does not parse is
    replaced, not repaired: [SetURL] then saves the URL with an empty
    token and [SetToken] the token with an empty URL, so that whatever
    the other field was in the file is gone when the file is loaded
    again. *)
Theorem config_set_replaces_unparsable (home value text e : string)
    (old : os.file) (url_not_token : bool) (d : os.Disk) :
  UserHomeDir = Ok home ->
  let dir := Join [home; ".config"; "paperless-cli"] in
  let path := Join [dir; "config.yaml"] in
  let new := if url_not_token then {| URL := value; Token := "" |}
             else {| URL := ""; Token := value |} in
  let set := if url_not_token then SetURL value d else SetToken value d in
  read_error path = None ->
  d !! path = Some old ->
  yaml_Unmarshal (os.bytes old) = Err e ->
  mkdir_error dir = None ->
  yaml_Marshal new = Ok text ->
  yaml_Unmarshal text = Ok new ->
  write_outcome d path text = os.Written ->
  Load d = Err ("parsing config: " +:+ e)
  /\ fst set = Ok tt
  /\ Load (snd set) = Ok new.
Proof.
  intros Hh dir path new set Hr Hold He Hd Hm Hu Hw.
  assert (Hl : Load d = Err ("parsing config: " +:+ e)).
  { unfold config.Load, config.configPath, config.configDir, os.ReadFile.
    rewrite Hh. fold dir path. now rewrite Hr, Hold, He. }
  assert (E : set = Save new d).
  { subst set new. unfold config.SetURL, config.SetToken. rewrite Hl.
    now destruct url_not_token. }
  rewrite E.
  destruct (Save_written home text new d Hh Hr Hd Hm Hu Hw) as (H1 & H2 & _).
  now split.
Qed.

End ConfigFile.

Lemma config_set_keeps_other_field_witness :
  let SetURL := config.SetURL Fixture.home Fixture.join_paths Fixture.no_error
                  Fixture.writable 18 Fixture.no_error Fixture.yaml_Unmarshal
                  Fixture.yaml_Marshal in
  let SetToken := config.SetToken Fixture.home Fixture.join_paths
                    Fixture.no_error Fixture.writable 18 Fixture.no_error
                    Fixture.yaml_Unmarshal Fixture.yaml_Marshal in
  config.Load Fixture.home Fixture.join_paths Fixture.no_error
    Fixture.yaml_Unmarshal
    (snd (SetToken "s3cret" (snd (SetURL "http://paperless.local" ∅))))
  = Ok {| config.URL := "http://paperless.local"; config.Token := "s3cret" |}.
Proof.
  intros SetURL SetToken.
  pose (d1 := snd (SetURL "http://paperless.local" ∅)).
  assert (H0 : config.Load Fixture.home Fixture.join_paths Fixture.no_error
                 Fixture.yaml_Unmarshal ∅
               = Ok {| config.URL := ""; config.Token := "" |})
    by (vm_compute; reflexivity).
  destruct (config_set_keeps_other_field Fixture.home Fixture.join_paths
              Fixture.no_error Fixture.writable 18 Fixture.no_error
              Fixture.yaml_Unmarshal Fixture.yaml_Marshal
              "/home/me" "http://paperless.local"
              ("url: http://paperless.local" +:+ Fixture.LF +:+ "token: "
               +:+ Fixture.LF)
              {| config.URL := ""; config.Token := "" |} true ∅
              eq_refl H0 eq_refl eq_refl eq_refl eq_refl)
    as (_ & H1 & _).
  destruct (config_set_keeps_other_field Fixture.home Fixture.join_paths
              Fixture.no_error Fixture.writable 18 Fixture.no_error
              Fixture.yaml_Unmarshal Fixture.yaml_Marshal
              "/home/me" "s3cret"
              ("url: http://paperless.local" +:+ Fixture.LF +:+ "token: s3cret"
               +:+ Fixture.LF)
              {| config.URL := "http://paperless.local"; config.Token := "" |}
              false d1 eq_refl H1 eq_refl eq_refl eq_refl eq_refl)
    as (_ & H2 & _).
  exact H2.
Defined.

Lemma config_set_replaces_unparsable_witness :
  config.Load Fixture.home Fixture.join_paths Fixture.no_error
    Fixture.yaml_Unmarshal
    (snd (config.SetURL Fixture.home Fixture.join_paths Fixture.no_error
            Fixture.writable 18 Fixture.no_error Fixture.yaml_Unmarshal
            Fixture.yaml_Marshal "http://paperless.local"
            Fixture.corrupt_config))
  = Ok {| config.URL := "http://paperless.local"; config.Token := "" |}.
Proof.
  assert (H0 : Fixture.corrupt_config
               !! Fixture.join_paths
                    [Fixture.join_paths ["/home/me"; ".config"; "paperless-cli"];
                     "config.yaml"]
               = Some {| os.bytes := "token: [s3cret"; os.mode := 384 |})
    by (vm_compute; reflexivity).
  destruct (config_set_replaces_unparsable Fixture.home Fixture.join_paths
              Fixture.no_error Fixture.writable 18 Fixture.no_error
              Fixture.yaml_Unmarshal Fixture.yaml_Marshal
              "/home/me" "http://paperless.local"
              ("url: http://paperless.local" +:+ Fixture.LF +:+ "token: "
               +:+ Fixture.LF)
              "yaml: unmarshal errors"
              {| os.bytes := "token: [s3cret"; os.mode := 384 |} true
              Fixture.corrupt_config
              eq_refl eq_refl H0 eq_refl eq_refl eq_refl eq_refl eq_refl)
    as (_ & _ & H).
  exact H.
Defined.

(** ** What the content and the configuration commands print *)

Section ShowCommands.

Import http api.

Variable transport : list Exchange -> Exchange -> result Response.
Variable json : Codec.
Variable getenv : string -> string.
Variable Load : result config.Config.
Variable fl : cmd.Flags.

(** X27. [runDocsContent] reads the document with one [GET] request and
    prints its text content followed by a newline, or with [--json] an
    object with the content and the ID as it was typed on the command
    line; it prints in quiet mode too. *)
Theorem runDocsContent_prints (client : Client) (arg : string) (id : Z)
    (resp : Response) (doc : Document.t) (w : World) :
  cmd.getClient getenv Load fl = Ok client ->
  strconv.Atoi arg = Some id ->
  (forall ex h, transport h ex = Ok resp) ->
  StatusCode resp = StatusOK ->
  decodeDocument json (RespBody resp) = Ok doc ->
  cmd.runDocsContent transport json getenv Load fl arg w
  = (Ok tt,
     Spec.printed (Spec.logged w (Spec.document_request client id))
       [if cmd.jsonOutput fl
        then StdoutJSON {[ "id" := arg; "content" := Document.Content doc ]}
        else Stdout (Document.Content doc +:+ String "010" "")]).
Proof.
  intros Hc Ha H Hs Hd. unfold cmd.runDocsContent, try, bind, ret.
  rewrite Hc, Ha. fold (@bind (result Document.t) (result unit)).
  unfold bind. rewrite (GetDocument_ok transport json client id resp doc w H Hs Hd).
  unfold cmd.isJSON, print, Spec.printed.
  destruct (cmd.jsonOutput fl); cbn [exchanges terminal]; reflexivity.
Qed.

Lemma maskToken_some (token : string) :
  len token <= int_max ->
  exists masked, cmd.maskToken token = Some masked /\ len masked <= 11.
Proof.
  intros Hlen. unfold cmd.maskToken.
  destruct (String.eqb token "");
    [eexists; split; [reflexivity | vm_compute; discriminate]|].
  destruct (Z.leb_spec (len token) 8) as [H8|H8];
    [eexists; split; [reflexivity | vm_compute; discriminate]|].
  destruct (slice_to_ok token 4) as (head & -> & Hh & _); [lia|].
  rewrite wrap_int_id by (unfold int_range, int_min, int_max in *; lia).
  unfold slice_from.
  replace ((0 <=? len token - 4) && (len token - 4 <=? len token)) with true
    by (symmetry; apply andb_true_intro; split; apply Z.leb_le; lia).
  eexists. split; [reflexivity|].
  assert (Htail : len (substring (Z.to_nat (len token - 4))
                         (String.length token - Z.to_nat (len token - 4)) token)
                  = 4).
  { unfold len in *.
    pose proof (substring_split (Z.to_nat (Z.of_nat (String.length token) - 4))
                  token ltac:(lia)) as Hs.
    apply (f_equal String.length) in Hs. rewrite string_length_app in Hs.
    rewrite substring_0_length in Hs by lia. lia. }
  unfold len in *. rewrite !string_length_app. simpl String.length at 2. lia.
Qed.

(** X28. [runConfigShow] prints the URL of the configuration file and
    its token as [maskToken] gives it, which is at most eleven bytes long,
    so that a token of more than eleven bytes is not printed whole; it
    makes no request and prints in quiet mode too. With [--json] that is
    all. Otherwise a note with the value of PAPERLESS_URL follows when
    that variable is set and differs from the URL of the file, and a
    note without any value when PAPERLESS_TOKEN is set and differs from
    the token of the file. The command does not fail on a short token. *)
Theorem runConfigShow_prints (cfg : config.Config) (w : World) :
  Load = Ok cfg ->
  len (config.Token cfg) <= int_max ->
  let envURL := getenv "PAPERLESS_URL" in
  let envToken := getenv "PAPERLESS_TOKEN" in
  exists masked,
    cmd.maskToken (config.Token cfg) = Some masked
    /\ len masked <= 11
    /\ (11 < len (config.Token cfg) -> masked <> config.Token cfg)
    /\ cmd.runConfigShow getenv Load fl w
       = Some
           (Ok tt,
            Spec.printed w
              (if cmd.jsonOutput fl
               then [StdoutJSON {[ "url" := config.URL cfg; "token" := masked ]}]
               else
                 [Stdout ("URL:   " +:+ config.URL cfg +:+ String "010" "");
                  Stdout ("Token: " +:+ masked +:+ String "010" "")]
                 ++ (if negb (String.eqb envURL "")
                        && negb (String.eqb envURL (config.URL cfg))
                     then [Stdout (String "010" ""
                                   +:+ "(URL overridden by PAPERLESS_URL: "
                                   +:+ envURL +:+ ")" +:+ String "010" "")]
                     else [])
                 ++ (if negb (String.eqb envToken "")
                        && negb (String.eqb envToken (config.Token cfg))
                     then [Stdout ("(Token overridden by PAPERLESS_TOKEN)"
                                   +:+ String "010" "")]
                     else []))).
Proof.
  intros Hl Hlen envURL envToken.
  destruct (maskToken_some _ Hlen) as (masked & Hm & Hmax).
  exists masked. split; [exact Hm|]. split; [exact Hmax|].
  split; [intros Hlong E; rewrite E in Hmax; lia|].
  unfold cmd.runConfigShow. rewrite Hl at 1. rewrite Hm.
  unfold cmd.isJSON. destruct (cmd.jsonOutput fl).
  { unfold bind, print, ret, Spec.printed. reflexivity. }
  assert (Eu : negb (String.eqb (config.GetURL getenv Load) (config.URL cfg))
               && negb (String.eqb (config.GetURL getenv Load) "")
               = negb (String.eqb envURL "")
                 && negb (String.eqb envURL (config.URL cfg))
               /\ (negb (String.eqb envURL "")
                   && negb (String.eqb envURL (config.URL cfg)) = true ->
                   config.GetURL getenv Load = envURL)).
  { unfold config.GetURL. fold envURL. rewrite Hl.
    destruct (String.eqb_spec envURL "") as [E|E]; cbn [negb andb].
    - rewrite String.eqb_refl. split; [reflexivity | discriminate].
    - apply String.eqb_neq in E. rewrite ?E. cbn [negb andb].
      rewrite ?andb_true_r. split; reflexivity. }
  assert (Et : negb (String.eqb (config.GetToken getenv Load) (config.Token cfg))
               && negb (String.eqb (config.GetToken getenv Load) "")
               = negb (String.eqb envToken "")
                 && negb (String.eqb envToken (config.Token cfg))).
  { unfold config.GetToken. fold envToken. rewrite Hl.
    destruct (String.eqb_spec envToken "") as [E|E]; cbn [negb andb].
    - now rewrite String.eqb_refl.
    - apply String.eqb_neq in E. rewrite ?E. cbn [negb andb].
      now rewrite ?andb_true_r. }
  destruct Eu as [Eu Ev]. cbv zeta. rewrite Eu, Et.
  unfold bind, print, ret, Spec.printed. cbn [exchanges terminal fst snd].
  destruct (negb (String.eqb envURL "")
            && negb (String.eqb envURL (config.URL cfg))) eqn:Bu;
    destruct (negb (String.eqb envToken "")
              && negb (String.eqb envToken (config.Token cfg)));
    cbn [exchanges terminal fst snd]; rewrite ?(Ev eq_refl);
    rewrite <- ?List.app_assoc; cbn [app]; reflexivity.
Qed.

End ShowCommands.

(** ** Commands without a client, uploads without a file *)

Section NoClient.

Import http api.

Variable transport : list Exchange -> Exchange -> result Response.
Variable json : Codec.
Variable fs : string -> File.
Variable boundary : nat -> string.
Variable hasUnicode : string -> string -> bool.
Variable getenv : string -> string.
Variable Load : result config.Config.
Variable stdin_word : string.
Variable range_keys : gmap Z bool -> list Z.
Variable fl : cmd.Flags.
Variable entities : EntityCodec.
Variable printer : cmd.Printer.
Variable rf : cmd.ResourceFlags.
Variable write_outcome : os.Disk -> string -> string -> os.WriteOutcome.
Variable umask : Z.

(** X29. A file that cannot be opened or read is never sent:
    [UploadDocument] returns the error without making a request. In
    [runDocsUpload] a file that does not exist is "file not found:
    <path>" before anything is printed; a file that exists and cannot be
    read is announced (unless in quiet mode) and then fails with "upload
    failed for <path>: <error>". *)
Theorem upload_of_unreadable_file (client : Client) (filePath title : string)
    (correspondent docType : option Z) (tags : list Z) (w : World) :
  (forall bytes, fs filePath <> Content bytes) ->
  exists e,
    UploadDocument transport fs boundary client filePath title correspondent
      docType tags w = (Err e, w)
    /\ cmd.uploadFile transport fs boundary fl client correspondent docType tags
         filePath w
       = match fs filePath with
         | Missing => (Err ("file not found: " +:+ filePath), w)
         | _ => (Err ("upload failed for " +:+ filePath +:+ ": " +:+ e),
                 Spec.printed w (Spec.announcement fl filePath))
         end.
Proof.
  intros Hf. unfold cmd.uploadFile, UploadDocument.
  destruct (fs filePath) as [|e|e|bytes] eqn:E.
  - eexists. split; reflexivity.
  - exists e. split; [reflexivity|]. unfold bind at 1.
    rewrite announce_eq. reflexivity.
  - exists e. split; [reflexivity|]. unfold bind at 1.
    rewrite announce_eq. reflexivity.
  - destruct (Hf bytes eq_refl).
Qed.

(** X30. Without a client (no server URL or no token, see
    [getClient]) every command stops with that error before it reads its
    arguments: nothing is sent, printed, asked or written. *)
Theorem commands_need_client (e : error) (arg arg' : string)
    (args : list string) (d : os.Disk) (w : World) :
  cmd.getClient getenv Load fl = Err e ->
  cmd.runDocsUpload transport json fs boundary hasUnicode getenv Load fl args w
  = (Err e, w)
  /\ cmd.runDocsDelete transport getenv Load stdin_word fl args w = (Err e, w)
  /\ cmd.runDocsEdit transport json hasUnicode getenv Load range_keys fl arg w
     = (Err e, w)
  /\ cmd.runDocsContent transport json getenv Load fl arg w = (Err e, w)
  /\ cmd.runDocsDownload transport getenv Load fl rf write_outcome umask arg d w
     = ((Err e, d), w)
  /\ cmd.runTagsCreate transport json getenv Load fl entities printer rf arg w
     = (Err e, w)
  /\ cmd.runTagsEdit transport json getenv Load fl entities printer rf arg w
     = (Err e, w)
  /\ cmd.runTagsDelete transport getenv Load stdin_word fl rf arg w = (Err e, w)
  /\ cmd.runCorrCreate transport json getenv Load fl entities printer arg w
     = (Err e, w)
  /\ cmd.runCorrEdit transport json getenv Load fl entities printer rf arg w
     = (Err e, w)
  /\ cmd.runCorrDelete transport getenv Load stdin_word fl rf arg w = (Err e, w)
  /\ cmd.runTypesCreate transport json getenv Load fl entities printer arg w
     = (Err e, w)
  /\ cmd.runTypesEdit transport json getenv Load fl entities printer rf arg w
     = (Err e, w)
  /\ cmd.runTypesDelete transport getenv Load stdin_word fl rf arg w = (Err e, w)
  /\ cmd.runStorageCreate transport json getenv Load fl entities printer
       arg arg' w = (Err e, w)
  /\ cmd.runStorageDelete transport getenv Load stdin_word fl rf arg w
     = (Err e, w).
Proof.
  intros Hc.
  unfold cmd.runDocsUpload, cmd.runDocsDelete, cmd.runDocsEdit,
    cmd.runDocsContent, cmd.runDocsDownload, cmd.runTagsCreate,
    cmd.runTagsEdit, cmd.runTagsDelete, cmd.runCorrCreate, cmd.runCorrEdit,
    cmd.runCorrDelete, cmd.runTypesCreate, cmd.runTypesEdit,
    cmd.runTypesDelete, cmd.runStorageCreate, cmd.runStorageDelete,
    cmd.runCreate, cmd.runEdit, cmd.runDelete, try, bind, ret.
  rewrite !Hc. repeat split.
Qed.

End NoClient.

Lemma runDocsContent_prints_witness :
  terminal
    (snd (cmd.runDocsContent (Fixture.always (Fixture.response 200 ""))
            Fixture.codec Fixture.getenv Fixture.no_config Fixture.quiet "12"
            Fixture.empty_world))
  = [Stdout (String "010" "")].
Proof.
  rewrite (runDocsContent_prints (Fixture.always (Fixture.response 200 ""))
             Fixture.codec Fixture.getenv Fixture.no_config Fixture.quiet
             Fixture.client "12" 12 (Fixture.response 200 "")
             (Fixture.document 12 [1; 2; 3]) Fixture.empty_world
             eq_refl eq_refl (fun _ _ => eq_refl) eq_refl eq_refl).
  reflexivity.
Defined.

Lemma runConfigShow_prints_witness :
  cmd.runConfigShow Fixture.getenv Fixture.saved_config Fixture.quiet
    Fixture.empty_world
  = Some
      (Ok tt,
       {| exchanges := [];
          terminal :=
            [Stdout ("URL:   http://files.example" +:+ Fixture.LF);
             Stdout ("Token: 0123...cdef" +:+ Fixture.LF);
             Stdout (Fixture.LF
                     +:+ "(URL overridden by PAPERLESS_URL: http://paperless.local)"
                     +:+ Fixture.LF);
             Stdout ("(Token overridden by PAPERLESS_TOKEN)" +:+ Fixture.LF)] |}).
Proof.
  destruct (runConfigShow_prints Fixture.getenv Fixture.saved_config
              Fixture.quiet
              {| config.URL := "http://files.example";
                 config.Token := "0123456789abcdef" |}
              Fixture.empty_world eq_refl ltac:(vm_compute; discriminate))
    as (masked & Hm & _ & _ & Hr).
  rewrite Hr. vm_compute in Hm. injection Hm as <-. vm_compute. reflexivity.
Defined.

Lemma upload_of_unreadable_file_witness :
  cmd.uploadFile (Fixture.always (Fixture.response 200 "t1"))
    Fixture.locked_files Fixture.fixed_boundary Fixture.quiet Fixture.client
    None None [] "a.pdf" Fixture.empty_world
  = (Err "upload failed for a.pdf: permission denied", Fixture.empty_world).
Proof.
  destruct (upload_of_unreadable_file (Fixture.always (Fixture.response 200 "t1"))
              Fixture.locked_files Fixture.fixed_boundary Fixture.quiet
              Fixture.client "a.pdf" "a" None None [] Fixture.empty_world)
    as (e & He & Hu); [discriminate|].
  rewrite Hu. injection He as <-. reflexivity.
Defined.

Lemma commands_need_client_witness :
  cmd.runDocsDelete (Fixture.always (Fixture.response 204 "")) Fixture.no_env
    Fixture.no_config "y" Fixture.force ["3"] Fixture.empty_world
  = (Err "no server URL configured. Set PAPERLESS_URL or run 'paperless config set-url <url>'",
     Fixture.empty_world).
Proof.
  destruct (commands_need_client (Fixture.always (Fixture.response 204 ""))
              Fixture.codec (Fixture.any_file "") Fixture.fixed_boundary
              Fixture.ascii_only Fixture.no_env Fixture.no_config "y"
              Fixture.keys_in_order Fixture.force Fixture.entities
              Fixture.printer Fixture.no_resource_flags Fixture.writable 18
              "no server URL configured. Set PAPERLESS_URL or run 'paperless config set-url <url>'"
              "3" "" ["3"] ∅ Fixture.empty_world eq_refl) as (_ & H & _).
  exact H.
Defined.
